(** * consul-cloud: topology synthesis and artifact generation

    A shallow embedding of [topology.go] (the topology builder and its query
    surface) and of the decision logic of [gen.go] (the orchestration
    manifest's service graph and the metrics scrape jobs), with the
    properties the specification states about them.

    Conventions of the embedding.
    - Go's [int] is modelled as [Z].  Every integer the builder computes is
      a loop index between 1 and a configured count, or such an index plus
      at most 20, and every index visited stores a node in memory; no
      wrap-around is within reach of a run that terminates.  The one place
      where the 64-bit range decides the outcome, [strconv.Atoi], has the
      range check written out.
    - A Go function that returns [(T, error)] and may also abort returns
      [res T] here: [Ok], [Err] (the returned error) or [Panic].
    - [map[string]T] is a [gmap string T].  The one map the code ranges
      over while its order is observable ([Datacenters] of the input) is an
      association list: the entries in the order the [range] statement of
      this run visits them, keys without repetition. *)

From Stdlib Require Import ZArith String Ascii List Lia Decimal DecimalString DecimalZ DecimalPos.
From stdpp Require Import base option list list_numbers sorting strings gmap.

Local Open Scope Z_scope.

(** ** Outcomes *)

(** The errors the code returns, one constructor per [fmt.Errorf] /
    [errors.New] site; the argument is the value the message is formatted
    with. *)
Inductive error : Type :=
| ErrUnknownNetworkShape (shape : string)   (* "unknown network_shape: %s" *)
| ErrPrimaryMissing                         (* "primary datacenter %q is missing from config" *)
| ErrNoServer (dc : string)                 (* "%s: must always have at least one server" *)
| ErrNoClient (dc : string)                 (* "%s: must always have at least one client" *)
| ErrInvalidDatacenterName (dc : string)    (* "%s: not a valid datacenter name" *)
| ErrUnexpectedService (name : string).     (* "unexpected service: " + name *)

Inductive res (A : Type) : Type :=
| Ok (a : A)
| Err (e : error)
| Panic (msg : string).
Arguments Ok {A} a.
Arguments Err {A} e.
Arguments Panic {A} msg.

#[global] Instance res_bind : MBind res := λ A B k m,
  match m with
  | Ok a => k a
  | Err e => Err e
  | Panic msg => Panic msg
  end.

(** A loop body run over the elements of a slice, threading the state. *)
Fixpoint forEach {A S} (body : S → A → res S) (l : list A) (s : S) : res S :=
  match l with
  | [] => Ok s
  | x :: rest => s' ← body s x; forEach body rest s'
  end.

#[global] Instance error_eq_dec : EqDecision error.
Proof. solve_decision. Defined.

(** ** Library functions the code calls *)

(** [strconv.Itoa]: decimal digits, a leading "-" for negative numbers. *)
Definition Itoa (i : Z) : string := NilZero.string_of_int (Z.to_int i).

Definition MaxInt : Z := 2 ^ 63 - 1.
Definition MinInt : Z := - 2 ^ 63.

Definition is_digit (c : ascii) : bool :=
  (48 <=? Z.of_N (N_of_ascii c)) && (Z.of_N (N_of_ascii c) <=? 57).

Fixpoint all_digits (s : string) : bool :=
  match s with
  | "" => true
  | String c rest => is_digit c && all_digits rest
  end.

(** The value of a string of decimal digits ([None] for the empty string
    and for any other character). *)
Definition digits_value (s : string) : option Z :=
  Z.of_uint <$> NilZero.uint_of_string s.

(** [strconv.Atoi]: an optional sign, then one or more decimal digits; an
    error ([None]) on any other syntax and when the value does not fit an
    [int]. *)
Definition Atoi (s : string) : option Z :=
  v ← match s with
      | String "+" rest => digits_value rest
      | String "-" rest => Z.opp <$> digits_value rest
      | _ => digits_value s
      end;
  if (MinInt <=? v) && (v <=? MaxInt) then Some v else None.

(** [regexp.MustCompile(`^dc([0-9]+)$`).FindStringSubmatch]: the capture
    group when the whole string is "dc" followed by one or more digits. *)
Definition dcPatt_FindStringSubmatch (s : string) : option string :=
  match s with
  | String "d" (String "c" m1) =>
      match m1 with
      | "" => None
      | _ => if all_digits m1 then Some m1 else None
      end
  | _ => None
  end.

(** [sort.Slice(s, less)] and [sort.Strings].  Go's sort is not stable; it
    returns some ordering of the slice in which no element is [less] than
    one before it.  The code only sorts slices whose keys are pairwise
    distinct or whose equal elements are identical, where that ordering is
    unique, so any sorting function is a model. *)
Definition not_after {A} (less : A → A → bool) : relation A :=
  λ a b, less b a = false.

#[global] Instance not_after_dec {A} (less : A → A → bool) :
  RelDecision (not_after less).
Proof. intros a b. unfold not_after. apply _. Defined.

Definition sort_Slice {A} (less : A → A → bool) : list A → list A :=
  merge_sort (not_after less).

Definition sort_Strings : list string → list string :=
  sort_Slice String.ltb.

(** [net.JoinHostPort]. *)
Fixpoint has_colon (s : string) : bool :=
  match s with
  | "" => false
  | String c rest => Ascii.eqb c ":" || has_colon rest
  end.

Definition JoinHostPort (host port : string) : string :=
  if has_colon host then "[" +:+ host +:+ "]:" +:+ port
  else host +:+ ":" +:+ port.

(** ** Data model ([topology.go]) *)

Module Address.
Record t : Type := mk {
  Network : string;
  IPAddress : string;
}.
End Address.

Module Service.
Record t : Type := mk {
  Name : string;
  Port : Z;
  UpstreamName : string;
  UpstreamDatacenter : string;
  UpstreamLocalPort : Z;
  UpstreamExtraHCL : string;
  Meta : gmap string string;
}.
End Service.

Module Node.
Record t : Type := mk {
  Datacenter : string;
  Name : string;
  Server : bool;
  Addresses : list Address.t;
  Service : option Service.t;     (* [*Service], [nil] is [None] *)
  MeshGateway : bool;
  UseBuiltinProxy : bool;
  Index : Z;
}.
End Node.

Module Datacenter.
Record t : Type := mk {
  Name : string;
  Primary : bool;
  Index : Z;
  Servers : Z;
  Clients : Z;
  BaseIP : string;
  WANBaseIP : string;
}.
End Datacenter.

Module Topology.
Record t : Type := mk {
  servers : list string;          (* node names *)
  clients : list string;          (* node names *)
  nm : gmap string Node.t;
  dcs : list Datacenter.t;
  NetworkShape : string;
}.
End Topology.

Definition NetworkShapeDual : string := "dual".
Definition NetworkShapeFlat : string := "flat".

(** Modelled from the spec: the constant [PrimaryDC] is declared outside
    the given sources; the spec fixes the primary datacenter's name. *)
Definition PrimaryDC : string := "dc1".

(** Modelled from the spec: the declarations of [userConfig] and of the
    types of its [Topology] block are outside the given sources.  The
    records below hold what [InferTopology] reads from them; [Meta] stands
    for the result of the method [Meta()]. *)
Module userConfigTopologyNodeConfig.
Record t : Type := mk {
  UpstreamName : string;
  UpstreamDatacenter : string;
  UpstreamExtraHCL : string;
  UseBuiltinProxy : bool;
  MeshGateway : bool;
  Meta : gmap string string;
}.
(** The zero value. *)
Definition zero : t := mk "" "" "" false false ∅.
End userConfigTopologyNodeConfig.

Module userConfigTopologyDatacenter.
Record t : Type := mk {
  Servers : Z;
  Clients : Z;
}.
End userConfigTopologyDatacenter.

Module userConfigTopology.
Record t : Type := mk {
  NetworkShape : string;
  (* the map's entries, in the order [range] visits them *)
  Datacenters : list (string * userConfigTopologyDatacenter.t);
  (* [None] is the nil map *)
  NodeConfig : option (gmap string userConfigTopologyNodeConfig.t);
}.
End userConfigTopology.

Module userConfig.
Record t : Type := mk {
  Topology : userConfigTopology.t;
}.
End userConfig.

(** [m[key]] on the association list that stands for [Datacenters]. *)
Fixpoint assoc_lookup {V} (key : string) (m : list (string * V)) : option V :=
  match m with
  | [] => None
  | (k, v) :: rest => if String.eqb k key then Some v else assoc_lookup key rest
  end.

(** ** The builder *)

Definition GetNetworkName (s : string) (dc : string) : res string :=
  if String.eqb s NetworkShapeDual then Ok dc
  else if String.eqb s NetworkShapeFlat then Ok "lan"
  else Panic ("unknown shape: " +:+ s).

Definition addNode (topology : Topology.t) (node : Node.t) : Topology.t :=
  let nm' := <[Node.Name node := node]> (Topology.nm topology) in
  if Node.Server node then
    Topology.mk (Topology.servers topology ++ [Node.Name node])
                (Topology.clients topology) nm'
                (Topology.dcs topology) (Topology.NetworkShape topology)
  else
    Topology.mk (Topology.servers topology)
                (Topology.clients topology ++ [Node.Name node]) nm'
                (Topology.dcs topology) (Topology.NetworkShape topology).

(** The [switch topology.NetworkShape] that gives a node its WAN address. *)
Definition appendWAN (shape : string) (wanIP : string) (node : Node.t) : res Node.t :=
  if String.eqb shape NetworkShapeDual then
    Ok (Node.mk (Node.Datacenter node) (Node.Name node) (Node.Server node)
          (Node.Addresses node ++ [Address.mk "wan" wanIP])
          (Node.Service node) (Node.MeshGateway node)
          (Node.UseBuiltinProxy node) (Node.Index node))
  else if String.eqb shape NetworkShapeFlat then Ok node
  else Panic ("unknown shape: " +:+ shape).

Section forDC.
Variable nodeConfigs : option (gmap string userConfigTopologyNodeConfig.t).
Variable shape : string.
Variables dc baseIP wanBaseIP : string.

(** The body of the first loop of [forDC], up to [addNode]. *)
Definition serverNode (idx : Z) : res Node.t :=
  let id := Itoa idx in
  let ip := baseIP +:+ "." +:+ Itoa (10 + idx) in
  let wanIP := wanBaseIP +:+ "." +:+ Itoa (10 + idx) in
  network ← GetNetworkName shape dc;
  let node :=
    Node.mk dc (dc +:+ "-server" +:+ id) true
      [Address.mk network ip] None false false (idx - 1) in
  appendWAN shape wanIP node.

(** The body of the second loop of [forDC], up to [addNode]. *)
Definition clientNode (idx : Z) : res Node.t :=
  let id := Itoa idx in
  let ip := baseIP +:+ "." +:+ Itoa (20 + idx) in
  let wanIP := wanBaseIP +:+ "." +:+ Itoa (20 + idx) in
  let nodeName := dc +:+ "-client" +:+ id in
  network ← GetNetworkName shape dc;
  let node :=
    Node.mk dc nodeName false
      [Address.mk network ip] None false false (idx - 1) in
  let nodeConfig :=
    match nodeConfigs with
    | Some cfgs =>
        match cfgs !! nodeName with
        | Some c => c
        | None => userConfigTopologyNodeConfig.zero
        end
    | None => userConfigTopologyNodeConfig.zero
    end in
  if userConfigTopologyNodeConfig.MeshGateway nodeConfig then
    appendWAN shape wanIP
      (Node.mk (Node.Datacenter node) (Node.Name node) (Node.Server node)
         (Node.Addresses node) (Node.Service node) true
         (Node.UseBuiltinProxy node) (Node.Index node))
  else
    let useBuiltin :=
      if userConfigTopologyNodeConfig.UseBuiltinProxy nodeConfig
      then true else Node.UseBuiltinProxy node in
    let name1 := if idx `rem` 2 =? 1 then "ping" else "pong" in
    let upstream1 := if idx `rem` 2 =? 1 then "pong" else "ping" in
    let upstream2 :=
      if negb (String.eqb (userConfigTopologyNodeConfig.UpstreamName nodeConfig) "")
      then userConfigTopologyNodeConfig.UpstreamName nodeConfig
      else upstream1 in
    let upstreamDC :=
      if negb (String.eqb (userConfigTopologyNodeConfig.UpstreamDatacenter nodeConfig) "")
      then userConfigTopologyNodeConfig.UpstreamDatacenter nodeConfig
      else "" in
    let svc :=
      Service.mk name1 8080 upstream2 upstreamDC 9090
        (userConfigTopologyNodeConfig.UpstreamExtraHCL nodeConfig)
        (userConfigTopologyNodeConfig.Meta nodeConfig) in
    Ok (Node.mk (Node.Datacenter node) (Node.Name node) (Node.Server node)
          (Node.Addresses node) (Some svc) (Node.MeshGateway node)
          useBuiltin (Node.Index node)).

(** [for idx := 1; idx <= n; idx++] visits [seqZ 1 n]. *)
Definition forDC (servers clients : Z) (topology : Topology.t) : res Topology.t :=
  topology ← forEach (λ topology idx,
                node ← serverNode idx; Ok (addNode topology node))
              (seqZ 1 servers) topology;
  forEach (λ topology idx,
             node ← clientNode idx; Ok (addNode topology node))
          (seqZ 1 clients) topology.
End forDC.

(** The body of [for dc, v := range t.Datacenters]: the two count checks,
    then the name, then the descriptor is appended to [topology.dcs]. *)
Definition rangeDatacenter (dcs : list Datacenter.t)
    (entry : string * userConfigTopologyDatacenter.t) : res (list Datacenter.t) :=
  let '(dc, v) := entry in
  if userConfigTopologyDatacenter.Servers v <=? 0 then Err (ErrNoServer dc)
  else if userConfigTopologyDatacenter.Clients v <=? 0 then Err (ErrNoClient dc)
  else
    match dcPatt_FindStringSubmatch dc with
    | None => Err (ErrInvalidDatacenterName dc)
    | Some m1 =>
        match Atoi m1 with
        | None => Err (ErrInvalidDatacenterName dc)
        | Some i =>
            Ok (dcs ++ [Datacenter.mk dc (String.eqb dc PrimaryDC) i
                          (userConfigTopologyDatacenter.Servers v)
                          (userConfigTopologyDatacenter.Clients v)
                          ("10.0." +:+ Itoa i) ("10.1." +:+ Itoa i)])
        end
    end.

Definition dcLess (a b : Datacenter.t) : bool :=
  String.ltb (Datacenter.Name a) (Datacenter.Name b).

Definition InferTopology (uc : userConfig.t) : res Topology.t :=
  let t := userConfig.Topology uc in
  shape ← (let s := userConfigTopology.NetworkShape t in
           if String.eqb s "dual" then Ok NetworkShapeDual
           else if String.eqb s "flat" || String.eqb s "" then Ok NetworkShapeFlat
           else Err (ErrUnknownNetworkShape s));
  let nodeConfigs := userConfigTopology.NodeConfig t in
  match assoc_lookup PrimaryDC (userConfigTopology.Datacenters t) with
  | None => Err ErrPrimaryMissing
  | Some _ =>
      dcs ← forEach rangeDatacenter (userConfigTopology.Datacenters t) [];
      let dcs := sort_Slice dcLess dcs in
      forEach (λ topology dc,
                 forDC nodeConfigs (Topology.NetworkShape topology)
                   (Datacenter.Name dc) (Datacenter.BaseIP dc)
                   (Datacenter.WANBaseIP dc)
                   (Datacenter.Servers dc) (Datacenter.Clients dc) topology)
              dcs (Topology.mk [] [] ∅ dcs shape)
  end.

(** ** The query surface *)

(** [Topology.Node]: lookup by name, aborting when the name is unknown. *)
Definition Node (t : Topology.t) (name : string) : res Node.t :=
  match Topology.nm t !! name with
  | Some n => Ok n
  | None => Panic ("node not found: " +:+ name)
  end.

Fixpoint LocalAddress_loop (datacenter : string) (addrs : list Address.t) : res string :=
  match addrs with
  | [] => Panic "node has no local address"
  | a :: rest =>
      if String.eqb (Address.Network a) datacenter
         || String.eqb (Address.Network a) "lan"
      then Ok (Address.IPAddress a)
      else LocalAddress_loop datacenter rest
  end.

Definition LocalAddress (n : Node.t) : res string :=
  LocalAddress_loop (Node.Datacenter n) (Node.Addresses n).

Fixpoint PublicAddress_loop (addrs : list Address.t) : res string :=
  match addrs with
  | [] => Panic "node has no public address"
  | a :: rest =>
      if String.eqb (Address.Network a) "wan" then Ok (Address.IPAddress a)
      else PublicAddress_loop rest
  end.

Definition PublicAddress (n : Node.t) : res string :=
  PublicAddress_loop (Node.Addresses n).

(** The loop shared by [LeaderIP] and [WANLeaderIP]: the first server, in
    the order of [t.servers], whose datacenter is the one asked for. *)
Fixpoint leader_loop (t : Topology.t) (address : Node.t → res string)
    (datacenter : string) (names : list string) : res string :=
  match names with
  | [] => Panic "no such dc"
  | name :: rest =>
      n ← Node t name;
      if String.eqb (Node.Datacenter n) datacenter then address n
      else leader_loop t address datacenter rest
  end.

Definition LeaderIP (t : Topology.t) (datacenter : string) : res string :=
  leader_loop t LocalAddress datacenter (Topology.servers t).

Definition WANLeaderIP (t : Topology.t) (datacenter : string) : res string :=
  leader_loop t PublicAddress datacenter (Topology.servers t).

Definition LeaderIP_new (t : Topology.t) (datacenter : string) (wan : bool) : res string :=
  if wan then WANLeaderIP t datacenter else LeaderIP t datacenter.

Definition all (t : Topology.t) : list string :=
  Topology.servers t ++ Topology.clients t.

(** [Topology.Walk]: [f] on every node in the order of [all], stopping at
    the first error.  [f] threads the state its closure updates. *)
Definition Walk {S} (t : Topology.t) (f : S → Node.t → res S) (s : S) : res S :=
  forEach (λ s nodeName, node ← Node t nodeName; f s node) (all t) s.

(** [Topology.WalkSilent], for an [f] that cannot fail. *)
Definition WalkSilent {S} (t : Topology.t) (f : S → Node.t → S) (s : S) : res S :=
  forEach (λ s nodeName, node ← Node t nodeName; Ok (f s node)) (all t) s.

(** The nodes in the order [Walk] and [WalkSilent] hand them to [f]. *)
Definition walked (t : Topology.t) : res (list Node.t) :=
  WalkSilent t (λ acc n, acc ++ [n]) [].

Definition ServerIPs (t : Topology.t) (datacenter : string) : res (list string) :=
  forEach (λ out name,
             n ← Node t name;
             if String.eqb (Node.Datacenter n) datacenter
             then a ← LocalAddress n; Ok (out ++ [a])
             else Ok out)
          (Topology.servers t) [].

Definition Datacenters (t : Topology.t) : list Datacenter.t := Topology.dcs t.

(** ** The generators ([gen.go])

    The generators are modelled up to the data their templates render:
    the service entries of the orchestration manifest with their
    [depends_on] lists, the fields of the agent configuration, the scrape
    jobs.  The text layout of the templates is not modelled.

    [gen.go] calls [LeaderIP] with the [wan] flag; that is [LeaderIP_new]
    of [topology.go]. *)

(** Modelled from the spec: the declaration of [FlatConfig] is outside the
    given sources; the record holds the global settings the generators
    read. *)
Module FlatConfig.
Record t : Type := mk {
  ConsulImage : string;
  EncryptionTLS : bool;
  GossipKey : string;
  KubernetesEnabled : bool;
  PrometheusEnabled : bool;
  EnvoyLogLevel : string;
  InitialMasterToken : string;
  AgentMasterToken : string;
}.
End FlatConfig.

(** Modelled from the spec: the constant [NetworkShapeIslands] is declared
    outside the given sources (the shape that federates through mesh
    gateways); [InferTopology] never selects it. *)
Definition NetworkShapeIslands : string := "islands".

Module consulAgentConfigInfo.
Record t : Type := mk {
  AdvertiseAddr : string;
  AdvertiseAddrWAN : string;
  RetryJoin : string;
  RetryJoinWAN : string;
  Datacenter : string;
  SecondaryServer : bool;
  MasterToken : string;
  AgentMasterToken : string;
  Server : bool;
  BootstrapExpect : Z;
  GossipKey : string;
  TLS : bool;
  TLSFilePrefix : string;
  Prometheus : bool;
  FederateViaGateway : bool;
  PrimaryGateways : string;
}.
End consulAgentConfigInfo.

Definition dquote : string := String "034"%char "".

(** [`"` + strings.Join(l, `", "`) + `"`] *)
Definition quoted_join (l : list string) : string :=
  dquote +:+ String.concat (dquote +:+ ", " +:+ dquote) l +:+ dquote.

(** One service entry of the manifest: its name, its [depends_on] list and
    its [devconsul.type] label. *)
Module composeService.
Record t : Type := mk {
  Name : string;
  DependsOn : list string;
  DevconsulType : string;
}.
End composeService.

Module composePod.
Record t : Type := mk {
  PodName : string;
  ConsulImage : string;
  Node : Node.t;
  HCL : consulAgentConfigInfo.t;
  AgentDependsOn : list string;
  ExtraYAML : list composeService.t;
}.
End composePod.

Module pingpongInfo.
Record t : Type := mk {
  PodName : string;
  NodeName : string;
  PingPong : string;
  SidecarBootArgs : list string;
  UseBuiltinProxy : bool;
  EnvoyLogLevel : string;
}.
End pingpongInfo.

Module meshGatewayInfo.
Record t : Type := mk {
  PodName : string;
  NodeName : string;
  EnvoyLogLevel : string;
  EnableWAN : bool;
  ExposeServers : bool;
}.
End meshGatewayInfo.

(** The service entries the template [pingpongT] declares. *)
Definition pingpongT (ppi : pingpongInfo.t) : list composeService.t :=
  let app := pingpongInfo.NodeName ppi +:+ "-" +:+ pingpongInfo.PingPong ppi in
  [ composeService.mk app [pingpongInfo.NodeName ppi] "app";
    composeService.mk (app +:+ "-sidecar") [app] "sidecar" ].

(** The service entry the template [meshGatewayT] declares. *)
Definition meshGatewayT (mgi : meshGatewayInfo.t) : list composeService.t :=
  [ composeService.mk (meshGatewayInfo.NodeName mgi +:+ "-mesh-gateway")
      [meshGatewayInfo.NodeName mgi] "gateway" ].

(** The service entries the [range .Pods] part of [dockerComposeT]
    declares for one pod: the pause container, the agent, then the pod's
    [ExtraYAML]. *)
Definition podServices (pod : composePod.t) : list composeService.t :=
  [ composeService.mk (composePod.PodName pod) [] "pod";
    composeService.mk (Node.Name (composePod.Node pod))
      (composePod.AgentDependsOn pod) "consul" ]
  ++ composePod.ExtraYAML pod.

Section generate.
Variable config : FlatConfig.t.
Variable topology : Topology.t.
(** [Topology.GatewayAddrs] is outside the given sources. *)
Variable GatewayAddrs : Topology.t → string → res (list string).

Definition generatePingPongYAML (podName : string) (node : Node.t)
    : res (list composeService.t) :=
  match Node.Service node with
  | Some svc =>
      if String.eqb (Service.Name svc) "ping" || String.eqb (Service.Name svc) "pong"
      then
        let proxyType := if Node.UseBuiltinProxy node then "builtin" else "envoy" in
        let args :=
          if FlatConfig.KubernetesEnabled config then
            [ "/secrets/ready.val"; proxyType; "login"; "-t";
              "/secrets/k8s/service_jwt_token." +:+ Service.Name svc;
              "-s"; "/tmp/consul.token"; "-r";
              "/secrets/servicereg__" +:+ Node.Name node +:+ "__"
                +:+ Service.Name svc +:+ ".hcl" ]
          else
            [ "/secrets/ready.val"; proxyType; "direct"; "-t";
              "/secrets/service-token--" +:+ Service.Name svc +:+ ".val";
              "-r";
              "/secrets/servicereg__" +:+ Node.Name node +:+ "__"
                +:+ Service.Name svc +:+ ".hcl" ] in
        Ok (pingpongT (pingpongInfo.mk podName (Node.Name node) (Service.Name svc)
                         args (Node.UseBuiltinProxy node)
                         (FlatConfig.EnvoyLogLevel config)))
      else Err (ErrUnexpectedService (Service.Name svc))
  | None => Ok []
  end.

Definition generateMeshGatewayYAML (podName : string) (node : Node.t)
    : res (list composeService.t) :=
  if negb (Node.MeshGateway node) then Ok []
  else
    let shape := Topology.NetworkShape topology in
    wan ← (if String.eqb shape NetworkShapeIslands || String.eqb shape NetworkShapeDual
           then Ok true
           else if String.eqb shape NetworkShapeFlat then Ok false
           else Panic ("unknown shape: " +:+ shape));
    Ok (meshGatewayT (meshGatewayInfo.mk podName (Node.Name node)
                        (FlatConfig.EnvoyLogLevel config) wan wan)).

Definition generateAgentHCL (node : Node.t) : res consulAgentConfigInfo.t :=
  advertiseAddr ← LocalAddress node;
  retryJoin ← ServerIPs topology (Node.Datacenter node);
  let secondary := negb (String.eqb (Node.Datacenter node) PrimaryDC) in
  if Node.Server node then
    let shape := Topology.NetworkShape topology in
    '(wanIP, wanfed, advertiseAddrWAN) ←
      (if String.eqb shape NetworkShapeIslands then
         if Node.MeshGateway node
         then a ← PublicAddress node; Ok (true, true, a)
         else Ok (false, true, "")
       else if String.eqb shape NetworkShapeDual then
         a ← PublicAddress node; Ok (true, false, a)
       else if String.eqb shape NetworkShapeFlat then Ok (false, false, "")
       else Panic ("unknown shape: " +:+ shape));
    ips ← forEach (λ ips dc,
                     ip ← LeaderIP_new topology (Datacenter.Name dc) wanIP;
                     Ok (ips ++ [ip]))
                  (Datacenters topology) [];
    '(primaryGateways, retryJoinWAN) ←
      (if wanfed : bool then
         if secondary
         then gws ← GatewayAddrs topology PrimaryDC; Ok (quoted_join gws, "")
         else Ok ("", "")
       else Ok ("", quoted_join ips));
    expect ← ServerIPs topology (Node.Datacenter node);
    Ok (consulAgentConfigInfo.mk advertiseAddr advertiseAddrWAN
          (quoted_join retryJoin) retryJoinWAN (Node.Datacenter node)
          secondary (FlatConfig.InitialMasterToken config)
          (FlatConfig.AgentMasterToken config) true
          (Z.of_nat (length expect)) (FlatConfig.GossipKey config)
          (FlatConfig.EncryptionTLS config)
          (Node.Datacenter node +:+ "-server-consul-" +:+ Itoa (Node.Index node))
          (FlatConfig.PrometheusEnabled config) wanfed primaryGateways)
  else
    Ok (consulAgentConfigInfo.mk advertiseAddr ""
          (quoted_join retryJoin) "" (Node.Datacenter node)
          false "" (FlatConfig.AgentMasterToken config) false
          0 (FlatConfig.GossipKey config) (FlatConfig.EncryptionTLS config)
          (Node.Datacenter node +:+ "-client-consul-" +:+ Itoa (Node.Index node))
          (FlatConfig.PrometheusEnabled config) false "").

(** The closure [generateComposeFile] hands to [Walk]; the state is
    [info.Pods]. *)
Definition composeNode (pods : list composePod.t) (node : Node.t)
    : res (list composePod.t) :=
  let podName := Node.Name node +:+ "-pod" in
  podHCL ← generateAgentHCL node;
  extraYAML_1 ← generateMeshGatewayYAML podName node;
  extraYAML_2 ← generatePingPongYAML podName node;
  let dependsOn :=
    if negb (Node.Server node)
    then [podName] ++ [Node.Datacenter node +:+ "-server1"]
    else [podName] in
  Ok (pods ++ [composePod.mk podName (FlatConfig.ConsulImage config) node
                 podHCL dependsOn (extraYAML_1 ++ extraYAML_2)]).

(** [generateComposeFile], up to the service entries of the manifest. *)
Definition generateComposeFile : res (list composeService.t) :=
  pods ← Walk topology composeNode [];
  Ok (concat (podServices <$> pods)).
End generate.

(** The start-after edges of a manifest: [(a, b)] when service [a] lists
    [b] under [depends_on]. *)
Definition dependencyEdges (services : list composeService.t) : list (string * string) :=
  s ← services; (λ d, (composeService.Name s, d)) <$> composeService.DependsOn s.

(** *** The metrics scrape configuration *)

Module kv.
Record t : Type := mk {
  Key : string;
  Val : string;
}.
End kv.

Module job.
Record t : Type := mk {
  Name : string;
  MetricsPath : string;
  Params : gmap string (list string);
  Targets : list string;
  Labels : list kv.t;
}.
End job.

Definition kvLess (a b : kv.t) : bool := String.ltb (kv.Key a) (kv.Key b).
Definition jobLess (a b : job.t) : bool := String.ltb (job.Name a) (job.Name b).

(** The closure [add].  [jobs] maps a name to a pointer, so the update of
    [prev] in the first branch is an update of the map's entry. *)
Definition add (jobs : gmap string job.t) (j : job.t) : gmap string job.t :=
  match jobs !! job.Name j with
  | Some prev =>
      (* only retain targets *)
      <[job.Name j :=
          job.mk (job.Name prev) (job.MetricsPath prev) (job.Params prev)
            (sort_Strings (job.Targets prev ++ job.Targets j))
            (job.Labels prev)]> jobs
  | None =>
      <[job.Name j :=
          job.mk (job.Name j) (job.MetricsPath j) (job.Params j)
            (sort_Strings (job.Targets j))
            (sort_Slice kvLess (job.Labels j))]> jobs
  end.

Section prometheus.
Variable config : FlatConfig.t.

Definition agentParams : gmap string (list string) :=
  <["format" := ["prometheus"]]>
    (<["token" := [FlatConfig.AgentMasterToken config]]> ∅).

(** The closure [generatePrometheusConfigFile] hands to [Walk]; the
    state is the map [jobs]. *)
Definition prometheusNode (jobs : gmap string job.t) (node : Node.t)
    : res (gmap string job.t) :=
  if Node.Server node then
    a ← LocalAddress node;
    Ok (add jobs
          (job.mk ("consul-servers-" +:+ Node.Datacenter node)
             "/v1/agent/metrics" agentParams
             [JoinHostPort a "8500"]
             [kv.mk "dc" (Node.Datacenter node); kv.mk "role" "consul-server"]))
  else
    a ← LocalAddress node;
    let jobs :=
      add jobs
        (job.mk ("consul-clients-" +:+ Node.Datacenter node)
           "/v1/agent/metrics" agentParams
           [JoinHostPort a "8500"]
           [kv.mk "dc" (Node.Datacenter node); kv.mk "role" "consul-client"]) in
    if Node.MeshGateway node then
      a ← LocalAddress node;
      Ok (add jobs
            (job.mk ("mesh-gateways-" +:+ Node.Datacenter node)
               "/metrics" ∅
               [JoinHostPort a "9102"]
               [kv.mk "dc" (Node.Datacenter node); kv.mk "role" "mesh-gateway"]))
    else
      match Node.Service node with
      | Some svc =>
          a ← LocalAddress node;
          Ok (add jobs
                (job.mk (Service.Name svc +:+ "-proxy")
                   "/metrics" ∅
                   [JoinHostPort a "9102"]
                   [kv.mk "dc" (Node.Datacenter node);
                    kv.mk "role" (Service.Name svc +:+ "-proxy")]))
      | None => Ok jobs
      end.

(** [generatePrometheusConfigFile], up to [info.Jobs]: the jobs of the
    map, sorted by name.  [map_to_list] stands for the order in which
    [range jobs] happens to visit the map. *)
Definition generatePrometheusConfigFile (topology : Topology.t) : res (list job.t) :=
  jobs ← Walk topology prometheusNode ∅;
  Ok (sort_Slice jobLess (snd <$> map_to_list jobs)).
End prometheus.

Definition uc_of (shape : string)
    (dcs : list (string * userConfigTopologyDatacenter.t))
    (cfg : option (gmap string userConfigTopologyNodeConfig.t)) : userConfig.t :=
  userConfig.mk (userConfigTopology.mk shape dcs cfg).

Definition dcv (servers clients : Z) : userConfigTopologyDatacenter.t :=
  userConfigTopologyDatacenter.mk servers clients.

Definition example_spec : userConfig.t :=
  uc_of "flat" [("dc2", dcv 1 2); ("dc1", dcv 1 2)] None.

(** * Vocabulary of the statements *)

(** The names [forDC] gives to the nodes of a datacenter. *)
Definition serverName (dc : string) (k : Z) : string := dc +:+ "-server" +:+ Itoa k.
Definition clientName (dc : string) (k : Z) : string := dc +:+ "-client" +:+ Itoa k.

Definition serverNames (dc : string) (n : Z) : list string :=
  serverName dc <$> seqZ 1 n.
Definition clientNames (dc : string) (n : Z) : list string :=
  clientName dc <$> seqZ 1 n.

(** Go's [<] on strings. *)
Definition strlt (a b : string) : Prop := String.ltb a b = true.

Fixpoint no_dash (s : string) : bool :=
  match s with
  | "" => true
  | String c rest => negb (Ascii.eqb c "-") && no_dash rest
  end.

Fixpoint last_char (s : string) : option ascii :=
  match s with
  | "" => None
  | String c "" => Some c
  | String _ rest => last_char rest
  end.

(** The results of a fallible function on the elements of a list. *)
Fixpoint mapM {A B} (f : A → res B) (l : list A) : res (list B) :=
  match l with
  | [] => Ok []
  | x :: rest => y ← f x; ys ← mapM f rest; Ok (y :: ys)
  end.

(** Well-formedness of the input as a model of a Go map: no key twice. *)
Definition wf_userConfig (uc : userConfig.t) : Prop :=
  NoDup (fst <$> userConfigTopology.Datacenters (userConfig.Topology uc)).

(** The override record [forDC] uses for a client: the entry of the
    table, or the zero value. *)
Definition nodeConfigFor (cfgs : option (gmap string userConfigTopologyNodeConfig.t))
    (nodeName : string) : userConfigTopologyNodeConfig.t :=
  match cfgs with
  | Some m => default userConfigTopologyNodeConfig.zero (m !! nodeName)
  | None => userConfigTopologyNodeConfig.zero
  end.

(** The descriptor the validation loop appends for an entry it accepts. *)
Definition descriptor (entry : string * userConfigTopologyDatacenter.t)
    : res Datacenter.t :=
  ds ← rangeDatacenter [] entry;
  match ds with
  | [d] => Ok d
  | _ => Panic "unreachable"
  end.

(** The nodes [forDC] creates for a datacenter, in creation order. *)
Definition dcNodes (cfgs : option (gmap string userConfigTopologyNodeConfig.t))
    (shape : string) (d : Datacenter.t) : res (list Node.t) :=
  ns1 ← mapM (serverNode shape (Datacenter.Name d) (Datacenter.BaseIP d)
                (Datacenter.WANBaseIP d)) (seqZ 1 (Datacenter.Servers d));
  ns2 ← mapM (clientNode cfgs shape (Datacenter.Name d) (Datacenter.BaseIP d)
                (Datacenter.WANBaseIP d)) (seqZ 1 (Datacenter.Clients d));
  Ok (ns1 ++ ns2).

Definition builtNodes (cfgs : option (gmap string userConfigTopologyNodeConfig.t))
    (shape : string) (ds : list Datacenter.t) : res (list Node.t) :=
  nss ← mapM (dcNodes cfgs shape) ds; Ok (concat nss).

Definition valid_shape (shape : string) : Prop :=
  shape = NetworkShapeDual ∨ shape = NetworkShapeFlat.

(** The network a node's first address is on. *)
Definition localNetwork (shape dc : string) : string :=
  if String.eqb shape NetworkShapeDual then dc else "lan".

(** The server and client nodes a run of [forDC] is expected to create
    under a supported shape. *)
Definition serverOf (shape dc baseIP wanBaseIP : string) (k : Z) : Node.t :=
  Node.mk dc (serverName dc k) true
    (Address.mk (localNetwork shape dc) (baseIP +:+ "." +:+ Itoa (10 + k))
     :: (if String.eqb shape NetworkShapeDual
         then [Address.mk "wan" (wanBaseIP +:+ "." +:+ Itoa (10 + k))] else []))
    None false false (k - 1).

Definition clientOf (cfgs : option (gmap string userConfigTopologyNodeConfig.t))
    (shape dc baseIP wanBaseIP : string) (k : Z) : Node.t :=
  let c := nodeConfigFor cfgs (clientName dc k) in
  let gw := userConfigTopologyNodeConfig.MeshGateway c in
  let opposite := if k `rem` 2 =? 1 then "pong" else "ping" in
  Node.mk dc (clientName dc k) false
    (Address.mk (localNetwork shape dc) (baseIP +:+ "." +:+ Itoa (20 + k))
     :: (if gw && String.eqb shape NetworkShapeDual
         then [Address.mk "wan" (wanBaseIP +:+ "." +:+ Itoa (20 + k))] else []))
    (if gw then None
     else Some (Service.mk (if k `rem` 2 =? 1 then "ping" else "pong") 8080
                  (if String.eqb (userConfigTopologyNodeConfig.UpstreamName c) ""
                   then opposite
                   else userConfigTopologyNodeConfig.UpstreamName c)
                  (userConfigTopologyNodeConfig.UpstreamDatacenter c) 9090
                  (userConfigTopologyNodeConfig.UpstreamExtraHCL c)
                  (userConfigTopologyNodeConfig.Meta c)))
    gw
    (if gw then false else userConfigTopologyNodeConfig.UseBuiltinProxy c)
    (k - 1).

Definition serversOf (shape : string) (d : Datacenter.t) : list Node.t :=
  serverOf shape (Datacenter.Name d) (Datacenter.BaseIP d) (Datacenter.WANBaseIP d)
    <$> seqZ 1 (Datacenter.Servers d).

Definition clientsOf (cfgs : option (gmap string userConfigTopologyNodeConfig.t))
    (shape : string) (d : Datacenter.t) : list Node.t :=
  clientOf cfgs shape (Datacenter.Name d) (Datacenter.BaseIP d) (Datacenter.WANBaseIP d)
    <$> seqZ 1 (Datacenter.Clients d).

Definition nodesOf (cfgs : option (gmap string userConfigTopologyNodeConfig.t))
    (shape : string) (d : Datacenter.t) : list Node.t :=
  serversOf shape d ++ clientsOf cfgs shape d.

(** A descriptor as the validation loop accepts and fills it. *)
Definition descriptor_ok (d : Datacenter.t) : Prop :=
  0 < Datacenter.Servers d ∧ 0 < Datacenter.Clients d
  ∧ ∃ m, Datacenter.Name d = "dc" +:+ m ∧ all_digits m = true ∧ m ≠ ""
      ∧ Atoi m = Some (Datacenter.Index d)
      ∧ Datacenter.BaseIP d = "10.0." +:+ Itoa (Datacenter.Index d)
      ∧ Datacenter.WANBaseIP d = "10.1." +:+ Itoa (Datacenter.Index d).

(** The input entry a descriptor comes from. *)
Definition entryOf (d : Datacenter.t) : string * userConfigTopologyDatacenter.t :=
  (Datacenter.Name d,
   userConfigTopologyDatacenter.mk (Datacenter.Servers d) (Datacenter.Clients d)).

(** [t] is the topology built from [uc]: its shape, its descriptors and
    the nodes added to it. *)
Definition built_from (uc : userConfig.t) (t : Topology.t)
    (shape : string) (ds : list Datacenter.t) : Prop :=
  let ut := userConfig.Topology uc in
  (userConfigTopology.NetworkShape ut = "dual" ∧ shape = NetworkShapeDual
   ∨ (userConfigTopology.NetworkShape ut = "flat"
      ∨ userConfigTopology.NetworkShape ut = "") ∧ shape = NetworkShapeFlat)
  ∧ is_Some (assoc_lookup PrimaryDC (userConfigTopology.Datacenters ut))
  ∧ entryOf <$> ds ≡ₚ userConfigTopology.Datacenters ut
  ∧ Forall descriptor_ok ds
  ∧ StronglySorted (λ a b, strlt (Datacenter.Name a) (Datacenter.Name b)) ds
  ∧ t = foldl addNode (Topology.mk [] [] ∅ ds shape)
          (ds ≫= nodesOf (userConfigTopology.NodeConfig ut) shape).

(** The nodes of a built topology in the order of [all]: the servers of
    every datacenter, then the clients of every datacenter. *)
Definition walkOrder (cfgs : option (gmap string userConfigTopologyNodeConfig.t))
    (shape : string) (ds : list Datacenter.t) : list Node.t :=
  (ds ≫= serversOf shape) ++ (ds ≫= clientsOf cfgs shape).

(** The address [LocalAddress] returns: the first one on the node's
    datacenter network or on "lan". *)
Definition localEntry (n : Node.t) : option Address.t :=
  List.find (λ a, String.eqb (Address.Network a) (Node.Datacenter n)
                  || String.eqb (Address.Network a) "lan")
            (Node.Addresses n).

(** The address [PublicAddress] returns: the first one on "wan". *)
Definition publicEntry (n : Node.t) : option Address.t :=
  List.find (λ a, String.eqb (Address.Network a) "wan") (Node.Addresses n).

(** *** Validation *)

(** The name check of the validation loop: the pattern matches and the
    number fits an [int]. *)
Definition nameOk (dc : string) : bool :=
  match dcPatt_FindStringSubmatch dc with
  | Some m => match Atoi m with Some _ => true | None => false end
  | None => false
  end.

(** The violation the loop reports for one entry, if any: the server
    count, then the client count, then the name. *)
Definition entryViolation (entry : string * userConfigTopologyDatacenter.t)
    : option error :=
  let '(dc, v) := entry in
  if userConfigTopologyDatacenter.Servers v <=? 0 then Some (ErrNoServer dc)
  else if userConfigTopologyDatacenter.Clients v <=? 0 then Some (ErrNoClient dc)
  else if nameOk dc then None
  else Some (ErrInvalidDatacenterName dc).

Definition shapeSupported (s : string) : bool :=
  String.eqb s "dual" || String.eqb s "flat" || String.eqb s "".

(** The order of validation of the code: the network shape, the primary
    datacenter, then the entries in the order they are visited. *)
Definition firstViolation (uc : userConfig.t) : option error :=
  let ut := userConfig.Topology uc in
  if negb (shapeSupported (userConfigTopology.NetworkShape ut))
  then Some (ErrUnknownNetworkShape (userConfigTopology.NetworkShape ut))
  else
    match assoc_lookup PrimaryDC (userConfigTopology.Datacenters ut) with
    | None => Some ErrPrimaryMissing
    | Some _ => head (omap entryViolation (userConfigTopology.Datacenters ut))
    end.

(** The order of validation as the specification words it: primary
    datacenter present; every name matches [dc<positive integer>]; every
    datacenter has a server and a client; the shape is supported. *)
Definition specNameOk (dc : string) : bool :=
  match dcPatt_FindStringSubmatch dc with
  | Some m => match Atoi m with Some i => 0 <? i | None => false end
  | None => false
  end.

Definition specViolation (uc : userConfig.t) : option error :=
  let ut := userConfig.Topology uc in
  let es := userConfigTopology.Datacenters ut in
  match assoc_lookup PrimaryDC es with
  | None => Some ErrPrimaryMissing
  | Some _ =>
      match List.find (λ e, negb (specNameOk e.1)) es with
      | Some (dc, _) => Some (ErrInvalidDatacenterName dc)
      | None =>
          match head (omap (λ '(dc, v),
                        if userConfigTopologyDatacenter.Servers v <=? 0
                        then Some (ErrNoServer dc)
                        else if userConfigTopologyDatacenter.Clients v <=? 0
                        then Some (ErrNoClient dc) else None) es) with
          | Some e => Some e
          | None =>
              if shapeSupported (userConfigTopology.NetworkShape ut) then None
              else Some (ErrUnknownNetworkShape (userConfigTopology.NetworkShape ut))
          end
      end
  end.

(** The number of nodes a specification asks for. *)
Definition totalNodes (es : list (string * userConfigTopologyDatacenter.t)) : Z :=
  foldr (λ e acc, userConfigTopologyDatacenter.Servers e.2
                  + userConfigTopologyDatacenter.Clients e.2 + acc) 0 es.

(** The local addresses of a topology: name and local address of every
    node, in iteration order. *)
Definition localIPs (t : Topology.t) : res (list (string * string)) :=
  Walk t (λ acc n, ip ← LocalAddress n; Ok (acc ++ [(Node.Name n, ip)])) [].

(** *** Scrape jobs *)

(** What every entry of the map [jobs] satisfies between two calls of
    [add]: it is stored under its own name, its targets are sorted and its
    labels are sorted by key. *)
Definition job_ok (name : string) (j : job.t) : Prop :=
  job.Name j = name
  ∧ StronglySorted String.le (job.Targets j)
  ∧ StronglySorted (λ a b, String.le (kv.Key a) (kv.Key b)) (job.Labels j).

Definition jobs_ok (jobs : gmap string job.t) : Prop :=
  map_Forall job_ok jobs.

(** Name and targets of the jobs of an output. *)
Definition jobTargets (out : list job.t) : list (string * list string) :=
  (λ j, (job.Name j, job.Targets j)) <$> out.

Definition example_two_servers : userConfig.t :=
  uc_of "flat" [("dc1", dcv 2 1)] None.

(** *** The service graph of the manifest *)

(** The service entries the manifest holds for a node: the pause
    container of its pod, its agent, its mesh gateway if it is one, and the
    application with its sidecar if it carries a service. *)
Definition expectedServices (n : Node.t) : list composeService.t :=
  [ composeService.mk (Node.Name n +:+ "-pod") [] "pod";
    composeService.mk (Node.Name n)
      (if negb (Node.Server n)
       then [Node.Name n +:+ "-pod"] ++ [Node.Datacenter n +:+ "-server1"]
       else [Node.Name n +:+ "-pod"]) "consul" ]
  ++ ((if Node.MeshGateway n
       then [composeService.mk (Node.Name n +:+ "-mesh-gateway") [Node.Name n] "gateway"]
       else [])
      ++ match Node.Service n with
         | Some svc =>
             [ composeService.mk (Node.Name n +:+ "-" +:+ Service.Name svc)
                 [Node.Name n] "app";
               composeService.mk
                 ((Node.Name n +:+ "-" +:+ Service.Name svc) +:+ "-sidecar")
                 [Node.Name n +:+ "-" +:+ Service.Name svc] "sidecar" ]
         | None => []
         end).

(** The start-after edges the code gives a node [n]: from its agent to
    its pod; for a client, from its agent to the first server of its
    datacenter; from its mesh gateway to its agent; from its application
    to its agent and from the sidecar to the application. *)
Definition codeEdge (n : Node.t) (a b : string) : Prop :=
  (a = Node.Name n ∧ b = Node.Name n +:+ "-pod")
  ∨ (Node.Server n = false ∧ a = Node.Name n
     ∧ b = Node.Datacenter n +:+ "-server1")
  ∨ (Node.MeshGateway n = true
     ∧ a = Node.Name n +:+ "-mesh-gateway" ∧ b = Node.Name n)
  ∨ (∃ svc, Node.Service n = Some svc
       ∧ (a = Node.Name n +:+ "-" +:+ Service.Name svc ∧ b = Node.Name n
          ∨ a = (Node.Name n +:+ "-" +:+ Service.Name svc) +:+ "-sidecar"
            ∧ b = Node.Name n +:+ "-" +:+ Service.Name svc)).

(** The edges as the specification lists them, over the nodes [ns] of a
    topology: application to agent, sidecar to application, mesh gateway to
    agent, client agent to a server agent of its datacenter. *)
Definition specEdgeb (ns : list Node.t) (a b : string) : bool :=
  existsb (λ n,
    match Node.Service n with
    | Some svc =>
        String.eqb a (Node.Name n +:+ "-" +:+ Service.Name svc)
          && String.eqb b (Node.Name n)
        || String.eqb a ((Node.Name n +:+ "-" +:+ Service.Name svc) +:+ "-sidecar")
           && String.eqb b (Node.Name n +:+ "-" +:+ Service.Name svc)
    | None => false
    end
    || Node.MeshGateway n
       && String.eqb a (Node.Name n +:+ "-mesh-gateway")
       && String.eqb b (Node.Name n)
    || negb (Node.Server n) && String.eqb a (Node.Name n)
       && existsb (λ s, Node.Server s
                        && String.eqb (Node.Datacenter s) (Node.Datacenter n)
                        && String.eqb b (Node.Name s)) ns) ns.

Definition dependsOn (edges : list (string * string)) : relation string :=
  λ a b, (a, b) ∈ edges.

(** No service is reachable from itself through one or more edges. *)
Definition acyclic (edges : list (string * string)) : Prop :=
  ∀ a, ¬ tc (dependsOn edges) a a.

(** A rank that decreases along every edge: pause containers, server
    agents, client agents, applications and gateways, sidecars. *)
Definition rank (t : Topology.t) (s : string) : nat :=
  match Topology.nm t !! s with
  | Some n => if Node.Server n then 1%nat else 2%nat
  | None =>
      match last_char s with
      | Some "d"%char => 0%nat
      | Some "r"%char => 4%nat
      | _ => 3%nat
      end
  end.

Definition example_config : FlatConfig.t :=
  FlatConfig.mk "consul:1.5.0" true "" false true "info" "" "".


(** * Further code of [topology.go] and [gen.go] *)

Fixpoint DC_loop (dcs : list Datacenter.t) (name : string) : res Datacenter.t :=
  match dcs with
  | [] => Panic "no such dc"
  | dc :: rest =>
      if String.eqb (Datacenter.Name dc) name then Ok dc else DC_loop rest name
  end.

(** [Topology.DC]: the descriptor of the datacenter of that name. *)
Definition DC (t : Topology.t) (name : string) : res Datacenter.t :=
  DC_loop (Topology.dcs t) name.

(** The local addresses [forDC] gives the servers of a datacenter, by
    index. *)
Definition serverLocalIPs (baseIP : string) (servers : Z) : list string :=
  (λ k, baseIP +:+ "." +:+ Itoa (10 + k)) <$> seqZ 1 servers.




Definition example_dual : userConfig.t :=
  uc_of "dual" [("dc1", dcv 1 2)]
    (Some (<["dc1-client2" :=
               userConfigTopologyNodeConfig.mk "" "" "" false true ∅]> ∅)).







(** ** The jobs of the scrape configuration *)

(** The local address of a node that has one. *)
Definition localIP (n : Node.t) : string :=
  match LocalAddress n with
  | Ok a => a
  | _ => ""
  end.

(** The jobs the closure of [generatePrometheusConfigFile] hands to [add]
    for a node, in order. *)
Definition nodeJobs (config : FlatConfig.t) (node : Node.t) : list job.t :=
  let a := localIP node in
  if Node.Server node then
    [job.mk ("consul-servers-" +:+ Node.Datacenter node)
       "/v1/agent/metrics" (agentParams config)
       [JoinHostPort a "8500"]
       [kv.mk "dc" (Node.Datacenter node); kv.mk "role" "consul-server"]]
  else
    job.mk ("consul-clients-" +:+ Node.Datacenter node)
      "/v1/agent/metrics" (agentParams config)
      [JoinHostPort a "8500"]
      [kv.mk "dc" (Node.Datacenter node); kv.mk "role" "consul-client"]
    :: (if Node.MeshGateway node then
          [job.mk ("mesh-gateways-" +:+ Node.Datacenter node)
             "/metrics" ∅
             [JoinHostPort a "9102"]
             [kv.mk "dc" (Node.Datacenter node); kv.mk "role" "mesh-gateway"]]
        else
          match Node.Service node with
          | Some svc =>
              [job.mk (Service.Name svc +:+ "-proxy")
                 "/metrics" ∅
                 [JoinHostPort a "9102"]
                 [kv.mk "dc" (Node.Datacenter node);
                  kv.mk "role" (Service.Name svc +:+ "-proxy")]]
          | None => []
          end).

(** The targets of the jobs named [name] among [js], in order. *)
Definition targetsFor (name : string) (js : list job.t) : list string :=
  js ≫= λ j, if String.eqb (job.Name j) name then job.Targets j else [].

(** What the map holds under [name] after the jobs [h] were added to the
    empty map. *)
Definition added (h : list job.t) (jobs : gmap string job.t) : Prop :=
  ∀ name,
    match jobs !! name with
    | Some j' => job.Name j' = name ∧ job.Targets j' ≡ₚ targetsFor name h
                 ∧ ∃ j, j ∈ h ∧ job.Name j = name
    | None => ∀ j, j ∈ h → job.Name j ≠ name
    end.

(** ** The volumes and the service names of the manifest *)

(** The closure [generateComposeFile] hands to [Walk], with both slices
    it appends to: [info.Volumes] gets the node's name and [info.Pods] the
    node's pod, once the pod is built. *)
Definition composeNodeInfo (config : FlatConfig.t) (topology : Topology.t)
    (GatewayAddrs : Topology.t → string → res (list string))
    (info : list string * list composePod.t) (node : Node.t)
    : res (list string * list composePod.t) :=
  pods ← composeNode config topology GatewayAddrs info.2 node;
  Ok (info.1 ++ [Node.Name node], pods).

(** [generateComposeFile], up to [info.Volumes] and [info.Pods]. *)
Definition generateComposeInfo (config : FlatConfig.t) (topology : Topology.t)
    (GatewayAddrs : Topology.t → string → res (list string))
    : res (list string * list composePod.t) :=
  Walk topology (composeNodeInfo config topology GatewayAddrs)
    (if FlatConfig.PrometheusEnabled config
     then [] ++ ["prometheus-data"] ++ ["grafana-data"] else [],
     []).

(** A suffix the manifest appends to a node name: nothing, or a dash and
    more. *)
Definition suffix_ok (s : string) : Prop := s = "" ∨ ∃ x, s = String "-" x.

(** The suffixes of the names of the service entries of a node, in the
    order of [expectedServices]. *)
Definition serviceSuffixes (n : Node.t) : list string :=
  ["-pod"; ""]
  ++ (if Node.MeshGateway n then ["-mesh-gateway"] else [])
  ++ match Node.Service n with
     | Some svc => ["-" +:+ Service.Name svc;
                    "-" +:+ Service.Name svc +:+ "-sidecar"]
     | None => []
     end.

Definition example_same_number : userConfig.t :=
  uc_of "flat" [("dc1", dcv 1 1); ("dc01", dcv 1 1)] None.



(** * Properties *)

(** ** The library functions on examples *)

Example Itoa_11 : Itoa 11 = "11". Proof. reflexivity. Qed.
Example Itoa_0 : Itoa 0 = "0". Proof. reflexivity. Qed.
Example Atoi_007 : Atoi "007" = Some 7. Proof. reflexivity. Qed.
Example Atoi_big : Atoi "9223372036854775808" = None. Proof. reflexivity. Qed.
Example Atoi_max : Atoi "9223372036854775807" = Some MaxInt. Proof. reflexivity. Qed.
Example dcPatt_dc1 : dcPatt_FindStringSubmatch "dc1" = Some "1". Proof. reflexivity. Qed.
Example dcPatt_dc : dcPatt_FindStringSubmatch "dc" = None. Proof. reflexivity. Qed.
Example dcPatt_dcx : dcPatt_FindStringSubmatch "dc1x" = None. Proof. reflexivity. Qed.
Example sort_ex : sort_Strings ["b"; "a"; "c"; "a"] = ["a"; "a"; "b"; "c"].
Proof. reflexivity. Qed.

(** ** Outcomes and loops *)

Lemma bind_Ok_inv {A B} (m : res A) (k : A → res B) (b : B) :
  (m ≫= k) = Ok b → ∃ a, m = Ok a ∧ k a = Ok b.
Proof. destruct m; simpl; intros; eauto; discriminate. Qed.

(** ** Decimal strings *)

Lemma to_int_not_nil (i : Z) :
  Z.to_int i ≠ Decimal.Pos Nil ∧ Z.to_int i ≠ Decimal.Neg Nil.
Proof.
  destruct i as [|p|p]; simpl; split; try discriminate;
    intros [= H]; by apply (DecimalPos.Unsigned.to_uint_nonnil p).
Qed.

Lemma Itoa_inj (a b : Z) : Itoa a = Itoa b → a = b.
Proof.
  unfold Itoa. intros H. apply DecimalZ.to_int_inj.
  destruct (to_int_not_nil a) as [Ha1 Ha2], (to_int_not_nil b) as [Hb1 Hb2].
  pose proof (NilZero.isi _ Ha1 Ha2) as Ea.
  pose proof (NilZero.isi _ Hb1 Hb2) as Eb.
  rewrite H in Ea. rewrite Ea in Eb. by injection Eb.
Qed.

Lemma string_of_uint_digits (d : Decimal.uint) :
  all_digits (NilEmpty.string_of_uint d) = true.
Proof. induction d; simpl; auto. Qed.

(** For a number that is not negative, [Itoa] gives a non-empty string of
    digits whose value is the number. *)
Lemma Itoa_nonneg (i : Z) :
  0 ≤ i →
  ∃ d, d ≠ Nil ∧ Z.of_uint d = i ∧ Itoa i = NilEmpty.string_of_uint d.
Proof.
  intros Hi. unfold Itoa. destruct i as [|p|p]; [| |lia].
  - exists (D0 Nil). by repeat split.
  - exists (Pos.to_uint p). split; [apply DecimalPos.Unsigned.to_uint_nonnil|]. split.
    + change (Z.of_uint (Pos.to_uint p)) with (Z.of_int (Z.to_int (Z.pos p))).
      apply DecimalZ.of_to.
    + simpl. unfold NilZero.string_of_uint.
      pose proof (DecimalPos.Unsigned.to_uint_nonnil p). by destruct (Pos.to_uint p).
Qed.

Lemma Itoa_digits (i : Z) : 0 ≤ i → all_digits (Itoa i) = true.
Proof.
  intros Hi. destruct (Itoa_nonneg i Hi) as (d & _ & _ & ->).
  apply string_of_uint_digits.
Qed.

Lemma Itoa_nonempty (i : Z) : Itoa i ≠ "".
Proof.
  unfold Itoa. destruct i as [|p|p]; simpl; try discriminate.
  unfold NilZero.string_of_uint. pose proof (DecimalPos.Unsigned.to_uint_nonnil p).
  destruct (Pos.to_uint p); simpl; discriminate.
Qed.

Lemma digits_value_Itoa (i : Z) : 0 ≤ i → digits_value (Itoa i) = Some i.
Proof.
  intros Hi. destruct (Itoa_nonneg i Hi) as (d & Hd & Hv & E).
  unfold digits_value.
  replace (Itoa i) with (NilZero.string_of_uint d)
    by (rewrite E; by destruct d).
  rewrite NilZero.usu by done. simpl. by rewrite Hv.
Qed.

Lemma Atoi_Itoa (i : Z) : 0 ≤ i ≤ MaxInt → Atoi (Itoa i) = Some i.
Proof.
  intros Hi.
  assert (Hd : all_digits (Itoa i) = true) by (apply Itoa_digits; lia).
  assert (Hv := digits_value_Itoa i ltac:(lia)).
  unfold Atoi.
  assert (E : match Itoa i with
              | String "+" rest => digits_value rest
              | String "-" rest => Z.opp <$> digits_value rest
              | _ => digits_value (Itoa i)
              end = Some i).
  { destruct (Itoa i) as [|c r] eqn:Es; [done|].
    simpl in Hd. apply andb_prop in Hd as [Hc _].
    destruct c as [[] [] [] [] [] [] [] []]; try done. }
  rewrite E. simpl.
  unfold MinInt, MaxInt in *.
  destruct (Z.leb_spec (- 2 ^ 63) i), (Z.leb_spec i (2 ^ 63 - 1)); simpl; try lia.
  done.
Qed.

Lemma dcPatt_Itoa (i : Z) :
  0 ≤ i → dcPatt_FindStringSubmatch ("dc" +:+ Itoa i) = Some (Itoa i).
Proof.
  intros Hi. change ("dc" +:+ Itoa i) with (String "d" (String "c" (Itoa i))).
  simpl. rewrite Itoa_digits by done.
  pose proof (Itoa_nonempty i). by destruct (Itoa i).
Qed.

Lemma dcPatt_inv (s m : string) :
  dcPatt_FindStringSubmatch s = Some m →
  s = "dc" +:+ m ∧ all_digits m = true ∧ m ≠ "".
Proof.
  unfold dcPatt_FindStringSubmatch.
  destruct s as [|c1 [|c2 r]]; try done.
  - destruct c1 as [[] [] [] [] [] [] [] []]; done.
  - destruct c1 as [[] [] [] [] [] [] [] []]; try done.
    destruct c2 as [[] [] [] [] [] [] [] []]; try done.
    destruct r as [|c r]; [done|].
    destruct (all_digits (String c r)) eqn:E; [|done].
    intros [= <-]. done.
Qed.

(** The canonical name of the datacenter number [i] passes the name
    check. *)
Lemma nameOk_canonical (i : Z) :
  0 ≤ i ≤ MaxInt → nameOk ("dc" +:+ Itoa i) = true.
Proof.
  intros Hi. unfold nameOk. rewrite dcPatt_Itoa by lia.
  by rewrite Atoi_Itoa.
Qed.

(** ** Node names *)

Lemma digits_no_dash (s : string) : all_digits s = true → no_dash s = true.
Proof.
  induction s as [|c s IH]; [done|]. simpl.
  intros [Hc Hs]%andb_prop. rewrite IH by done.
  destruct c as [[] [] [] [] [] [] [] []]; done.
Qed.

Lemma dash_split (a b x y : string) :
  no_dash a = true → no_dash b = true →
  a +:+ String "-" x = b +:+ String "-" y → a = b ∧ x = y.
Proof.
  revert b. induction a as [|c a IH]; intros [|c' b] Ha Hb E.
  - by injection E.
  - change ("" +:+ String "-" x) with (String "-" x) in E.
    change (String c' b +:+ String "-" y) with (String c' (b +:+ String "-" y)) in E.
    injection E as <- _. done.
  - change ("" +:+ String "-" y) with (String "-" y) in E.
    change (String c a +:+ String "-" x) with (String c (a +:+ String "-" x)) in E.
    injection E as -> _. done.
  - change (String c a +:+ String "-" x) with (String c (a +:+ String "-" x)) in E.
    change (String c' b +:+ String "-" y) with (String c' (b +:+ String "-" y)) in E.
    injection E as -> E. simpl in Ha, Hb.
    apply andb_prop in Ha as [_ Ha]. apply andb_prop in Hb as [_ Hb].
    destruct (IH b Ha Hb E) as [-> ->]. done.
Qed.

Lemma serverName_inj (dc dc' : string) (k k' : Z) :
  no_dash dc = true → no_dash dc' = true →
  serverName dc k = serverName dc' k' → dc = dc' ∧ k = k'.
Proof.
  intros Hd Hd' E. unfold serverName in E.
  change ("-server" +:+ Itoa k) with (String "-" ("server" +:+ Itoa k)) in E.
  change ("-server" +:+ Itoa k') with (String "-" ("server" +:+ Itoa k')) in E.
  destruct (dash_split _ _ _ _ Hd Hd' E) as [-> E'].
  split; [done|]. apply Itoa_inj. by simplify_eq.
Qed.

Lemma clientName_inj (dc dc' : string) (k k' : Z) :
  no_dash dc = true → no_dash dc' = true →
  clientName dc k = clientName dc' k' → dc = dc' ∧ k = k'.
Proof.
  intros Hd Hd' E. unfold clientName in E.
  change ("-client" +:+ Itoa k) with (String "-" ("client" +:+ Itoa k)) in E.
  change ("-client" +:+ Itoa k') with (String "-" ("client" +:+ Itoa k')) in E.
  destruct (dash_split _ _ _ _ Hd Hd' E) as [-> E'].
  split; [done|]. apply Itoa_inj. by simplify_eq.
Qed.

Lemma serverName_clientName (dc dc' : string) (k k' : Z) :
  no_dash dc = true → no_dash dc' = true →
  serverName dc k ≠ clientName dc' k'.
Proof.
  intros Hd Hd' E. unfold serverName, clientName in E.
  change ("-server" +:+ Itoa k) with (String "-" ("server" +:+ Itoa k)) in E.
  change ("-client" +:+ Itoa k') with (String "-" ("client" +:+ Itoa k')) in E.
  destruct (dash_split _ _ _ _ Hd Hd' E) as [_ E']. discriminate.
Qed.

Lemma last_char_app (a b : string) :
  b ≠ "" → last_char (a +:+ b) = last_char b.
Proof.
  intros Hb. induction a as [|c a IH]; [done|].
  change (String c a +:+ b) with (String c (a +:+ b)).
  simpl. rewrite IH. destruct (a +:+ b) eqn:E; [|done].
  destruct a; [by destruct b|done].
Qed.

Lemma last_char_digits (s : string) :
  s ≠ "" → all_digits s = true →
  ∃ c, last_char s = Some c ∧ is_digit c = true.
Proof.
  induction s as [|c s IH]; [done|]. intros _ [Hc Hs]%andb_prop.
  destruct s as [|c' s]; [by exists c|].
  destruct IH as (c'' & H1 & H2); [done|done|].
  exists c''. split; [|done]. exact H1.
Qed.

(** ** Sorting *)

Lemma ltb_false_leb (a b : string) :
  String.ltb b a = false ↔ String.leb a b = true.
Proof.
  unfold String.ltb, String.leb. rewrite (String.compare_antisym a b).
  destruct (String.compare b a); simpl; split; done.
Qed.

Lemma leb_neq_ltb (a b : string) :
  String.leb a b = true → a ≠ b → String.ltb a b = true.
Proof.
  unfold String.ltb, String.leb. intros H Hne.
  destruct (String.compare a b) eqn:E; try done.
  by apply String.compare_eq_iff in E.
Qed.

Lemma ltb_irrefl (a : string) : String.ltb a a = false.
Proof.
  apply ltb_false_leb. destruct (String.leb_total a a); done.
Qed.

Section sort_by_key.
Context {A : Type} (key : A → string) (less : A → A → bool).
Hypothesis less_key : ∀ a b, less a b = String.ltb (key a) (key b).

Lemma not_after_le (a b : A) :
  not_after less a b ↔ String.le (key a) (key b).
Proof.
  unfold not_after, String.le. rewrite less_key, ltb_false_leb.
  by rewrite Is_true_true.
Qed.

#[local] Instance not_after_total : Total (not_after less).
Proof.
  intros a b. rewrite !not_after_le. apply (total String.le).
Qed.

#[local] Instance not_after_trans : Transitive (not_after less).
Proof.
  intros a b c. rewrite !not_after_le. apply (transitivity (R:=String.le)).
Qed.

Lemma sort_Slice_perm (l : list A) : sort_Slice less l ≡ₚ l.
Proof. apply merge_sort_Permutation. Qed.

Lemma sort_Slice_sorted (l : list A) :
  StronglySorted (λ a b, String.le (key a) (key b)) (sort_Slice less l).
Proof.
  assert (H : StronglySorted (not_after less) (sort_Slice less l))
    by apply (StronglySorted_merge_sort _).
  induction H as [|x l' H IH Hx]; constructor; [done|].
  eapply Forall_impl; [exact Hx|]. intros y. by rewrite not_after_le.
Qed.

(** With pairwise distinct keys the order is strict and does not depend
    on the order of the input. *)
Lemma sort_Slice_strict (l : list A) :
  NoDup (key <$> l) →
  StronglySorted (λ a b, strlt (key a) (key b)) (sort_Slice less l).
Proof.
  intros Hnd. rewrite <-(sort_Slice_perm l) in Hnd.
  pose proof (sort_Slice_sorted l) as H.
  induction H as [|x l' H IH Hx]; constructor.
  - apply IH. by inv Hnd.
  - inv Hnd. rewrite Forall_forall in Hx |- *. intros y Hy.
    apply leb_neq_ltb; [apply Is_true_true, Hx, Hy|].
    intros E. match goal with H : _ ∉ _ |- _ => apply H end.
    rewrite E. apply list_elem_of_fmap. eauto.
Qed.

Lemma sort_Slice_unique (l1 l2 : list A) :
  NoDup (key <$> l1) → l1 ≡ₚ l2 → sort_Slice less l1 = sort_Slice less l2.
Proof.
  intros Hnd Hp.
  apply (StronglySorted_unique_strong (λ a b, String.le (key a) (key b)));
    [|apply sort_Slice_sorted..|by rewrite !sort_Slice_perm].
  intros x1 x2 H1 H2 Hle1 Hle2.
  rewrite sort_Slice_perm in H1. rewrite sort_Slice_perm, <-Hp in H2.
  assert (Ek : key x1 = key x2) by (by apply (anti_symm String.le)).
  clear Hle1 Hle2 Hp. induction l1 as [|z l1 IH]; [by inv H1|].
  rewrite fmap_cons in Hnd. inv Hnd.
  inv H1; inv H2; try done.
  - exfalso. match goal with H : _ ∉ _ |- _ => apply H end.
    rewrite Ek. apply list_elem_of_fmap. eauto.
  - exfalso. match goal with H : _ ∉ _ |- _ => apply H end.
    rewrite <-Ek. apply list_elem_of_fmap. eauto.
  - by apply IH.
Qed.
End sort_by_key.

Lemma sort_Strings_sorted (l : list string) :
  StronglySorted String.le (sort_Strings l).
Proof. apply (sort_Slice_sorted id String.ltb). done. Qed.

Lemma sort_Strings_perm (l : list string) : sort_Strings l ≡ₚ l.
Proof. apply merge_sort_Permutation. Qed.

(** ** The loops of the builder *)

Lemma mapM_Ok_inv {A B} (f : A → res B) (l : list A) (ys : list B) :
  mapM f l = Ok ys → Forall2 (λ x y, f x = Ok y) l ys.
Proof.
  revert ys. induction l as [|x l IH]; intros ys; simpl.
  - intros [= <-]. constructor.
  - destruct (f x) as [y| |] eqn:E; simpl; try done.
    destruct (mapM f l) as [ys'| |]; simpl; try done.
    intros [= <-]. constructor; auto.
Qed.

Lemma forEach_addNode {A} (mk : A → res Node.t) (l : list A) (t : Topology.t) :
  forEach (λ topology x, node ← mk x; Ok (addNode topology node)) l t
  = (ns ← mapM mk l; Ok (foldl addNode t ns)).
Proof.
  revert t. induction l as [|x l IH]; intros t; simpl; [done|].
  destruct (mk x) as [n| |]; simpl; try done.
  rewrite IH. destruct (mapM mk l); simpl; done.
Qed.

Lemma forDC_dcNodes cfgs shape (d : Datacenter.t) (t : Topology.t) :
  forDC cfgs shape (Datacenter.Name d) (Datacenter.BaseIP d)
    (Datacenter.WANBaseIP d) (Datacenter.Servers d) (Datacenter.Clients d) t
  = (ns ← dcNodes cfgs shape d; Ok (foldl addNode t ns)).
Proof.
  unfold forDC, dcNodes. rewrite forEach_addNode.
  destruct (mapM (serverNode _ _ _ _) _) as [ns1| |]; simpl; try done.
  rewrite forEach_addNode.
  destruct (mapM (clientNode _ _ _ _ _) _) as [ns2| |]; simpl; try done.
  by rewrite foldl_app.
Qed.

Lemma addNode_shape t n :
  Topology.NetworkShape (addNode t n) = Topology.NetworkShape t.
Proof. unfold addNode. by destruct (Node.Server n). Qed.

Lemma addNode_dcs t n : Topology.dcs (addNode t n) = Topology.dcs t.
Proof. unfold addNode. by destruct (Node.Server n). Qed.

Lemma addNode_nm t n :
  Topology.nm (addNode t n) = <[Node.Name n := n]> (Topology.nm t).
Proof. unfold addNode. by destruct (Node.Server n). Qed.

Lemma foldl_addNode_shape ns t :
  Topology.NetworkShape (foldl addNode t ns) = Topology.NetworkShape t.
Proof.
  revert t. induction ns as [|n ns IH]; intros t; simpl; [done|].
  by rewrite IH, addNode_shape.
Qed.

Lemma foldl_addNode_dcs ns t :
  Topology.dcs (foldl addNode t ns) = Topology.dcs t.
Proof.
  revert t. induction ns as [|n ns IH]; intros t; simpl; [done|].
  by rewrite IH, addNode_dcs.
Qed.

Lemma forEach_forDC cfgs (ds : list Datacenter.t) (t : Topology.t) :
  forEach (λ topology dc,
             forDC cfgs (Topology.NetworkShape topology)
               (Datacenter.Name dc) (Datacenter.BaseIP dc)
               (Datacenter.WANBaseIP dc)
               (Datacenter.Servers dc) (Datacenter.Clients dc) topology) ds t
  = (ns ← builtNodes cfgs (Topology.NetworkShape t) ds; Ok (foldl addNode t ns)).
Proof.
  unfold builtNodes. revert t. induction ds as [|d ds IH]; intros t; simpl; [done|].
  rewrite forDC_dcNodes.
  destruct (dcNodes cfgs _ d) as [ns| |]; simpl; try done.
  rewrite IH, foldl_addNode_shape.
  destruct (mapM _ ds) as [nss| |]; simpl; try done.
  by rewrite foldl_app.
Qed.

Lemma foldl_addNode_servers ns t :
  Forall (λ n, Node.Server n = true) ns →
  Topology.servers (foldl addNode t ns) = Topology.servers t ++ (Node.Name <$> ns)
  ∧ Topology.clients (foldl addNode t ns) = Topology.clients t.
Proof.
  intros H. revert t. induction H as [|n ns Hn _ IH]; intros t; simpl.
  - by rewrite app_nil_r.
  - destruct (IH (addNode t n)) as [-> ->]. unfold addNode. rewrite Hn. simpl.
    by rewrite <-app_assoc.
Qed.

Lemma foldl_addNode_clients ns t :
  Forall (λ n, Node.Server n = false) ns →
  Topology.clients (foldl addNode t ns) = Topology.clients t ++ (Node.Name <$> ns)
  ∧ Topology.servers (foldl addNode t ns) = Topology.servers t.
Proof.
  intros H. revert t. induction H as [|n ns Hn _ IH]; intros t; simpl.
  - by rewrite app_nil_r.
  - destruct (IH (addNode t n)) as [-> ->]. unfold addNode. rewrite Hn. simpl.
    by rewrite <-app_assoc.
Qed.

Lemma foldl_addNode_nm ns t :
  Topology.nm (foldl addNode t ns)
  = foldl (λ m n, <[Node.Name n := n]> m) (Topology.nm t) ns.
Proof.
  revert t. induction ns as [|n ns IH]; intros t; simpl; [done|].
  by rewrite IH, addNode_nm.
Qed.

(** With pairwise distinct names the node table holds exactly the nodes
    added, each under its name. *)
Lemma foldl_insert_lookup (ns : list Node.t) name n :
  NoDup (Node.Name <$> ns) →
  foldl (λ m n, <[Node.Name n := n]> m) (∅ : gmap string Node.t) ns !! name = Some n
  ↔ n ∈ ns ∧ Node.Name n = name.
Proof.
  induction ns as [|x ns IH] using rev_ind.
  - intros _. simpl. rewrite lookup_empty. split; [done|]. intros [H _]. inv H.
  - rewrite fmap_app, foldl_app. simpl. intros Hnd.
    apply NoDup_app in Hnd as (Hnd & Hx & _).
    destruct (decide (Node.Name x = name)) as [<-|Hne].
    + rewrite lookup_insert_eq. split.
      * intros [= <-]. split; [|done]. apply elem_of_app. right. by left.
      * intros [Hin E]. apply elem_of_app in Hin as [Hin|Hin].
        -- exfalso. apply (Hx (Node.Name x)); [|by left].
           rewrite <-E. apply list_elem_of_fmap. eauto.
        -- apply list_elem_of_singleton in Hin. by subst.
    + rewrite lookup_insert_ne by done. rewrite IH by done.
      split; intros [Hin E]; split; try done.
      * apply elem_of_app. by left.
      * apply elem_of_app in Hin as [Hin|Hin]; [done|].
        apply list_elem_of_singleton in Hin. by subst.
Qed.

Lemma foldl_insert_size (ns : list Node.t) :
  NoDup (Node.Name <$> ns) →
  size (foldl (λ m n, <[Node.Name n := n]> m) (∅ : gmap string Node.t) ns)
  = length ns.
Proof.
  induction ns as [|x ns IH] using rev_ind; [done|].
  rewrite fmap_app, foldl_app, length_app. simpl. intros Hnd.
  apply NoDup_app in Hnd as (Hnd & Hx & _).
  rewrite map_size_insert_None; [rewrite IH by done; simpl; lia|].
  destruct (foldl _ _ ns !! Node.Name x) as [n|] eqn:E; [|done].
  apply foldl_insert_lookup in E as [Hin E]; [|done].
  exfalso. apply (Hx (Node.Name x)); [|by left].
  rewrite <-E. apply list_elem_of_fmap. eauto.
Qed.

(** ** The nodes and descriptors the builder creates *)

Lemma serverNode_Ok shape dc b w k :
  valid_shape shape →
  serverNode shape dc b w k
  = Ok (Node.mk dc (serverName dc k) true
          (Address.mk (localNetwork shape dc) (b +:+ "." +:+ Itoa (10 + k))
           :: (if String.eqb shape NetworkShapeDual
               then [Address.mk "wan" (w +:+ "." +:+ Itoa (10 + k))] else []))
          None false false (k - 1)).
Proof. intros [-> | ->]; reflexivity. Qed.

Lemma clientNode_Ok cfgs shape dc b w k :
  valid_shape shape →
  let c := nodeConfigFor cfgs (clientName dc k) in
  let gw := userConfigTopologyNodeConfig.MeshGateway c in
  let opposite := if k `rem` 2 =? 1 then "pong" else "ping" in
  clientNode cfgs shape dc b w k
  = Ok (Node.mk dc (clientName dc k) false
          (Address.mk (localNetwork shape dc) (b +:+ "." +:+ Itoa (20 + k))
           :: (if gw && String.eqb shape NetworkShapeDual
               then [Address.mk "wan" (w +:+ "." +:+ Itoa (20 + k))] else []))
          (if gw then None
           else Some (Service.mk (if k `rem` 2 =? 1 then "ping" else "pong") 8080
                        (if String.eqb (userConfigTopologyNodeConfig.UpstreamName c) ""
                         then opposite
                         else userConfigTopologyNodeConfig.UpstreamName c)
                        (userConfigTopologyNodeConfig.UpstreamDatacenter c) 9090
                        (userConfigTopologyNodeConfig.UpstreamExtraHCL c)
                        (userConfigTopologyNodeConfig.Meta c)))
          gw
          (if gw then false else userConfigTopologyNodeConfig.UseBuiltinProxy c)
          (k - 1)).
Proof.
  intros Hs c gw opposite. unfold clientNode.
  fold (clientName dc k). fold (nodeConfigFor cfgs (clientName dc k)).
  assert (E : match cfgs with
              | Some cfgs0 =>
                  match cfgs0 !! clientName dc k with
                  | Some c0 => c0
                  | None => userConfigTopologyNodeConfig.zero
                  end
              | None => userConfigTopologyNodeConfig.zero
              end = c).
  { subst c. unfold nodeConfigFor. destruct cfgs as [m|]; [|done].
    by destruct (m !! clientName dc k). }
  rewrite E. subst gw opposite.
  destruct (userConfigTopologyNodeConfig.MeshGateway c),
    (userConfigTopologyNodeConfig.UseBuiltinProxy c),
    (String.eqb_spec (userConfigTopologyNodeConfig.UpstreamName c) ""),
    (String.eqb_spec (userConfigTopologyNodeConfig.UpstreamDatacenter c) "");
    destruct Hs as [-> | ->]; simpl; try reflexivity;
    repeat match goal with H : _ = "" |- _ => rewrite H end; reflexivity.
Qed.

Lemma rangeDatacenter_descriptor dcs entry :
  rangeDatacenter dcs entry = (d ← descriptor entry; Ok (dcs ++ [d])).
Proof.
  unfold descriptor, rangeDatacenter. destruct entry as [dc v].
  destruct (_ <=? 0); [done|]. destruct (_ <=? 0); [done|].
  destruct (dcPatt_FindStringSubmatch dc); [|done].
  destruct (Atoi _); done.
Qed.

Lemma descriptor_Ok_inv dc v d :
  descriptor (dc, v) = Ok d →
  0 < userConfigTopologyDatacenter.Servers v
  ∧ 0 < userConfigTopologyDatacenter.Clients v
  ∧ ∃ m i, dcPatt_FindStringSubmatch dc = Some m ∧ Atoi m = Some i
      ∧ d = Datacenter.mk dc (String.eqb dc PrimaryDC) i
              (userConfigTopologyDatacenter.Servers v)
              (userConfigTopologyDatacenter.Clients v)
              ("10.0." +:+ Itoa i) ("10.1." +:+ Itoa i).
Proof.
  unfold descriptor, rangeDatacenter.
  destruct (Z.leb_spec (userConfigTopologyDatacenter.Servers v) 0); [done|].
  destruct (Z.leb_spec (userConfigTopologyDatacenter.Clients v) 0); [done|].
  destruct (dcPatt_FindStringSubmatch dc) as [m|]; [|done].
  destruct (Atoi m) as [i|] eqn:Ea; [|done]. simpl. intros [= <-].
  split; [lia|]. split; [lia|]. by exists m, i.
Qed.

Lemma forEach_rangeDatacenter entries acc :
  forEach rangeDatacenter entries acc
  = (ds ← mapM descriptor entries; Ok (acc ++ ds)).
Proof.
  revert acc. induction entries as [|e entries IH]; intros acc; simpl.
  - by rewrite app_nil_r.
  - rewrite rangeDatacenter_descriptor.
    destruct (descriptor e) as [d| |]; simpl; try done.
    rewrite IH. destruct (mapM descriptor entries); simpl; try done.
    by rewrite <-app_assoc.
Qed.

(** What [InferTopology] has done when it returns a topology. *)
Lemma InferTopology_Ok_inv uc t :
  InferTopology uc = Ok t →
  let ut := userConfig.Topology uc in
  ∃ shape ds0 ns,
    (userConfigTopology.NetworkShape ut = "dual" ∧ shape = NetworkShapeDual
     ∨ (userConfigTopology.NetworkShape ut = "flat"
        ∨ userConfigTopology.NetworkShape ut = "") ∧ shape = NetworkShapeFlat)
    ∧ is_Some (assoc_lookup PrimaryDC (userConfigTopology.Datacenters ut))
    ∧ mapM descriptor (userConfigTopology.Datacenters ut) = Ok ds0
    ∧ builtNodes (userConfigTopology.NodeConfig ut) shape (sort_Slice dcLess ds0) = Ok ns
    ∧ t = foldl addNode (Topology.mk [] [] ∅ (sort_Slice dcLess ds0) shape) ns.
Proof.
  intros H ut. unfold InferTopology in H. fold ut in H.
  apply bind_Ok_inv in H as (shape & Hshape & H).
  destruct (assoc_lookup PrimaryDC _) as [p|] eqn:Ep; [|done].
  apply bind_Ok_inv in H as (ds0 & Hds & H).
  rewrite forEach_rangeDatacenter in Hds.
  apply bind_Ok_inv in Hds as (ds0' & Hds & [= <-]).
  rewrite forEach_forDC in H. simpl in H.
  apply bind_Ok_inv in H as (ns & Hns & [= <-]).
  exists shape, ds0', ns. split; [|by eauto].
  destruct (String.eqb_spec (userConfigTopology.NetworkShape ut) "dual").
  { left. by injection Hshape. }
  destruct (String.eqb_spec (userConfigTopology.NetworkShape ut) "flat").
  { right. split; [by left|]. by injection Hshape. }
  destruct (String.eqb_spec (userConfigTopology.NetworkShape ut) "").
  { right. split; [by right|]. by injection Hshape. }
  done.
Qed.

Lemma mapM_pure {A B} (f : A → res B) (g : A → B) (l : list A) :
  (∀ x, f x = Ok (g x)) → mapM f l = Ok (g <$> l).
Proof.
  intros H. induction l as [|x l IH]; simpl; [done|].
  by rewrite H, IH.
Qed.

Lemma dcNodes_Ok cfgs shape d :
  valid_shape shape → dcNodes cfgs shape d = Ok (nodesOf cfgs shape d).
Proof.
  intros Hs. unfold dcNodes, nodesOf, serversOf, clientsOf.
  rewrite (mapM_pure (serverNode shape (Datacenter.Name d) (Datacenter.BaseIP d)
                        (Datacenter.WANBaseIP d))
                     (serverOf shape (Datacenter.Name d) (Datacenter.BaseIP d)
                        (Datacenter.WANBaseIP d)))
    by (intros; by apply serverNode_Ok).
  simpl.
  rewrite (mapM_pure (clientNode cfgs shape (Datacenter.Name d) (Datacenter.BaseIP d)
                        (Datacenter.WANBaseIP d))
                     (clientOf cfgs shape (Datacenter.Name d) (Datacenter.BaseIP d)
                        (Datacenter.WANBaseIP d)))
    by (intros; by apply clientNode_Ok).
  done.
Qed.

Lemma concat_fmap_bind {A B} (f : A → list B) (l : list A) :
  concat (f <$> l) = l ≫= f.
Proof.
  induction l as [|x l IH]; [done|]. by rewrite bind_cons, <-IH.
Qed.

Lemma builtNodes_Ok cfgs shape ds :
  valid_shape shape → builtNodes cfgs shape ds = Ok (ds ≫= nodesOf cfgs shape).
Proof.
  intros Hs. unfold builtNodes.
  rewrite (mapM_pure _ (nodesOf cfgs shape)) by (intros; by apply dcNodes_Ok).
  simpl. by rewrite concat_fmap_bind.
Qed.

Lemma descriptor_Ok_entry e d :
  descriptor e = Ok d → e = entryOf d ∧ descriptor_ok d.
Proof.
  destruct e as [dc v]. intros H.
  apply descriptor_Ok_inv in H as (HS & HC & m & i & Hm & Hi & ->).
  apply dcPatt_inv in Hm as (-> & Hd & Hne).
  split; [by destruct v|].
  unfold descriptor_ok. simpl. repeat split; try done. by exists m.
Qed.

Lemma descriptor_ok_no_dash d : descriptor_ok d → no_dash (Datacenter.Name d) = true.
Proof.
  intros (_ & _ & m & -> & Hd & _).
  change ("dc" +:+ m) with (String "d" (String "c" m)). simpl.
  by apply digits_no_dash.
Qed.

Lemma entryOf_Name (ds : list Datacenter.t) :
  fst <$> (entryOf <$> ds) = Datacenter.Name <$> ds.
Proof. by rewrite <-list_fmap_compose. Qed.

Lemma descriptors_entries es ds :
  mapM descriptor es = Ok ds → es = entryOf <$> ds ∧ Forall descriptor_ok ds.
Proof.
  intros H%mapM_Ok_inv.
  induction H as [|e d es ds He _ [IH1 IH2]]; [by split|].
  apply descriptor_Ok_entry in He as [-> Hok]. split.
  - simpl. by f_equal.
  - by constructor.
Qed.

Lemma InferTopology_built uc t :
  wf_userConfig uc → InferTopology uc = Ok t →
  ∃ shape ds, built_from uc t shape ds.
Proof.
  intros Hwf H.
  apply InferTopology_Ok_inv in H as (shape & ds0 & ns & Hs & Hp & Hd & Hn & ->).
  assert (Hv : valid_shape shape) by (destruct Hs as [[_ ->]|[_ ->]]; [by left|by right]).
  rewrite builtNodes_Ok in Hn by done. injection Hn as <-.
  apply descriptors_entries in Hd as [He Hok].
  assert (Hnd : NoDup (Datacenter.Name <$> ds0)).
  { rewrite <-entryOf_Name, <-He. exact Hwf. }
  exists shape, (sort_Slice dcLess ds0). unfold built_from.
  split; [done|]. split; [done|]. split.
  { rewrite He. apply fmap_Permutation. by apply (sort_Slice_perm). }
  split.
  { rewrite (sort_Slice_perm (A:=Datacenter.t)). done. }
  split; [|done].
  by apply (sort_Slice_strict Datacenter.Name dcLess).
Qed.

(** ** The structure of a built topology *)

Lemma fmap_bind_list {A B C} (g : B → C) (f : A → list B) (l : list A) :
  g <$> (l ≫= f) = l ≫= (λ x, g <$> f x).
Proof.
  induction l as [|x l IH]; [done|].
  by rewrite !bind_cons, fmap_app, IH.
Qed.

Lemma elem_of_serverNames dc n y :
  y ∈ serverNames dc n ↔ ∃ k, 1 ≤ k ≤ n ∧ y = serverName dc k.
Proof.
  unfold serverNames. rewrite list_elem_of_fmap. split.
  - intros (k & -> & Hk%elem_of_seqZ). exists k. split; [lia|done].
  - intros (k & Hk & ->). exists k. split; [done|]. apply elem_of_seqZ. lia.
Qed.

Lemma elem_of_clientNames dc n y :
  y ∈ clientNames dc n ↔ ∃ k, 1 ≤ k ≤ n ∧ y = clientName dc k.
Proof.
  unfold clientNames. rewrite list_elem_of_fmap. split.
  - intros (k & -> & Hk%elem_of_seqZ). exists k. split; [lia|done].
  - intros (k & Hk & ->). exists k. split; [done|]. apply elem_of_seqZ. lia.
Qed.

Lemma names_serversOf shape d :
  Node.Name <$> serversOf shape d
  = serverNames (Datacenter.Name d) (Datacenter.Servers d).
Proof. unfold serversOf, serverNames. by rewrite <-list_fmap_compose. Qed.

Lemma names_clientsOf cfgs shape d :
  Node.Name <$> clientsOf cfgs shape d
  = clientNames (Datacenter.Name d) (Datacenter.Clients d).
Proof. unfold clientsOf, clientNames. by rewrite <-list_fmap_compose. Qed.

Lemma names_nodesOf cfgs shape d :
  Node.Name <$> nodesOf cfgs shape d
  = serverNames (Datacenter.Name d) (Datacenter.Servers d)
    ++ clientNames (Datacenter.Name d) (Datacenter.Clients d).
Proof.
  unfold nodesOf. by rewrite fmap_app, names_serversOf, names_clientsOf.
Qed.

Lemma NoDup_dc_names dc n n' :
  no_dash dc = true → NoDup (serverNames dc n ++ clientNames dc n').
Proof.
  intros Hd. apply NoDup_app. split_and!.
  - apply NoDup_fmap_2_strong; [|apply NoDup_seqZ].
    intros k k' _ _ E. by destruct (serverName_inj _ _ _ _ Hd Hd E).
  - intros y (k & _ & ->)%elem_of_serverNames (k' & _ & E)%elem_of_clientNames.
    by apply (serverName_clientName dc dc k k').
  - apply NoDup_fmap_2_strong; [|apply NoDup_seqZ].
    intros k k' _ _ E. by destruct (clientName_inj _ _ _ _ Hd Hd E).
Qed.

(** A node name tells the datacenter. *)
Lemma dc_names_disjoint dc dc' n1 n2 n1' n2' y :
  no_dash dc = true → no_dash dc' = true →
  y ∈ serverNames dc n1 ++ clientNames dc n2 →
  y ∈ serverNames dc' n1' ++ clientNames dc' n2' → dc = dc'.
Proof.
  intros Hd Hd' H1 H2.
  apply elem_of_app in H1 as [(k & _ & ->)%elem_of_serverNames
                             |(k & _ & ->)%elem_of_clientNames];
  apply elem_of_app in H2 as [(k' & _ & E)%elem_of_serverNames
                             |(k' & _ & E)%elem_of_clientNames].
  - by destruct (serverName_inj _ _ _ _ Hd Hd' E).
  - by destruct (serverName_clientName _ _ _ _ Hd Hd' E).
  - symmetry in E. by destruct (serverName_clientName _ _ _ _ Hd' Hd E).
  - by destruct (clientName_inj _ _ _ _ Hd Hd' E).
Qed.

Lemma sorted_names_NoDup (ds : list Datacenter.t) :
  StronglySorted (λ a b, strlt (Datacenter.Name a) (Datacenter.Name b)) ds →
  NoDup (Datacenter.Name <$> ds).
Proof.
  induction 1 as [|d ds _ IH Hd]; simpl; constructor; [|done].
  intros (d' & E & Hin)%list_elem_of_fmap.
  rewrite Forall_forall in Hd. specialize (Hd d' Hin).
  unfold strlt in Hd. rewrite E, ltb_irrefl in Hd. done.
Qed.

Lemma NoDup_names_eq (ds : list Datacenter.t) d d' :
  NoDup (Datacenter.Name <$> ds) → d ∈ ds → d' ∈ ds →
  Datacenter.Name d = Datacenter.Name d' → d = d'.
Proof.
  induction ds as [|x ds IH]; simpl; intros Hnd H1 H2 E; [by inv H1|].
  inv Hnd. inv H1; inv H2; try done.
  - exfalso. match goal with H : _ ∉ _ |- _ => apply H end.
    rewrite E. by apply list_elem_of_fmap_2.
  - exfalso. match goal with H : _ ∉ _ |- _ => apply H end.
    rewrite <-E. by apply list_elem_of_fmap_2.
  - by apply IH.
Qed.

Lemma NoDup_node_names cfgs shape (ds : list Datacenter.t) :
  Forall descriptor_ok ds → NoDup (Datacenter.Name <$> ds) →
  NoDup (Node.Name <$> (ds ≫= nodesOf cfgs shape)).
Proof.
  intros Hok Hnd. rewrite fmap_bind_list. rewrite Forall_forall in Hok.
  apply NoDup_bind.
  - intros d d' y Hd Hd'. rewrite !names_nodesOf. intros H1 H2.
    apply (NoDup_names_eq ds); try done.
    eapply dc_names_disjoint; eauto using descriptor_ok_no_dash.
  - intros d Hd. rewrite names_nodesOf.
    apply NoDup_dc_names. by apply descriptor_ok_no_dash, Hok.
  - by apply NoDup_fmap_1 in Hnd.
Qed.

Lemma foldl_addNode_nodesOf cfgs shape (ds : list Datacenter.t) t :
  Topology.servers (foldl addNode t (ds ≫= nodesOf cfgs shape))
  = Topology.servers t
    ++ (ds ≫= λ d, serverNames (Datacenter.Name d) (Datacenter.Servers d))
  ∧ Topology.clients (foldl addNode t (ds ≫= nodesOf cfgs shape))
  = Topology.clients t
    ++ (ds ≫= λ d, clientNames (Datacenter.Name d) (Datacenter.Clients d)).
Proof.
  revert t. induction ds as [|d ds IH]; intros t.
  - simpl. by rewrite !app_nil_r.
  - rewrite !bind_cons. unfold nodesOf at 1 3. rewrite !foldl_app.
    destruct (IH (foldl addNode (foldl addNode t (serversOf shape d))
                    (clientsOf cfgs shape d))) as [-> ->].
    destruct (foldl_addNode_clients (clientsOf cfgs shape d)
                (foldl addNode t (serversOf shape d))) as [-> ->].
    { unfold clientsOf. apply Forall_fmap, Forall_forall. done. }
    destruct (foldl_addNode_servers (serversOf shape d) t) as [-> ->].
    { unfold serversOf. apply Forall_fmap, Forall_forall. done. }
    rewrite names_serversOf, names_clientsOf. by rewrite !app_assoc.
Qed.

Section built.
Context (uc : userConfig.t) (t : Topology.t) (shape : string)
        (ds : list Datacenter.t).
Hypothesis Hbuilt : built_from uc t shape ds.

Let cfgs := userConfigTopology.NodeConfig (userConfig.Topology uc).
Let nodes := ds ≫= nodesOf cfgs shape.

Lemma built_valid_shape : valid_shape shape.
Proof. destruct Hbuilt as ([[_ ->]|[_ ->]] & _); [by left|by right]. Qed.

Lemma built_shape : Topology.NetworkShape t = shape.
Proof.
  destruct Hbuilt as (_ & _ & _ & _ & _ & ->). by rewrite foldl_addNode_shape.
Qed.

Lemma built_dcs : Topology.dcs t = ds.
Proof.
  destruct Hbuilt as (_ & _ & _ & _ & _ & ->). by rewrite foldl_addNode_dcs.
Qed.

Lemma built_descriptors : Forall descriptor_ok ds.
Proof. by destruct Hbuilt as (_ & _ & _ & ? & _). Qed.

Lemma built_dc_names_NoDup : NoDup (Datacenter.Name <$> ds).
Proof. destruct Hbuilt as (_ & _ & _ & _ & ? & _). by apply sorted_names_NoDup. Qed.

Lemma built_servers :
  Topology.servers t
  = ds ≫= λ d, serverNames (Datacenter.Name d) (Datacenter.Servers d).
Proof.
  destruct Hbuilt as (_ & _ & _ & _ & _ & ->).
  by destruct (foldl_addNode_nodesOf
                 (userConfigTopology.NodeConfig (userConfig.Topology uc))
                 shape ds (Topology.mk [] [] ∅ ds shape)) as [-> _].
Qed.

Lemma built_clients :
  Topology.clients t
  = ds ≫= λ d, clientNames (Datacenter.Name d) (Datacenter.Clients d).
Proof.
  destruct Hbuilt as (_ & _ & _ & _ & _ & ->).
  by destruct (foldl_addNode_nodesOf
                 (userConfigTopology.NodeConfig (userConfig.Topology uc))
                 shape ds (Topology.mk [] [] ∅ ds shape)) as [_ ->].
Qed.

Lemma built_names_NoDup : NoDup (Node.Name <$> nodes).
Proof.
  apply NoDup_node_names; [apply built_descriptors|apply built_dc_names_NoDup].
Qed.

Lemma built_nm name n :
  Topology.nm t !! name = Some n ↔ n ∈ nodes ∧ Node.Name n = name.
Proof.
  destruct Hbuilt as (_ & _ & _ & _ & _ & E). rewrite E.
  rewrite foldl_addNode_nm. simpl.
  apply foldl_insert_lookup, built_names_NoDup.
Qed.

Lemma built_size : size (Topology.nm t) = length nodes.
Proof.
  destruct Hbuilt as (_ & _ & _ & _ & _ & E). rewrite E.
  rewrite foldl_addNode_nm. simpl.
  apply foldl_insert_size, built_names_NoDup.
Qed.

Lemma built_Node n : n ∈ nodes → Node t (Node.Name n) = Ok n.
Proof.
  intros Hn. unfold Node.
  by rewrite (proj2 (built_nm (Node.Name n) n) (conj Hn eq_refl)).
Qed.

Lemma built_entry dc v :
  (dc, v) ∈ userConfigTopology.Datacenters (userConfig.Topology uc) →
  ∃ d, d ∈ ds ∧ Datacenter.Name d = dc
       ∧ Datacenter.Servers d = userConfigTopologyDatacenter.Servers v
       ∧ Datacenter.Clients d = userConfigTopologyDatacenter.Clients v.
Proof.
  destruct Hbuilt as (_ & _ & Hp & _). rewrite <-Hp.
  intros (d & E & Hd)%list_elem_of_fmap. exists d. split; [done|].
  unfold entryOf in E. by simplify_eq/=.
Qed.

Lemma built_server_in d k :
  d ∈ ds → 1 ≤ k ≤ Datacenter.Servers d →
  serverOf shape (Datacenter.Name d) (Datacenter.BaseIP d)
    (Datacenter.WANBaseIP d) k ∈ nodes.
Proof.
  intros Hd Hk. apply list_elem_of_bind. exists d. split; [|done].
  unfold nodesOf. apply elem_of_app. left.
  unfold serversOf. apply list_elem_of_fmap_2, elem_of_seqZ. lia.
Qed.

Lemma built_client_in d k :
  d ∈ ds → 1 ≤ k ≤ Datacenter.Clients d →
  clientOf cfgs shape (Datacenter.Name d) (Datacenter.BaseIP d)
    (Datacenter.WANBaseIP d) k ∈ nodes.
Proof.
  intros Hd Hk. apply list_elem_of_bind. exists d. split; [|done].
  unfold nodesOf. apply elem_of_app. right.
  unfold clientsOf. apply list_elem_of_fmap_2, elem_of_seqZ. lia.
Qed.

(** Every node is a server or a client of one of the datacenters. *)
Lemma built_node_inv n :
  n ∈ nodes →
  ∃ d k, d ∈ ds ∧ 1 ≤ k
    ∧ (k ≤ Datacenter.Servers d
       ∧ n = serverOf shape (Datacenter.Name d) (Datacenter.BaseIP d)
               (Datacenter.WANBaseIP d) k
       ∨ k ≤ Datacenter.Clients d
       ∧ n = clientOf cfgs shape (Datacenter.Name d) (Datacenter.BaseIP d)
               (Datacenter.WANBaseIP d) k).
Proof.
  intros (d & Hn & Hd)%list_elem_of_bind. exists d.
  unfold nodesOf in Hn. apply elem_of_app in Hn as [Hn|Hn].
  - unfold serversOf in Hn.
    apply list_elem_of_fmap in Hn as (k & -> & Hk%elem_of_seqZ).
    exists k. split; [done|]. split; [lia|]. left. split; [lia|done].
  - unfold clientsOf in Hn.
    apply list_elem_of_fmap in Hn as (k & -> & Hk%elem_of_seqZ).
    exists k. split; [done|]. split; [lia|]. right. split; [lia|done].
Qed.
End built.

(** ** Addresses *)

Lemma LocalAddress_localEntry n :
  LocalAddress n = match localEntry n with
                   | Some a => Ok (Address.IPAddress a)
                   | None => Panic "node has no local address"
                   end.
Proof.
  unfold LocalAddress, localEntry.
  induction (Node.Addresses n) as [|a l IH]; simpl; [done|].
  by destruct (_ || _).
Qed.

Lemma PublicAddress_publicEntry n :
  PublicAddress n = match publicEntry n with
                    | Some a => Ok (Address.IPAddress a)
                    | None => Panic "node has no public address"
                    end.
Proof.
  unfold PublicAddress, publicEntry.
  induction (Node.Addresses n) as [|a l IH]; simpl; [done|].
  by destruct (String.eqb _ _).
Qed.

Lemma localNetwork_local shape dc :
  valid_shape shape →
  String.eqb (localNetwork shape dc) dc || String.eqb (localNetwork shape dc) "lan"
  = true.
Proof.
  intros [-> | ->]; unfold localNetwork; simpl.
  - by rewrite String.eqb_refl.
  - by rewrite orb_true_r.
Qed.

Lemma GetNetworkName_localNetwork shape dc :
  valid_shape shape → GetNetworkName shape dc = Ok (localNetwork shape dc).
Proof. by intros [-> | ->]. Qed.

Lemma localEntry_serverOf shape dc b w k :
  valid_shape shape →
  localEntry (serverOf shape dc b w k)
  = Some (Address.mk (localNetwork shape dc) (b +:+ "." +:+ Itoa (10 + k))).
Proof.
  intros Hs. unfold localEntry, serverOf. simpl.
  by rewrite localNetwork_local.
Qed.

Lemma localEntry_clientOf cfgs shape dc b w k :
  valid_shape shape →
  localEntry (clientOf cfgs shape dc b w k)
  = Some (Address.mk (localNetwork shape dc) (b +:+ "." +:+ Itoa (20 + k))).
Proof.
  intros Hs. unfold localEntry, clientOf. simpl.
  by rewrite localNetwork_local.
Qed.

Lemma publicEntry_serverOf_dual m b w k :
  publicEntry (serverOf NetworkShapeDual ("dc" +:+ m) b w k)
  = Some (Address.mk "wan" (w +:+ "." +:+ Itoa (10 + k))).
Proof. done. Qed.

Lemma publicEntry_serverOf_flat dc b w k :
  publicEntry (serverOf NetworkShapeFlat dc b w k) = None.
Proof. done. Qed.

(** ** Walking a built topology *)

Lemma Walk_forEach {S} (t : Topology.t) (f : S → Node.t → res S) ns s :
  mapM (Node t) (all t) = Ok ns → Walk t f s = forEach f ns s.
Proof.
  unfold Walk. generalize (all t). intros l. revert ns s.
  induction l as [|name l IH]; intros ns s; simpl.
  - by intros [= <-].
  - destruct (Node t name) as [n| |]; simpl; try done.
    destruct (mapM (Node t) l) as [ns'| |] eqn:E; simpl; try done.
    intros [= <-]. simpl. destruct (f s n); simpl; try done.
    by apply IH.
Qed.

Lemma walked_mapM t : walked t = mapM (Node t) (all t).
Proof.
  unfold walked, WalkSilent.
  assert (H : ∀ l acc,
    forEach (λ s nodeName, node ← Node t nodeName; Ok (s ++ [node])) l acc
    = (ns ← mapM (Node t) l; Ok (acc ++ ns))).
  { induction l as [|x l IH]; intros acc; simpl.
    - by rewrite app_nil_r.
    - destruct (Node t x); simpl; try done. rewrite IH.
      destruct (mapM (Node t) l); simpl; try done. by rewrite <-app_assoc. }
  rewrite H. by destruct (mapM (Node t) (all t)).
Qed.

Lemma mapM_Node_names t (ns : list Node.t) :
  (∀ n, n ∈ ns → Node t (Node.Name n) = Ok n) →
  mapM (Node t) (Node.Name <$> ns) = Ok ns.
Proof.
  induction ns as [|n ns IH]; intros H; csimpl; [done|].
  rewrite H by left. csimpl. rewrite IH; [done|]. intros; apply H; by right.
Qed.

Section built_walk.
Context (uc : userConfig.t) (t : Topology.t) (shape : string)
        (ds : list Datacenter.t).
Hypothesis Hbuilt : built_from uc t shape ds.

Lemma walkOrder_nodes n :
  n ∈ walkOrder (userConfigTopology.NodeConfig (userConfig.Topology uc)) shape ds
  ↔ n ∈ ds ≫= nodesOf (userConfigTopology.NodeConfig (userConfig.Topology uc)) shape.
Proof.
  unfold walkOrder. rewrite elem_of_app, !list_elem_of_bind.
  unfold nodesOf. setoid_rewrite elem_of_app. split.
  - intros [(d & Hn & Hd)|(d & Hn & Hd)]; exists d; auto.
  - intros (d & [Hn|Hn] & Hd); [left|right]; exists d; auto.
Qed.

Lemma built_all :
  all t = Node.Name <$>
    walkOrder (userConfigTopology.NodeConfig (userConfig.Topology uc)) shape ds.
Proof.
  unfold all, walkOrder.
  rewrite (built_servers _ _ _ _ Hbuilt), (built_clients _ _ _ _ Hbuilt).
  rewrite fmap_app, !fmap_bind_list. f_equal.
  - apply list_bind_ext; [|done]. intros d. by rewrite names_serversOf.
  - apply list_bind_ext; [|done]. intros d. by rewrite names_clientsOf.
Qed.

Lemma built_mapM_Node :
  mapM (Node t) (all t)
  = Ok (walkOrder (userConfigTopology.NodeConfig (userConfig.Topology uc)) shape ds).
Proof.
  rewrite built_all. apply mapM_Node_names. intros n Hn.
  apply (built_Node _ _ _ _ Hbuilt). by apply walkOrder_nodes.
Qed.

Lemma built_walked :
  walked t
  = Ok (walkOrder (userConfigTopology.NodeConfig (userConfig.Topology uc)) shape ds).
Proof. rewrite walked_mapM. apply built_mapM_Node. Qed.

Lemma built_Walk {S} (f : S → Node.t → res S) s :
  Walk t f s
  = forEach f (walkOrder (userConfigTopology.NodeConfig (userConfig.Topology uc))
                 shape ds) s.
Proof. apply Walk_forEach, built_mapM_Node. Qed.
End built_walk.

(** ** The outcome of the builder *)

Lemma descriptor_violation e :
  match entryViolation e with
  | Some err => descriptor e = Err err
  | None => ∃ d, descriptor e = Ok d
  end.
Proof.
  destruct e as [dc v]. unfold entryViolation, descriptor, rangeDatacenter, nameOk.
  destruct (_ <=? 0); [done|]. destruct (_ <=? 0); [done|].
  destruct (dcPatt_FindStringSubmatch dc) as [m|]; [|done].
  destruct (Atoi m); [|done]. simpl. eauto.
Qed.

Lemma mapM_descriptor_violation es :
  match head (omap entryViolation es) with
  | Some err => mapM descriptor es = Err err
  | None => ∃ ds, mapM descriptor es = Ok ds
  end.
Proof.
  induction es as [|e es IH]; csimpl; [eauto|].
  pose proof (descriptor_violation e) as He.
  destruct (entryViolation e) as [err|]; csimpl.
  - by rewrite He.
  - destruct He as [d ->]. csimpl.
    destruct (head (omap entryViolation es)) as [err|].
    + by rewrite IH.
    + destruct IH as [ds ->]. simpl. eauto.
Qed.

(** [InferTopology] in terms of the descriptors and the expected nodes. *)
Lemma InferTopology_unfold uc :
  let ut := userConfig.Topology uc in
  let s := userConfigTopology.NetworkShape ut in
  InferTopology uc
  = if negb (shapeSupported s) then Err (ErrUnknownNetworkShape s)
    else
      let shape := if String.eqb s "dual" then NetworkShapeDual else NetworkShapeFlat in
      match assoc_lookup PrimaryDC (userConfigTopology.Datacenters ut) with
      | None => Err ErrPrimaryMissing
      | Some _ =>
          ds0 ← mapM descriptor (userConfigTopology.Datacenters ut);
          Ok (foldl addNode
                (Topology.mk [] [] ∅ (sort_Slice dcLess ds0) shape)
                (sort_Slice dcLess ds0
                   ≫= nodesOf (userConfigTopology.NodeConfig ut) shape))
      end.
Proof.
  intros ut s. unfold InferTopology, shapeSupported. fold ut. fold s.
  assert (Hgo : ∀ shape, valid_shape shape →
    match assoc_lookup PrimaryDC (userConfigTopology.Datacenters ut) with
    | Some _ =>
        dcs ← forEach rangeDatacenter (userConfigTopology.Datacenters ut) [];
        forEach
          (λ topology dc,
             forDC (userConfigTopology.NodeConfig ut) (Topology.NetworkShape topology)
               (Datacenter.Name dc) (Datacenter.BaseIP dc) (Datacenter.WANBaseIP dc)
               (Datacenter.Servers dc) (Datacenter.Clients dc) topology)
          (sort_Slice dcLess dcs)
          (Topology.mk [] [] ∅ (sort_Slice dcLess dcs) shape)
    | None => Err ErrPrimaryMissing
    end
    = match assoc_lookup PrimaryDC (userConfigTopology.Datacenters ut) with
      | None => Err ErrPrimaryMissing
      | Some _ =>
          ds0 ← mapM descriptor (userConfigTopology.Datacenters ut);
          Ok (foldl addNode
                (Topology.mk [] [] ∅ (sort_Slice dcLess ds0) shape)
                (sort_Slice dcLess ds0
                   ≫= nodesOf (userConfigTopology.NodeConfig ut) shape))
      end).
  { intros shape Hv. destruct (assoc_lookup _ _); [|done].
    rewrite forEach_rangeDatacenter.
    destruct (mapM descriptor _) as [ds0| |]; simpl; try done.
    rewrite forEach_forDC. simpl. by rewrite builtNodes_Ok. }
  destruct (String.eqb s "dual"); simpl; [apply Hgo; by left|].
  destruct (String.eqb s "flat"); simpl; [apply Hgo; by right|].
  destruct (String.eqb s ""); simpl; [apply Hgo; by right|done].
Qed.

(** C10: an empty network-shape selector is accepted and gives exactly the
    outcome of the selector "flat": the same topology, or the same error
    when the rest of the configuration is rejected; the unknown-shape error
    is never the outcome. *)
Theorem C10_empty_shape_is_flat
    (es : list (string * userConfigTopologyDatacenter.t))
    (cfgs : option (gmap string userConfigTopologyNodeConfig.t)) :
  InferTopology (uc_of "" es cfgs) = InferTopology (uc_of "flat" es cfgs)
  ∧ (∀ s, InferTopology (uc_of "" es cfgs) ≠ Err (ErrUnknownNetworkShape s))
  ∧ (firstViolation (uc_of "flat" es cfgs) = None →
     ∃ t, InferTopology (uc_of "" es cfgs) = Ok t
          ∧ Topology.NetworkShape t = NetworkShapeFlat).
Proof.
  split; [by rewrite !InferTopology_unfold|]. split.
  - intros s. rewrite InferTopology_unfold. simpl.
    destruct (assoc_lookup PrimaryDC es); [|done].
    pose proof (mapM_descriptor_violation es) as H.
    destruct (head (omap entryViolation es)) as [err|] eqn:E.
    + rewrite H. simpl. intros [= ->].
      assert (Hin : ErrUnknownNetworkShape s ∈ omap entryViolation es).
      { apply head_Some in E as [l' ->]. left. }
      apply list_elem_of_omap in Hin as ([dc v] & _ & Hv).
      unfold entryViolation in Hv. by repeat case_match.
    + by destruct H as [ds ->].
  - unfold firstViolation. rewrite InferTopology_unfold. simpl.
    destruct (assoc_lookup PrimaryDC es); [|done]. intros E.
    pose proof (mapM_descriptor_violation es) as H. rewrite E in H.
    destruct H as [ds ->]. simpl. eexists. split; [done|].
    by rewrite foldl_addNode_shape.
Qed.

(** C2, as the code has it: the network shape is checked first, then the
    presence of the primary datacenter, then the datacenters one by one in
    the order the map is visited, each for its server count, its client
    count and its name (dc followed by decimal digits whose value fits an
    int); the first violation in this order is the error returned, and a
    configuration without violation is built. *)
Theorem C2_validation_order (uc : userConfig.t) :
  match firstViolation uc with
  | Some e => InferTopology uc = Err e
  | None => ∃ t, InferTopology uc = Ok t
  end.
Proof.
  unfold firstViolation. rewrite InferTopology_unfold. simpl.
  destruct (negb (shapeSupported _)); [done|].
  destruct (assoc_lookup PrimaryDC _); [|done].
  pose proof (mapM_descriptor_violation
                (userConfigTopology.Datacenters (userConfig.Topology uc))) as H.
  destruct (head (omap entryViolation _)) as [err|].
  - by rewrite H.
  - destruct H as [ds ->]. simpl. eauto.
Qed.

(** C2, as stated, fails: with an unsupported shape and no primary
    datacenter the error is the shape's, not the primary's; with a bad name
    and no server the error is the count's, not the name's; and the name
    dc0 is accepted. *)
Lemma C2_counterexample :
  (specViolation (uc_of "bogus" [] None) = Some ErrPrimaryMissing
   ∧ InferTopology (uc_of "bogus" [] None) = Err (ErrUnknownNetworkShape "bogus"))
  ∧ (specViolation (uc_of "flat" [("dc1", dcv 1 1); ("x", dcv 0 1)] None)
       = Some (ErrInvalidDatacenterName "x")
     ∧ InferTopology (uc_of "flat" [("dc1", dcv 1 1); ("x", dcv 0 1)] None)
       = Err (ErrNoServer "x"))
  ∧ (specViolation (uc_of "flat" [("dc1", dcv 1 1); ("dc0", dcv 1 1)] None)
       = Some (ErrInvalidDatacenterName "dc0")
     ∧ ∃ t, InferTopology (uc_of "flat" [("dc1", dcv 1 1); ("dc0", dcv 1 1)] None)
            = Ok t).
Proof.
  split; [by vm_compute|]. split; [by vm_compute|].
  split; [by vm_compute|]. eexists. vm_compute. reflexivity.
Qed.

Lemma C10_witness :
  ∃ t, InferTopology (uc_of "" [("dc1", dcv 1 1)] None) = Ok t
       ∧ Topology.NetworkShape t = NetworkShapeFlat.
Proof.
  exact (proj2 (proj2 (C10_empty_shape_is_flat [("dc1", dcv 1 1)] None)) eq_refl).
Defined.

(** ** Local addresses *)

Lemma built_localEntry uc t shape ds n :
  built_from uc t shape ds →
  n ∈ ds ≫= nodesOf (userConfigTopology.NodeConfig (userConfig.Topology uc)) shape →
  ∃ a, localEntry n = Some a
       ∧ Address.Network a = localNetwork shape (Node.Datacenter n).
Proof.
  intros Hb Hn. pose proof (built_valid_shape _ _ _ _ Hb) as Hv.
  apply built_node_inv in Hn as (d & k & _ & _ & [[_ ->]|[_ ->]]).
  - rewrite localEntry_serverOf by done. eauto.
  - rewrite localEntry_clientOf by done. eauto.
Qed.

(** C9: for every node of a topology the builder returned, the
    local-address lookup returns an address (it does not abort), and that
    address is the node's first address on the network [GetNetworkName]
    gives for the node's datacenter: the datacenter's own network under the
    dual shape, "lan" under the flat shape. *)
Theorem C9_local_address (uc : userConfig.t) (t : Topology.t)
    (name : string) (n : Node.t) :
  wf_userConfig uc →
  InferTopology uc = Ok t →
  Topology.nm t !! name = Some n →
  ∃ a,
    localEntry n = Some a
    ∧ LocalAddress n = Ok (Address.IPAddress a)
    ∧ GetNetworkName (Topology.NetworkShape t) (Node.Datacenter n)
      = Ok (Address.Network a)
    ∧ (Topology.NetworkShape t = NetworkShapeDual
       ∧ Address.Network a = Node.Datacenter n
       ∨ Topology.NetworkShape t = NetworkShapeFlat
         ∧ Address.Network a = "lan").
Proof.
  intros Hwf Hok Hn.
  destruct (InferTopology_built _ _ Hwf Hok) as (shape & ds & Hb).
  pose proof (proj1 (built_nm _ _ _ _ Hb name n) Hn) as [Hin _].
  destruct (built_localEntry _ _ _ _ _ Hb Hin) as (a & Ha & Hnet).
  pose proof (built_valid_shape _ _ _ _ Hb) as Hv.
  exists a. rewrite (built_shape _ _ _ _ Hb).
  split; [done|]. split; [by rewrite LocalAddress_localEntry, Ha|].
  split; [by rewrite GetNetworkName_localNetwork, Hnet|].
  rewrite Hnet. destruct Hv as [-> | ->]; [by left|by right].
Qed.

Lemma example_spec_wf : wf_userConfig example_spec.
Proof. unfold wf_userConfig. apply (bool_decide_unpack _). by vm_compute. Qed.

Lemma C9_witness :
  ∃ t n, InferTopology example_spec = Ok t
    ∧ Topology.nm t !! "dc2-client1" = Some n
    ∧ ∃ a, localEntry n = Some a
       ∧ LocalAddress n = Ok (Address.IPAddress a)
       ∧ GetNetworkName (Topology.NetworkShape t) (Node.Datacenter n)
         = Ok (Address.Network a)
       ∧ (Topology.NetworkShape t = NetworkShapeDual
          ∧ Address.Network a = Node.Datacenter n
          ∨ Topology.NetworkShape t = NetworkShapeFlat
            ∧ Address.Network a = "lan").
Proof.
  eexists _, _. split; [vm_compute; reflexivity|]. split; [vm_compute; reflexivity|].
  eapply (C9_local_address example_spec _ "dc2-client1").
  - exact example_spec_wf.
  - vm_compute; reflexivity.
  - vm_compute; reflexivity.
Defined.

(** ** Node count and node names *)

Lemma totalNodes_perm es es' : es ≡ₚ es' → totalNodes es = totalNodes es'.
Proof.
  unfold totalNodes.
  induction 1 as [|e es es' _ IH|e e' es|es es' es'' _ IH1 _ IH2]; simpl.
  - done.
  - by rewrite IH.
  - lia.
  - by rewrite IH1.
Qed.

Lemma length_nodesOf cfgs shape (ds : list Datacenter.t) :
  Forall descriptor_ok ds →
  Z.of_nat (length (ds ≫= nodesOf cfgs shape)) = totalNodes (entryOf <$> ds).
Proof.
  induction 1 as [|d ds (HS & HC & _) _ IH]; [done|].
  rewrite bind_cons, length_app, Nat2Z.inj_add, IH.
  unfold nodesOf, serversOf, clientsOf.
  rewrite length_app, !length_fmap, !length_seqZ.
  unfold totalNodes. csimpl. lia.
Qed.

Lemma built_server_name_lookup uc t shape ds d k :
  built_from uc t shape ds → d ∈ ds → 1 ≤ k ≤ Datacenter.Servers d →
  Topology.nm t !! serverName (Datacenter.Name d) k
  = Some (serverOf shape (Datacenter.Name d) (Datacenter.BaseIP d)
            (Datacenter.WANBaseIP d) k).
Proof.
  intros Hb Hd Hk. apply (built_nm _ _ _ _ Hb). split; [|done].
  by apply built_server_in.
Qed.

Lemma built_client_name_lookup uc t shape ds d k :
  built_from uc t shape ds → d ∈ ds → 1 ≤ k ≤ Datacenter.Clients d →
  Topology.nm t !! clientName (Datacenter.Name d) k
  = Some (clientOf (userConfigTopology.NodeConfig (userConfig.Topology uc))
            shape (Datacenter.Name d) (Datacenter.BaseIP d)
            (Datacenter.WANBaseIP d) k).
Proof.
  intros Hb Hd Hk. apply (built_nm _ _ _ _ Hb). split; [|done].
  by apply built_client_in.
Qed.

(** The nodes of a datacenter, by role. *)
Lemma built_dc_nodes uc t shape ds d name (server : bool) :
  built_from uc t shape ds → d ∈ ds →
  (∃ n, Topology.nm t !! name = Some n
        ∧ Node.Datacenter n = Datacenter.Name d ∧ Node.Server n = server)
  ↔ name ∈ if server
           then serverNames (Datacenter.Name d) (Datacenter.Servers d)
           else clientNames (Datacenter.Name d) (Datacenter.Clients d).
Proof.
  intros Hb Hd. split.
  - intros (n & Hn & Hdc & Hrole).
    apply (built_nm _ _ _ _ Hb) in Hn as [Hn <-].
    apply built_node_inv in Hn as (d' & k & Hd' & Hk1 & [[Hk ->]|[Hk ->]]);
      simpl in *; subst server;
      assert (d' = d) as -> by
        (eapply NoDup_names_eq; eauto using built_dc_names_NoDup).
    + apply elem_of_serverNames. exists k. split; [lia|done].
    + apply elem_of_clientNames. exists k. split; [lia|done].
  - destruct server.
    + intros (k & Hk & ->)%elem_of_serverNames.
      eexists. split; [by eapply built_server_name_lookup|done].
    + intros (k & Hk & ->)%elem_of_clientNames.
      eexists. split; [by eapply built_client_name_lookup|done].
Qed.

(** C3: the topology built from a specification has as many nodes as the
    specification's server and client counts add up to, both in the
    iteration order and in the node table; no name occurs twice; and the
    nodes of each datacenter are exactly its servers named
    <dc>-server1..N and its clients named <dc>-client1..M. *)
Theorem C3_node_count_and_names (uc : userConfig.t) (t : Topology.t) :
  wf_userConfig uc →
  InferTopology uc = Ok t →
  let es := userConfigTopology.Datacenters (userConfig.Topology uc) in
  Z.of_nat (length (all t)) = totalNodes es
  ∧ Z.of_nat (size (Topology.nm t)) = totalNodes es
  ∧ NoDup (all t)
  ∧ (∀ name, name ∈ all t ↔ is_Some (Topology.nm t !! name))
  ∧ ∀ dc v, (dc, v) ∈ es →
      (∀ name, (∃ n, Topology.nm t !! name = Some n
                     ∧ Node.Datacenter n = dc ∧ Node.Server n = true)
               ↔ name ∈ serverNames dc (userConfigTopologyDatacenter.Servers v))
      ∧ (∀ name, (∃ n, Topology.nm t !! name = Some n
                       ∧ Node.Datacenter n = dc ∧ Node.Server n = false)
                 ↔ name ∈ clientNames dc (userConfigTopologyDatacenter.Clients v)).
Proof.
  intros Hwf Hok es. subst es.
  set (es := userConfigTopology.Datacenters (userConfig.Topology uc)).
  destruct (InferTopology_built _ _ Hwf Hok) as (shape & ds & Hb).
  pose proof Hb as (_ & _ & Hp & Hdok & _ & _). fold es in Hp.
  pose proof (built_all _ _ _ _ Hb) as Hall.
  assert (Hlen : Z.of_nat (length (all t)) = totalNodes es).
  { rewrite Hall, length_fmap. unfold walkOrder.
    rewrite <-(totalNodes_perm _ _ Hp), <-(length_nodesOf
      (userConfigTopology.NodeConfig (userConfig.Topology uc)) shape ds Hdok).
    f_equal. clear. induction ds as [|d ds IH]; [done|].
    rewrite !bind_cons, !length_app in *. unfold nodesOf at 1.
    rewrite length_app. lia. }
  assert (Hperm : walkOrder (userConfigTopology.NodeConfig (userConfig.Topology uc))
                    shape ds
                  ≡ₚ ds ≫= nodesOf (userConfigTopology.NodeConfig
                                      (userConfig.Topology uc)) shape).
  { unfold walkOrder. clear. induction ds as [|d ds IH]; [done|].
    rewrite !bind_cons. unfold nodesOf at 1. rewrite <-IH.
    rewrite <-!app_assoc. apply Permutation_app_head.
    rewrite !app_assoc. apply Permutation_app_tail, Permutation_app_comm. }
  split; [done|]. split.
  { rewrite (built_size _ _ _ _ Hb), <-Hperm, <-Hlen, Hall. by rewrite length_fmap. }
  split.
  { rewrite Hall, Hperm. apply (built_names_NoDup _ _ _ _ Hb). }
  split.
  { intros name. rewrite Hall. split.
    - intros (n & -> & Hn)%list_elem_of_fmap. exists n.
      apply (built_nm _ _ _ _ Hb). split; [|done]. by rewrite <-Hperm.
    - intros [n Hn]. apply (built_nm _ _ _ _ Hb) in Hn as [Hn <-].
      apply list_elem_of_fmap_2. by rewrite Hperm. }
  intros dc v Hin.
  destruct (built_entry _ _ _ _ Hb dc v Hin) as (d & Hd & <- & <- & <-).
  split; intros name.
  - apply (built_dc_nodes _ _ _ _ d name true Hb Hd).
  - apply (built_dc_nodes _ _ _ _ d name false Hb Hd).
Qed.

Lemma C3_witness :
  ∃ t, InferTopology example_spec = Ok t
    ∧ Z.of_nat (length (all t)) = 6
    ∧ Z.of_nat (size (Topology.nm t)) = 6
    ∧ NoDup (all t)
    ∧ ∀ name, (∃ n, Topology.nm t !! name = Some n
                    ∧ Node.Datacenter n = "dc2" ∧ Node.Server n = false)
              ↔ name ∈ ["dc2-client1"; "dc2-client2"].
Proof.
  eexists. split; [vm_compute; reflexivity|].
  pose proof (C3_node_count_and_names example_spec _ example_spec_wf eq_refl)
    as (H1 & H2 & H3 & _ & H5).
  split; [exact H1|]. split; [exact H2|]. split; [exact H3|].
  apply (H5 "dc2" (dcv 1 2)). left.
Defined.

(** ** Iteration order *)

Lemma mapM_perm {A B} (f : A → res B) (l l' : list A) (ys : list B) :
  l ≡ₚ l' → mapM f l = Ok ys → ∃ ys', mapM f l' = Ok ys' ∧ ys ≡ₚ ys'.
Proof.
  intros Hp. revert ys.
  induction Hp as [|x l l' _ IH|x y l|l l' l'' _ IH1 _ IH2]; intros ys; simpl.
  - intros [= <-]. eauto.
  - destruct (f x) as [b| |]; simpl; try done.
    destruct (mapM f l) as [bs| |]; simpl; try done. intros [= <-].
    destruct (IH bs eq_refl) as (bs' & -> & Hbs). simpl. eauto.
  - destruct (f y) as [b| |]; simpl; try done.
    destruct (f x) as [b'| |]; simpl; try done.
    destruct (mapM f l) as [bs| |]; simpl; try done. intros [= <-].
    eexists. split; [done|]. apply perm_swap.
  - intros H. destruct (IH1 _ H) as (ys' & H' & Hp1).
    destruct (IH2 _ H') as (ys'' & H'' & Hp2).
    exists ys''. split; [done|]. by etrans.
Qed.

Lemma assoc_lookup_is_Some {V} key (m : list (string * V)) :
  is_Some (assoc_lookup key m) ↔ key ∈ fst <$> m.
Proof.
  induction m as [|[k v] m IH]; simpl.
  - split; [by intros [? ?]|by intros ?%elem_of_nil].
  - destruct (String.eqb_spec k key) as [->|Hne].
    + split; [intros _; by left|by eauto].
    + rewrite IH. csimpl. split; [by right|].
      intros H. by inv H.
Qed.

(** The topology does not depend on the order in which the map of
    datacenters is visited. *)
Lemma InferTopology_perm s es es' cfgs t :
  NoDup (fst <$> es) → es ≡ₚ es' →
  InferTopology (uc_of s es cfgs) = Ok t →
  InferTopology (uc_of s es' cfgs) = Ok t.
Proof.
  intros Hnd Hp. rewrite !InferTopology_unfold. simpl.
  destruct (negb (shapeSupported s)); [done|].
  destruct (assoc_lookup PrimaryDC es) as [p|] eqn:E; [|done].
  assert (is_Some (assoc_lookup PrimaryDC es')) as [p' ->].
  { apply assoc_lookup_is_Some. rewrite <-Hp.
    apply assoc_lookup_is_Some. by rewrite E. }
  destruct (mapM descriptor es) as [ds0| |] eqn:Ed; simpl; try done.
  destruct (mapM_perm _ _ _ _ Hp Ed) as (ds0' & -> & Hds). simpl.
  assert (Hs : sort_Slice dcLess ds0 = sort_Slice dcLess ds0').
  { apply (sort_Slice_unique Datacenter.Name); [done| |done].
    apply descriptors_entries in Ed as [-> _]. by rewrite <-entryOf_Name. }
  by rewrite Hs.
Qed.

Lemma WalkSilent_foldl {S} (t : Topology.t) (f : S → Node.t → S) ns s :
  mapM (Node t) (all t) = Ok ns → WalkSilent t f s = Ok (foldl f s ns).
Proof.
  intros H. unfold WalkSilent.
  change (forEach (λ s0 nodeName, node ← Node t nodeName; Ok (f s0 node)) (all t) s)
    with (Walk t (λ s0 node, Ok (f s0 node)) s).
  rewrite (Walk_forEach _ _ _ _ H). clear H. revert s.
  induction ns as [|n l IH]; intros s; simpl; [done|]. apply IH.
Qed.

(** C4: the iteration order of a built topology lists the servers of all
    datacenters, datacenters by name and servers by index, then the
    clients likewise; [Walk] and [WalkSilent] visit the nodes of these
    names in this order; and the topology, hence the order, is the same
    for every order in which the input's map of datacenters is visited. *)
Theorem C4_iteration_order (uc : userConfig.t) (t : Topology.t) :
  wf_userConfig uc →
  InferTopology uc = Ok t →
  let ut := userConfig.Topology uc in
  let ds := Topology.dcs t in
  entryOf <$> ds ≡ₚ userConfigTopology.Datacenters ut
  ∧ StronglySorted (λ a b, strlt (Datacenter.Name a) (Datacenter.Name b)) ds
  ∧ all t
    = (ds ≫= λ d, serverNames (Datacenter.Name d) (Datacenter.Servers d))
      ++ (ds ≫= λ d, clientNames (Datacenter.Name d) (Datacenter.Clients d))
  ∧ (∃ ns, Node.Name <$> ns = all t
           ∧ walked t = Ok ns
           ∧ (∀ S (f : S → Node.t → res S) s, Walk t f s = forEach f ns s)
           ∧ (∀ S (f : S → Node.t → S) s,
                WalkSilent t f s = Ok (foldl f s ns)))
  ∧ ∀ es', es' ≡ₚ userConfigTopology.Datacenters ut →
      InferTopology (uc_of (userConfigTopology.NetworkShape ut) es'
                       (userConfigTopology.NodeConfig ut)) = Ok t.
Proof.
  intros Hwf Hok ut ds. subst ds.
  destruct (InferTopology_built _ _ Hwf Hok) as (shape & ds & Hb).
  rewrite (built_dcs _ _ _ _ Hb).
  pose proof Hb as (_ & _ & Hp & _ & Hsorted & _).
  split; [done|]. split; [done|]. split.
  { unfold all. by rewrite (built_servers _ _ _ _ Hb), (built_clients _ _ _ _ Hb). }
  split.
  { exists (walkOrder (userConfigTopology.NodeConfig ut) shape ds).
    split; [by rewrite (built_all _ _ _ _ Hb)|].
    split; [apply (built_walked _ _ _ _ Hb)|]. split.
    - intros S f s. apply (built_Walk _ _ _ _ Hb).
    - intros S f s. apply WalkSilent_foldl, (built_mapM_Node _ _ _ _ Hb). }
  intros es' Hes. destruct uc as [[s es cfgs]]. simpl in *.
  apply (InferTopology_perm s es es' cfgs t); [exact Hwf|by symmetry|exact Hok].
Qed.

Lemma C4_witness :
  ∃ t, InferTopology example_spec = Ok t
    ∧ all t = ["dc1-server1"; "dc2-server1"; "dc1-client1"; "dc1-client2";
               "dc2-client1"; "dc2-client2"]
    ∧ InferTopology (uc_of "flat" [("dc1", dcv 1 2); ("dc2", dcv 1 2)] None) = Ok t.
Proof.
  eexists. split; [vm_compute; reflexivity|].
  pose proof (C4_iteration_order example_spec _ example_spec_wf eq_refl)
    as (_ & _ & H3 & _ & H5).
  split; [etrans; [exact H3|vm_compute; reflexivity]|].
  exact (H5 [("dc1", dcv 1 2); ("dc2", dcv 1 2)] (perm_swap _ _ _)).
Defined.

(** ** Deterministic addressing *)

Lemma string_app_assoc (a b c : string) : (a +:+ b) +:+ c = a +:+ b +:+ c.
Proof.
  induction a as [|x a IH]; [done|].
  change ((String x a +:+ b) +:+ c) with (String x ((a +:+ b) +:+ c)).
  by rewrite IH.
Qed.

Lemma built_descriptor_of_name uc t shape ds d m N :
  built_from uc t shape ds → d ∈ ds →
  Datacenter.Name d = "dc" +:+ m → Atoi m = Some N →
  Datacenter.BaseIP d = "10.0." +:+ Itoa N
  ∧ Datacenter.WANBaseIP d = "10.1." +:+ Itoa N.
Proof.
  intros Hb Hd Hm HN.
  pose proof (built_descriptors _ _ _ _ Hb) as Hok.
  rewrite Forall_forall in Hok.
  destruct (Hok d Hd) as (_ & _ & m' & Hm' & _ & _ & Hi & -> & ->).
  rewrite Hm in Hm'.
  assert (m = m') as <- by (by injection Hm').
  rewrite HN in Hi. by injection Hi as <-.
Qed.

(** C1: for the specification {dc1:{servers:1,clients:2},
    dc2:{servers:1,clients:2}} under the flat shape, whichever of the two
    datacenters the map yields first, the local addresses are exactly the
    six listed; and in every built topology the server with 1-based index
    k of the datacenter named dc<N> has local address 10.0.N.(10+k), the
    client with index k has 10.0.N.(20+k). *)
Theorem C1_deterministic_addressing :
  (∀ es, es = [("dc1", dcv 1 2); ("dc2", dcv 1 2)]
         ∨ es = [("dc2", dcv 1 2); ("dc1", dcv 1 2)] →
     (t ← InferTopology (uc_of "flat" es None); localIPs t)
     = Ok [("dc1-server1", "10.0.1.11"); ("dc2-server1", "10.0.2.11");
           ("dc1-client1", "10.0.1.21"); ("dc1-client2", "10.0.1.22");
           ("dc2-client1", "10.0.2.21"); ("dc2-client2", "10.0.2.22")])
  ∧ ∀ (uc : userConfig.t) (t : Topology.t) dc v m N k,
      wf_userConfig uc →
      InferTopology uc = Ok t →
      (dc, v) ∈ userConfigTopology.Datacenters (userConfig.Topology uc) →
      dc = "dc" +:+ m → Atoi m = Some N →
      1 ≤ k →
      (k ≤ userConfigTopologyDatacenter.Servers v →
       ∃ n, Node t (dc +:+ "-server" +:+ Itoa k) = Ok n
            ∧ Node.Server n = true
            ∧ LocalAddress n
              = Ok ("10.0." +:+ Itoa N +:+ "." +:+ Itoa (10 + k)))
      ∧ (k ≤ userConfigTopologyDatacenter.Clients v →
         ∃ n, Node t (dc +:+ "-client" +:+ Itoa k) = Ok n
              ∧ Node.Server n = false
              ∧ LocalAddress n
                = Ok ("10.0." +:+ Itoa N +:+ "." +:+ Itoa (20 + k))).
Proof.
  split.
  { intros es [-> | ->]; vm_compute; reflexivity. }
  intros uc t dc v m N k Hwf Hok Hin Hdc HN Hk1.
  destruct (InferTopology_built _ _ Hwf Hok) as (shape & ds & Hb).
  pose proof (built_valid_shape _ _ _ _ Hb) as Hv.
  destruct (built_entry _ _ _ _ Hb dc v Hin) as (d & Hd & Hname & HS & HC).
  rewrite Hdc in Hname.
  destruct (built_descriptor_of_name _ _ _ _ d m N Hb Hd Hname HN) as [Hbase _].
  rewrite <-!string_app_assoc with (a := "10.0."). rewrite <-Hbase.
  rewrite Hdc, <-Hname. split; intros Hk.
  - exists (serverOf shape (Datacenter.Name d) (Datacenter.BaseIP d)
              (Datacenter.WANBaseIP d) k).
    split; [|split].
    + apply (built_Node _ _ _ _ Hb (serverOf _ _ _ _ _)),
        (built_server_in uc shape ds d k Hd). lia.
    + done.
    + rewrite LocalAddress_localEntry, localEntry_serverOf by done. done.
  - exists (clientOf (userConfigTopology.NodeConfig (userConfig.Topology uc))
              shape (Datacenter.Name d) (Datacenter.BaseIP d)
              (Datacenter.WANBaseIP d) k).
    split; [|split].
    + apply (built_Node _ _ _ _ Hb (clientOf _ _ _ _ _ _)),
        (built_client_in uc shape ds d k Hd). lia.
    + done.
    + rewrite LocalAddress_localEntry, localEntry_clientOf by done. done.
Qed.

Lemma C1_witness :
  ∃ t n, InferTopology example_spec = Ok t
    ∧ Node t "dc2-client2" = Ok n
    ∧ LocalAddress n = Ok "10.0.2.22".
Proof.
  destruct (proj2 C1_deterministic_addressing example_spec _
              "dc2" (dcv 1 2) "2" 2 2 example_spec_wf eq_refl)
    as [_ (n & H1 & _ & H2)]; [left|reflexivity|reflexivity|lia|simpl; lia|].
  eexists _, n. split; [reflexivity|]. split; [exact H1|exact H2].
Defined.

(** ** Leaders *)

Lemma leader_loop_first t (address : Node.t → res string) dc pre name post n :
  (∀ x, x ∈ pre → ∃ n', Node t x = Ok n' ∧ Node.Datacenter n' ≠ dc) →
  Node t name = Ok n → Node.Datacenter n = dc →
  leader_loop t address dc (pre ++ name :: post) = address n.
Proof.
  intros Hpre Hn Hdc. induction pre as [|x pre IH]; simpl.
  - rewrite Hn. simpl. by rewrite Hdc, String.eqb_refl.
  - destruct (Hpre x) as (n' & -> & Hne); [by left|]. simpl.
    apply String.eqb_neq in Hne. rewrite Hne.
    apply IH. intros y Hy. apply Hpre. by right.
Qed.

Lemma serverName_1 dc : serverName dc 1 = dc +:+ "-server1".
Proof. done. Qed.

(** The first server of a datacenter comes before every other server of
    that datacenter in [t.servers]. *)
Lemma built_first_server uc t shape ds d :
  built_from uc t shape ds → d ∈ ds →
  ∃ pre post,
    Topology.servers t = pre ++ serverName (Datacenter.Name d) 1 :: post
    ∧ ∀ x, x ∈ pre →
        ∃ n', Node t x = Ok n' ∧ Node.Datacenter n' ≠ Datacenter.Name d.
Proof.
  intros Hb Hd.
  pose proof (built_dc_names_NoDup _ _ _ _ Hb) as Hnd.
  pose proof (built_descriptors _ _ _ _ Hb) as Hok.
  rewrite Forall_forall in Hok. destruct (Hok d Hd) as (HS & _).
  pose proof Hd as Hd'.
  apply list_elem_of_split in Hd' as (ds1 & ds2 & E).
  exists (ds1 ≫= λ d, serverNames (Datacenter.Name d) (Datacenter.Servers d)).
  eexists. split.
  - rewrite (built_servers _ _ _ _ Hb), E, bind_app, bind_cons.
    unfold serverNames at 2. rewrite seqZ_cons by lia.
    rewrite fmap_cons, <-app_comm_cons. reflexivity.
  - intros x (d' & Hx & Hd1)%list_elem_of_bind.
    apply elem_of_serverNames in Hx as (k & Hk & ->).
    assert (Hin' : d' ∈ ds) by (rewrite E; apply elem_of_app; by left).
    exists (serverOf shape (Datacenter.Name d') (Datacenter.BaseIP d')
              (Datacenter.WANBaseIP d') k).
    split.
    + apply (built_Node _ _ _ _ Hb (serverOf _ _ _ _ _)),
        (built_server_in uc shape ds d' k Hin'). done.
    + simpl. intros Heq.
      rewrite E, fmap_app, fmap_cons in Hnd.
      apply NoDup_app in Hnd as (_ & Hdis & _).
      apply (Hdis (Datacenter.Name d')); [by apply list_elem_of_fmap_2|].
      rewrite Heq. left.
Qed.

(** C5, as the code has it: for every datacenter of a built topology the
    local leader address is the local address of the node <dc>-server1, a
    server of that datacenter and the first of its servers in construction
    order; under the dual shape the public leader address is that node's
    address on "wan"; under the flat shape no node has a public address and
    [WANLeaderIP] aborts.  Both lookups are functions of the topology and
    the datacenter name, so repeated queries agree. *)
Theorem C5_leader (uc : userConfig.t) (t : Topology.t)
    (dc : string) (v : userConfigTopologyDatacenter.t) :
  wf_userConfig uc →
  InferTopology uc = Ok t →
  (dc, v) ∈ userConfigTopology.Datacenters (userConfig.Topology uc) →
  ∃ n ip pre post,
    Node t (dc +:+ "-server1") = Ok n
    ∧ Node.Server n = true
    ∧ Node.Datacenter n = dc
    ∧ Topology.servers t = pre ++ (dc +:+ "-server1") :: post
    ∧ (∀ x, x ∈ pre → ∃ n', Node t x = Ok n' ∧ Node.Datacenter n' ≠ dc)
    ∧ LocalAddress n = Ok ip
    ∧ LeaderIP t dc = Ok ip
    ∧ LeaderIP_new t dc false = Ok ip
    ∧ (Topology.NetworkShape t = NetworkShapeDual →
       ∃ wanip, PublicAddress n = Ok wanip
                ∧ WANLeaderIP t dc = Ok wanip
                ∧ LeaderIP_new t dc true = Ok wanip)
    ∧ (Topology.NetworkShape t = NetworkShapeFlat →
       WANLeaderIP t dc = Panic "node has no public address").
Proof.
  intros Hwf Hok Hin.
  destruct (InferTopology_built _ _ Hwf Hok) as (shape & ds & Hb).
  pose proof (built_valid_shape _ _ _ _ Hb) as Hv.
  destruct (built_entry _ _ _ _ Hb dc v Hin) as (d & Hd & <- & _ & _).
  pose proof (built_descriptors _ _ _ _ Hb) as Hdok.
  rewrite Forall_forall in Hdok.
  destruct (Hdok d Hd) as (HS & _ & m & Hm & _).
  destruct (built_first_server _ _ _ _ d Hb Hd) as (pre & post & Hsrv & Hpre).
  set (n := serverOf shape (Datacenter.Name d) (Datacenter.BaseIP d)
              (Datacenter.WANBaseIP d) 1).
  assert (Hn : Node t (serverName (Datacenter.Name d) 1) = Ok n).
  { apply (built_Node _ _ _ _ Hb n), (built_server_in uc shape ds d 1 Hd). lia. }
  assert (Hip : LocalAddress n
                = Ok (Datacenter.BaseIP d +:+ "." +:+ Itoa (10 + 1))).
  { unfold n. by rewrite LocalAddress_localEntry, localEntry_serverOf. }
  rewrite <-serverName_1.
  exists n, (Datacenter.BaseIP d +:+ "." +:+ Itoa (10 + 1)), pre, post.
  split; [done|]. split; [done|]. split; [done|]. split; [done|].
  split; [done|]. split; [done|].
  assert (Hl : LeaderIP t (Datacenter.Name d)
               = Ok (Datacenter.BaseIP d +:+ "." +:+ Itoa (10 + 1))).
  { unfold LeaderIP. rewrite Hsrv.
    by rewrite (leader_loop_first t LocalAddress _ pre _ post n Hpre Hn eq_refl). }
  split; [done|]. split; [done|].
  assert (Hw : WANLeaderIP t (Datacenter.Name d) = PublicAddress n).
  { unfold WANLeaderIP. rewrite Hsrv.
    by rewrite (leader_loop_first t PublicAddress _ pre _ post n Hpre Hn eq_refl). }
  rewrite (built_shape _ _ _ _ Hb). split; intros ->.
  - exists (Datacenter.WANBaseIP d +:+ "." +:+ Itoa (10 + 1)).
    assert (Hp : PublicAddress n
                 = Ok (Datacenter.WANBaseIP d +:+ "." +:+ Itoa (10 + 1))).
    { unfold n. rewrite PublicAddress_publicEntry, Hm.
      by rewrite publicEntry_serverOf_dual. }
    split; [done|]. simpl. by rewrite Hw.
  - rewrite Hw. unfold n.
    by rewrite PublicAddress_publicEntry, publicEntry_serverOf_flat.
Qed.

Lemma C5_witness :
  ∃ t ip, InferTopology example_spec = Ok t ∧ LeaderIP t "dc2" = Ok ip.
Proof.
  destruct (C5_leader example_spec _ "dc2" (dcv 1 2) example_spec_wf eq_refl)
    as (n & ip & _ & _ & _ & _ & _ & _ & _ & _ & H & _); [left|].
  eexists _, ip. split; [reflexivity|exact H].
Defined.

(** C5, as stated, fails: under the flat shape the public form of the
    leader address is not available, [WANLeaderIP] aborts. *)
Lemma C5_counterexample :
  ∃ t, InferTopology example_spec = Ok t
    ∧ ("dc1", dcv 1 2)
        ∈ userConfigTopology.Datacenters (userConfig.Topology example_spec)
    ∧ WANLeaderIP t "dc1" = Panic "node has no public address"
    ∧ ¬ ∃ ip, WANLeaderIP t "dc1" = Ok ip.
Proof.
  eexists. split; [vm_compute; reflexivity|].
  split; [right; left|]. split; [vm_compute; reflexivity|].
  intros [ip H]. vm_compute in H. discriminate.
Qed.

(** ** Client services *)

Lemma rem2_odd (k : Z) : 1 ≤ k → (k `rem` 2 =? 1) = Z.odd k.
Proof.
  intros Hk. rewrite Z.rem_mod_nonneg by lia. by rewrite Zodd_mod.
Qed.

(** C6: a client node of a built topology that is not a mesh gateway
    carries a service named ping when its 1-based index is odd and pong
    when it is even (the override record has no field for the service
    name, so the name is never overridden); the upstream name is the
    override's when that is set, the opposite service name otherwise; the
    upstream datacenter is the override's, empty when that is unset.  The
    override record is the entry of the table under the node's name, or the
    zero value. *)
Theorem C6_client_service (uc : userConfig.t) (t : Topology.t)
    (name : string) (n : Node.t) :
  wf_userConfig uc →
  InferTopology uc = Ok t →
  Topology.nm t !! name = Some n →
  Node.Server n = false →
  let c := nodeConfigFor (userConfigTopology.NodeConfig (userConfig.Topology uc)) name in
  let k := Node.Index n + 1 in
  1 ≤ k
  ∧ name = clientName (Node.Datacenter n) k
  ∧ Node.MeshGateway n = userConfigTopologyNodeConfig.MeshGateway c
  ∧ (Node.MeshGateway n = true → Node.Service n = None)
  ∧ (Node.MeshGateway n = false →
     ∃ svc, Node.Service n = Some svc
       ∧ Service.Name svc = (if Z.odd k then "ping" else "pong")
       ∧ Service.UpstreamName svc
         = (if String.eqb (userConfigTopologyNodeConfig.UpstreamName c) ""
            then (if Z.odd k then "pong" else "ping")
            else userConfigTopologyNodeConfig.UpstreamName c)
       ∧ Service.UpstreamDatacenter svc
         = userConfigTopologyNodeConfig.UpstreamDatacenter c).
Proof.
  intros Hwf Hok Hn Hsrv c k. subst c k.
  destruct (InferTopology_built _ _ Hwf Hok) as (shape & ds & Hb).
  pose proof (proj1 (built_nm _ _ _ _ Hb name n) Hn) as [Hin <-].
  apply built_node_inv in Hin as (d & k & _ & Hk1 & [[_ ->]|[_ ->]]);
    [done|].
  unfold clientOf. simpl.
  replace (k - 1 + 1) with k by lia. rewrite <-rem2_odd by done.
  split; [done|]. split; [done|]. split; [done|].
  destruct (userConfigTopologyNodeConfig.MeshGateway _); split; try done.
  intros _. eexists. split; [done|]. done.
Qed.

Lemma C6_witness :
  ∃ t n svc, InferTopology example_spec = Ok t
    ∧ Topology.nm t !! "dc1-client2" = Some n
    ∧ Node.Service n = Some svc
    ∧ Service.Name svc = "pong" ∧ Service.UpstreamName svc = "ping".
Proof.
  destruct (C6_client_service example_spec _ "dc1-client2" _
              example_spec_wf eq_refl eq_refl eq_refl)
    as (_ & _ & _ & _ & H).
  destruct (H eq_refl) as (svc & H1 & H2 & H3 & _).
  eexists _, _, svc. split; [reflexivity|]. split; [reflexivity|].
  split; [exact H1|]. split; [exact H2|exact H3].
Defined.

(** ** The metrics scrape configuration *)

Lemma add_existing jobs j prev :
  jobs !! job.Name j = Some prev →
  add jobs j
  = <[job.Name j :=
        job.mk (job.Name prev) (job.MetricsPath prev) (job.Params prev)
          (sort_Strings (job.Targets prev ++ job.Targets j))
          (job.Labels prev)]> jobs.
Proof. intros H. unfold add. by rewrite H. Qed.

Lemma add_jobs_ok jobs j : jobs_ok jobs → jobs_ok (add jobs j).
Proof.
  intros Hok. unfold add.
  destruct (jobs !! job.Name j) as [prev|] eqn:E.
  - destruct (Hok _ _ E) as (Hname & _ & Hlabels).
    apply map_Forall_insert_2; [|done].
    split; [done|]. split; [apply sort_Strings_sorted|done].
  - apply map_Forall_insert_2; [|done].
    split; [done|]. split; [apply sort_Strings_sorted|].
    by apply (sort_Slice_sorted kv.Key kvLess).
Qed.

Lemma prometheusNode_jobs_ok config jobs node jobs' :
  jobs_ok jobs → prometheusNode config jobs node = Ok jobs' → jobs_ok jobs'.
Proof.
  intros Hok. unfold prometheusNode.
  destruct (Node.Server node).
  - destruct (LocalAddress node); simpl; try done.
    intros [= <-]. by apply add_jobs_ok.
  - destruct (LocalAddress node); simpl; try done.
    destruct (Node.MeshGateway node); simpl.
    + intros [= <-]. by do 2 apply add_jobs_ok.
    + destruct (Node.Service node); simpl; intros [= <-].
      * by do 2 apply add_jobs_ok.
      * by apply add_jobs_ok.
Qed.

Lemma forEach_invariant {A S} (P : S → Prop) (body : S → A → res S) l s s' :
  (∀ s x s', P s → body s x = Ok s' → P s') →
  P s → forEach body l s = Ok s' → P s'.
Proof.
  intros Hbody. revert s. induction l as [|x l IH]; intros s Hs; simpl.
  - by intros [= <-].
  - destruct (body s x) as [s1| |] eqn:E; simpl; try done.
    apply IH. by eapply Hbody.
Qed.

Lemma forEach_Ok {A S} (body : S → A → res S) (l : list A) s :
  (∀ s x, x ∈ l → ∃ s', body s x = Ok s') → ∃ s', forEach body l s = Ok s'.
Proof.
  revert s. induction l as [|x l IH]; intros s H; simpl; [eauto|].
  destruct (H s x) as [s1 ->]; [left|]. simpl.
  apply IH. intros s2 y Hy. apply H. by right.
Qed.

Lemma prometheusNode_Ok config jobs node ip :
  LocalAddress node = Ok ip → ∃ jobs', prometheusNode config jobs node = Ok jobs'.
Proof.
  intros H. unfold prometheusNode. rewrite H. simpl.
  destruct (Node.Server node); [eauto|].
  destruct (Node.MeshGateway node); [eauto|].
  destruct (Node.Service node); eauto.
Qed.

(** The jobs of the output: sorted strictly by name, whatever the order in
    which the map is enumerated, with sorted targets and labels. *)
Lemma sorted_jobs (jobs : gmap string job.t) :
  jobs_ok jobs →
  let out := sort_Slice jobLess (snd <$> map_to_list jobs) in
  StronglySorted (λ a b, strlt (job.Name a) (job.Name b)) out
  ∧ Forall (λ j, StronglySorted String.le (job.Targets j)
                 ∧ StronglySorted (λ a b, String.le (kv.Key a) (kv.Key b))
                      (job.Labels j)) out
  ∧ (∀ l, l ≡ₚ snd <$> map_to_list jobs → sort_Slice jobLess l = out).
Proof.
  intros Hok out.
  assert (Hnames : job.Name <$> (snd <$> map_to_list jobs)
                   = fst <$> map_to_list jobs).
  { rewrite <-list_fmap_compose. apply Forall_fmap_ext, Forall_forall.
    intros [name j] Hin%elem_of_map_to_list. by destruct (Hok _ _ Hin). }
  assert (Hnd : NoDup (job.Name <$> (snd <$> map_to_list jobs))).
  { rewrite Hnames. apply NoDup_fst_map_to_list. }
  split; [by apply (sort_Slice_strict job.Name jobLess)|]. split.
  - unfold out. rewrite (sort_Slice_perm (A:=job.t)).
    apply Forall_fmap, Forall_forall.
    intros [name j] Hin%elem_of_map_to_list. simpl.
    by destruct (Hok _ _ Hin) as (_ & ? & ?).
  - intros l Hl. apply (sort_Slice_unique job.Name jobLess); [done| |done].
    by rewrite Hl.
Qed.

(** C7: a job added under a name the map already holds leaves the set of
    job names as it is and appends its targets to the targets of the
    existing job, which keeps its other fields; with two servers in dc1
    the output has one job consul-servers-dc1 with both targets in
    lexicographic order; and for every built topology the output lists the
    jobs in strictly increasing order of name (hence no name twice), each
    with its targets sorted and its labels sorted by key. *)
Theorem C7_prometheus_jobs :
  (∀ (jobs : gmap string job.t) (j prev : job.t),
     jobs !! job.Name j = Some prev →
     dom (add jobs j) = dom jobs
     ∧ size (add jobs j) = size jobs
     ∧ (∀ name, name ≠ job.Name j → add jobs j !! name = jobs !! name)
     ∧ ∃ j', add jobs j !! job.Name j = Some j'
         ∧ job.Targets j' ≡ₚ job.Targets prev ++ job.Targets j
         ∧ StronglySorted String.le (job.Targets j')
         ∧ job.Name j' = job.Name prev
         ∧ job.MetricsPath j' = job.MetricsPath prev
         ∧ job.Params j' = job.Params prev
         ∧ job.Labels j' = job.Labels prev)
  ∧ (∀ config,
       (t ← InferTopology example_two_servers;
        out ← generatePrometheusConfigFile config t;
        Ok (jobTargets out))
       = Ok [("consul-clients-dc1", ["10.0.1.21:8500"]);
             ("consul-servers-dc1", ["10.0.1.11:8500"; "10.0.1.12:8500"]);
             ("ping-proxy", ["10.0.1.21:9102"])])
  ∧ (∀ (uc : userConfig.t) (t : Topology.t) (config : FlatConfig.t),
       wf_userConfig uc →
       InferTopology uc = Ok t →
       ∃ out, generatePrometheusConfigFile config t = Ok out
         ∧ StronglySorted (λ a b, strlt (job.Name a) (job.Name b)) out
         ∧ Forall (λ j, StronglySorted String.le (job.Targets j)
                        ∧ StronglySorted
                            (λ a b, String.le (kv.Key a) (kv.Key b))
                            (job.Labels j)) out).
Proof.
  split; [|split].
  - intros jobs j prev Hprev. rewrite (add_existing _ _ _ Hprev).
    split; [by apply dom_insert_lookup_L|].
    split; [by apply map_size_insert_Some|].
    split; [intros name Hne; by rewrite lookup_insert_ne|].
    eexists. split; [apply lookup_insert_eq|]. simpl.
    split; [apply sort_Strings_perm|].
    split; [apply sort_Strings_sorted|done].
  - intros config. vm_compute. reflexivity.
  - intros uc t config Hwf Hok.
    destruct (InferTopology_built _ _ Hwf Hok) as (shape & ds & Hb).
    unfold generatePrometheusConfigFile.
    rewrite (built_Walk _ _ _ _ Hb).
    destruct (forEach_Ok (prometheusNode config)
                (walkOrder (userConfigTopology.NodeConfig (userConfig.Topology uc))
                   shape ds) ∅) as [jobs Hjobs].
    { intros jobs n Hn%(walkOrder_nodes uc shape ds).
      destruct (built_localEntry _ _ _ _ _ Hb Hn) as (a & Ha & _).
      apply (prometheusNode_Ok _ _ _ (Address.IPAddress a)).
      by rewrite LocalAddress_localEntry, Ha. }
    rewrite Hjobs. simpl. eexists. split; [done|].
    assert (Hok' : jobs_ok jobs).
    { eapply (forEach_invariant jobs_ok); [|apply map_Forall_empty|exact Hjobs].
      intros s x s' Hs. by apply prometheusNode_jobs_ok. }
    destruct (sorted_jobs jobs Hok') as (H1 & H2 & _). by split.
Qed.

Lemma example_two_servers_wf : wf_userConfig example_two_servers.
Proof. unfold wf_userConfig. apply (bool_decide_unpack _). by vm_compute. Qed.

Lemma C7_witness :
  (let jobs := add ∅ (job.mk "a" "/m" ∅ ["t2"] []) in
   size (add jobs (job.mk "a" "/m" ∅ ["t1"] [])) = size jobs)
  ∧ ∃ t out, InferTopology example_two_servers = Ok t
      ∧ generatePrometheusConfigFile
          (FlatConfig.mk "" false "" false true "" "" "") t = Ok out
      ∧ StronglySorted (λ a b, strlt (job.Name a) (job.Name b)) out.
Proof.
  destruct C7_prometheus_jobs as (H1 & _ & H3). split.
  - assert (Hprev : add ∅ (job.mk "a" "/m" ∅ ["t2"] [])
                      !! job.Name (job.mk "a" "/m" ∅ ["t1"] [])
                    = Some (job.mk "a" "/m" ∅ ["t2"] []))
      by (vm_compute; reflexivity).
    exact (proj1 (proj2 (H1 _ _ _ Hprev))).
  - destruct (H3 example_two_servers _ (FlatConfig.mk "" false "" false true "" "" "")
                example_two_servers_wf eq_refl) as (out & Ho & Hs & _).
    eexists _, out. split; [reflexivity|]. split; [exact Ho|exact Hs].
Defined.

(** ** The orchestration manifest *)

Lemma rank_acyclic (edges : list (string * string)) (r : string → nat) :
  (∀ a b, (a, b) ∈ edges → (r b < r a)%nat) → acyclic edges.
Proof.
  intros Hr a Ha.
  assert (H : ∀ x y, tc (dependsOn edges) x y → (r y < r x)%nat).
  { induction 1 as [x y Hxy|x y z Hxy _ IH]; [by apply Hr|].
    apply Hr in Hxy. lia. }
  apply H in Ha. lia.
Qed.

Lemma built_servers_nodes uc t shape ds x :
  built_from uc t shape ds → x ∈ Topology.servers t →
  ∃ n, Node t x = Ok n
       ∧ n ∈ ds ≫= nodesOf (userConfigTopology.NodeConfig (userConfig.Topology uc)) shape.
Proof.
  intros Hb Hx.
  assert (Hall : x ∈ all t) by (apply elem_of_app; by left).
  rewrite (built_all _ _ _ _ Hb) in Hall.
  apply list_elem_of_fmap in Hall as (n & -> & Hn%(walkOrder_nodes uc shape ds)).
  exists n. split; [|done]. by apply (built_Node _ _ _ _ Hb).
Qed.

Lemma built_LocalAddress uc t shape ds n :
  built_from uc t shape ds →
  n ∈ ds ≫= nodesOf (userConfigTopology.NodeConfig (userConfig.Topology uc)) shape →
  ∃ ip, LocalAddress n = Ok ip.
Proof.
  intros Hb Hn. destruct (built_localEntry _ _ _ _ _ Hb Hn) as (a & Ha & _).
  exists (Address.IPAddress a). by rewrite LocalAddress_localEntry, Ha.
Qed.

Lemma built_ServerIPs uc t shape ds dc :
  built_from uc t shape ds → ∃ ips, ServerIPs t dc = Ok ips.
Proof.
  intros Hb. unfold ServerIPs. apply forEach_Ok. intros out x Hx.
  destruct (built_servers_nodes _ _ _ _ _ Hb Hx) as (n & -> & Hn). simpl.
  destruct (String.eqb _ _); [|eauto].
  destruct (built_LocalAddress _ _ _ _ _ Hb Hn) as [ip ->]. simpl. eauto.
Qed.

(** Every datacenter has a leader; under the dual shape, a public one. *)
Lemma built_leader uc t shape ds d :
  built_from uc t shape ds → d ∈ ds →
  (∃ ip, LeaderIP t (Datacenter.Name d) = Ok ip)
  ∧ (shape = NetworkShapeDual → ∃ ip, WANLeaderIP t (Datacenter.Name d) = Ok ip).
Proof.
  intros Hb Hd.
  pose proof (built_valid_shape _ _ _ _ Hb) as Hv.
  pose proof (built_descriptors _ _ _ _ Hb) as Hdok.
  rewrite Forall_forall in Hdok.
  destruct (Hdok d Hd) as (HS & _ & m & Hm & _).
  destruct (built_first_server _ _ _ _ d Hb Hd) as (pre & post & Hsrv & Hpre).
  set (n := serverOf shape (Datacenter.Name d) (Datacenter.BaseIP d)
              (Datacenter.WANBaseIP d) 1).
  assert (Hn : Node t (serverName (Datacenter.Name d) 1) = Ok n).
  { apply (built_Node _ _ _ _ Hb n), (built_server_in uc shape ds d 1 Hd). lia. }
  split.
  - unfold LeaderIP. rewrite Hsrv.
    rewrite (leader_loop_first t LocalAddress _ pre _ post n Hpre Hn eq_refl).
    unfold n. rewrite LocalAddress_localEntry, localEntry_serverOf by done. eauto.
  - intros ->. unfold WANLeaderIP. rewrite Hsrv.
    rewrite (leader_loop_first t PublicAddress _ pre _ post n Hpre Hn eq_refl).
    unfold n. rewrite PublicAddress_publicEntry, Hm, publicEntry_serverOf_dual.
    eauto.
Qed.

Lemma built_generateAgentHCL config GatewayAddrs uc t shape ds n :
  built_from uc t shape ds →
  n ∈ ds ≫= nodesOf (userConfigTopology.NodeConfig (userConfig.Topology uc)) shape →
  ∃ info, generateAgentHCL config t GatewayAddrs n = Ok info.
Proof.
  intros Hb Hn. unfold generateAgentHCL.
  destruct (built_LocalAddress _ _ _ _ _ Hb Hn) as [ip ->]. simpl.
  destruct (built_ServerIPs _ _ _ _ (Node.Datacenter n) Hb) as [ips ->]. simpl.
  destruct (Node.Server n) eqn:Hsrv; [|eauto].
  rewrite (built_shape _ _ _ _ Hb).
  pose proof (built_descriptors _ _ _ _ Hb) as Hdok.
  rewrite Forall_forall in Hdok.
  assert (HL : ∃ l, forEach (λ ips0 dc, ip0 ← LeaderIP t (Datacenter.Name dc);
                                        Ok (ips0 ++ [ip0])) (Datacenters t) []
                    = Ok l).
  { apply forEach_Ok. intros l d Hd.
    unfold Datacenters in Hd. rewrite (built_dcs _ _ _ _ Hb) in Hd.
    destruct (built_leader _ _ _ _ d Hb Hd) as [[ip1 ->] _]. simpl. eauto. }
  assert (HW : shape = NetworkShapeDual →
               ∃ l, forEach (λ ips0 dc, ip0 ← WANLeaderIP t (Datacenter.Name dc);
                                        Ok (ips0 ++ [ip0])) (Datacenters t) []
                    = Ok l).
  { intros Hs. apply forEach_Ok. intros l d Hd.
    unfold Datacenters in Hd. rewrite (built_dcs _ _ _ _ Hb) in Hd.
    destruct (built_leader _ _ _ _ d Hb Hd) as [_ H2].
    destruct (H2 Hs) as [ip2 ->]. simpl. eauto. }
  apply built_node_inv in Hn as (d & k & Hd & _ & [[_ ->]|[_ ->]]); [|done].
  destruct (Hdok d Hd) as (_ & _ & m & Hm & _).
  destruct (built_valid_shape _ _ _ _ Hb) as [-> | ->]; simpl.
  - rewrite PublicAddress_publicEntry, Hm, publicEntry_serverOf_dual. simpl.
    destruct (HW eq_refl) as [l ->]. simpl. eauto.
  - destruct HL as [l ->]. simpl. eauto.
Qed.

Lemma built_composeNode config GatewayAddrs uc t shape ds n pods :
  built_from uc t shape ds →
  n ∈ ds ≫= nodesOf (userConfigTopology.NodeConfig (userConfig.Topology uc)) shape →
  ∃ pod, composeNode config t GatewayAddrs pods n = Ok (pods ++ [pod])
         ∧ podServices pod = expectedServices n.
Proof.
  intros Hb Hn. unfold composeNode.
  destruct (built_generateAgentHCL config GatewayAddrs _ _ _ _ _ Hb Hn)
    as [info ->]. simpl.
  unfold generateMeshGatewayYAML. rewrite (built_shape _ _ _ _ Hb).
  assert (Hgw : ∃ wan,
    (if String.eqb shape NetworkShapeIslands || String.eqb shape NetworkShapeDual
     then Ok true
     else if String.eqb shape NetworkShapeFlat then Ok false
          else Panic ("unknown shape: " +:+ shape)) = Ok wan).
  { destruct (built_valid_shape _ _ _ _ Hb) as [-> | ->]; simpl; eauto. }
  destruct Hgw as [wan Hgw].
  unfold generatePingPongYAML.
  assert (Hsvc : ∀ svc, Node.Service n = Some svc →
            String.eqb (Service.Name svc) "ping"
            || String.eqb (Service.Name svc) "pong" = true).
  { intros svc Hs.
    apply built_node_inv in Hn as (d & k & _ & _ & [[_ ->]|[_ ->]]); [done|].
    unfold clientOf in Hs. simpl in Hs.
    destruct (userConfigTopologyNodeConfig.MeshGateway _); [done|].
    injection Hs as <-. simpl. by destruct (_ =? 1). }
  unfold podServices, expectedServices.
  destruct (Node.MeshGateway n); simpl; rewrite ?Hgw; simpl;
    destruct (Node.Service n) as [svc|]; simpl;
    rewrite ?(Hsvc _ eq_refl); simpl; eexists; (split; [reflexivity|done]).
Qed.

Lemma built_generateComposeFile config GatewayAddrs uc t shape ds :
  built_from uc t shape ds →
  generateComposeFile config t GatewayAddrs
  = Ok (walkOrder (userConfigTopology.NodeConfig (userConfig.Topology uc)) shape ds
          ≫= expectedServices).
Proof.
  intros Hb. unfold generateComposeFile. rewrite (built_Walk _ _ _ _ Hb).
  assert (H : ∀ l pods,
    (∀ n, n ∈ l → n ∈ ds ≫= nodesOf (userConfigTopology.NodeConfig
                                       (userConfig.Topology uc)) shape) →
    ∃ pods', forEach (composeNode config t GatewayAddrs) l pods = Ok (pods ++ pods')
             ∧ podServices <$> pods' = expectedServices <$> l).
  { induction l as [|n l IH]; intros pods Hl; simpl.
    - exists []. by rewrite app_nil_r.
    - destruct (built_composeNode config GatewayAddrs _ _ _ _ n pods Hb)
        as (pod & -> & Hpod); [apply Hl; by left|]. simpl.
      destruct (IH (pods ++ [pod])) as (pods' & -> & Hpods');
        [intros; apply Hl; by right|].
      exists (pod :: pods'). rewrite <-app_assoc. split; [done|].
      csimpl. by rewrite Hpod, Hpods'. }
  destruct (H (walkOrder (userConfigTopology.NodeConfig (userConfig.Topology uc))
                 shape ds) [])
    as (pods' & -> & Hpods'); [intros n; apply walkOrder_nodes|].
  simpl. by rewrite Hpods', concat_fmap_bind.
Qed.

Lemma edges_nil a b : (a, b) ∈ dependencyEdges [] ↔ False.
Proof. unfold dependencyEdges. csimpl. by rewrite elem_of_nil. Qed.

Lemma edges_cons s l a b :
  (a, b) ∈ dependencyEdges (s :: l)
  ↔ (a = composeService.Name s ∧ b ∈ composeService.DependsOn s)
    ∨ (a, b) ∈ dependencyEdges l.
Proof.
  unfold dependencyEdges. rewrite bind_cons, elem_of_app, list_elem_of_fmap.
  split.
  - intros [(d & E & Hd)|H]; [|by right]. left. by simplify_eq.
  - intros [[-> Hb]|H]; [|by right]. left. by exists b.
Qed.

Lemma edges_app l1 l2 a b :
  (a, b) ∈ dependencyEdges (l1 ++ l2)
  ↔ (a, b) ∈ dependencyEdges l1 ∨ (a, b) ∈ dependencyEdges l2.
Proof. unfold dependencyEdges. by rewrite bind_app, elem_of_app. Qed.

Lemma edges_agent n a b :
  (a, b) ∈ dependencyEdges
             [ composeService.mk (Node.Name n +:+ "-pod") [] "pod";
               composeService.mk (Node.Name n)
                 (if negb (Node.Server n)
                  then [Node.Name n +:+ "-pod"] ++ [Node.Datacenter n +:+ "-server1"]
                  else [Node.Name n +:+ "-pod"]) "consul" ]
  ↔ (a = Node.Name n ∧ b = Node.Name n +:+ "-pod")
    ∨ (Node.Server n = false ∧ a = Node.Name n
       ∧ b = Node.Datacenter n +:+ "-server1").
Proof.
  rewrite !edges_cons, edges_nil. simpl.
  destruct (Node.Server n); simpl; rewrite ?elem_of_cons, !elem_of_nil; split.
  - intros [[_ []]|[[-> [->|[]]]|[]]]. by left.
  - intros [[-> ->]|(? & _)]; [|done]. right. left. split; [done|by left].
  - intros [[_ []]|[[-> [->|[->|[]]]]|[]]]; [by left|by right].
  - intros [[-> ->]|(_ & -> & ->)]; right; left; (split; [done|]);
      [by left|right; by left].
Qed.

Lemma edges_gateway n a b :
  (a, b) ∈ dependencyEdges
             (if Node.MeshGateway n
              then [composeService.mk (Node.Name n +:+ "-mesh-gateway")
                      [Node.Name n] "gateway"]
              else [])
  ↔ Node.MeshGateway n = true
    ∧ a = Node.Name n +:+ "-mesh-gateway" ∧ b = Node.Name n.
Proof.
  destruct (Node.MeshGateway n).
  - rewrite edges_cons, edges_nil. simpl. rewrite elem_of_cons, elem_of_nil. split.
    + by intros [[-> [->|[]]]|[]].
    + intros (_ & -> & ->). left. split; [done|by left].
  - rewrite edges_nil. split; [done|]. by intros (? & _).
Qed.

Lemma edges_service n a b :
  (a, b) ∈ dependencyEdges
             match Node.Service n with
             | Some svc =>
                 [ composeService.mk (Node.Name n +:+ "-" +:+ Service.Name svc)
                     [Node.Name n] "app";
                   composeService.mk
                     ((Node.Name n +:+ "-" +:+ Service.Name svc) +:+ "-sidecar")
                     [Node.Name n +:+ "-" +:+ Service.Name svc] "sidecar" ]
             | None => []
             end
  ↔ ∃ svc, Node.Service n = Some svc
      ∧ (a = Node.Name n +:+ "-" +:+ Service.Name svc ∧ b = Node.Name n
         ∨ a = (Node.Name n +:+ "-" +:+ Service.Name svc) +:+ "-sidecar"
           ∧ b = Node.Name n +:+ "-" +:+ Service.Name svc).
Proof.
  destruct (Node.Service n) as [svc|].
  - rewrite !edges_cons, edges_nil. simpl. rewrite !elem_of_cons, !elem_of_nil.
    split.
    + intros [[-> [->|[]]]|[[-> [->|[]]]|[]]]; exists svc; (split; [done|]);
        [by left|by right].
    + intros (svc' & [= <-] & [[-> ->]|[-> ->]]).
      * left. split; [done|by left].
      * right. left. split; [done|by left].
  - rewrite edges_nil. split; [done|]. by intros (? & ? & _).
Qed.

Lemma edges_expectedServices n a b :
  (a, b) ∈ dependencyEdges (expectedServices n) ↔ codeEdge n a b.
Proof.
  unfold expectedServices, codeEdge.
  rewrite !edges_app, edges_agent, edges_gateway, edges_service.
  split.
  - intros [[H|H]|[H|H]]; auto.
  - intros [H|[H|[H|H]]]; auto.
Qed.

Lemma edges_bind {A} (f : A → list composeService.t) (l : list A) a b :
  (a, b) ∈ dependencyEdges (l ≫= f) ↔ ∃ x, x ∈ l ∧ (a, b) ∈ dependencyEdges (f x).
Proof.
  unfold dependencyEdges. rewrite list_elem_of_bind. split.
  - intros (s & Hab & (x & Hs & Hx)%list_elem_of_bind).
    exists x. split; [done|]. apply list_elem_of_bind. eauto.
  - intros (x & Hx & (s & Hab & Hs)%list_elem_of_bind).
    exists s. split; [done|]. apply list_elem_of_bind. eauto.
Qed.

Section built_manifest.
Context (uc : userConfig.t) (t : Topology.t) (shape : string)
        (ds : list Datacenter.t).
Hypothesis Hbuilt : built_from uc t shape ds.

Lemma built_name_last_digit n :
  n ∈ ds ≫= nodesOf (userConfigTopology.NodeConfig (userConfig.Topology uc)) shape →
  ∃ c, last_char (Node.Name n) = Some c ∧ is_digit c = true.
Proof.
  intros (d & k & _ & Hk & [[_ ->]|[_ ->]])%built_node_inv; simpl.
  - unfold serverName. rewrite !last_char_app.
    + apply last_char_digits; [apply Itoa_nonempty|apply Itoa_digits; lia].
    + apply Itoa_nonempty.
    + pose proof (Itoa_nonempty k). by destruct (Itoa k).
  - unfold clientName. rewrite !last_char_app.
    + apply last_char_digits; [apply Itoa_nonempty|apply Itoa_digits; lia].
    + apply Itoa_nonempty.
    + pose proof (Itoa_nonempty k). by destruct (Itoa k).
Qed.

Lemma built_not_node s c :
  last_char s = Some c → is_digit c = false → Topology.nm t !! s = None.
Proof.
  intros Hs Hc. destruct (Topology.nm t !! s) as [n|] eqn:E; [|done].
  apply (built_nm _ _ _ _ Hbuilt) in E as [Hn <-].
  destruct (built_name_last_digit n Hn) as (c' & Hc' & Hd).
  rewrite Hs in Hc'. injection Hc' as <-. by rewrite Hc in Hd.
Qed.

Lemma built_rank_agent n :
  n ∈ ds ≫= nodesOf (userConfigTopology.NodeConfig (userConfig.Topology uc)) shape →
  rank t (Node.Name n) = if Node.Server n then 1%nat else 2%nat.
Proof.
  intros Hn. unfold rank.
  by rewrite (proj2 (built_nm _ _ _ _ Hbuilt (Node.Name n) n) (conj Hn eq_refl)).
Qed.

Lemma built_rank_suffix x suffix c r :
  last_char suffix = Some c → is_digit c = false →
  match c with "d"%char => 0%nat | "r"%char => 4%nat | _ => 3%nat end = r →
  rank t (x +:+ suffix) = r.
Proof.
  intros Hs Hc Hr. unfold rank.
  assert (Hl : last_char (x +:+ suffix) = Some c).
  { rewrite last_char_app; [done|]. by destruct suffix. }
  by rewrite (built_not_node _ c Hl Hc), Hl.
Qed.

Lemma built_first_server_of n :
  n ∈ ds ≫= nodesOf (userConfigTopology.NodeConfig (userConfig.Topology uc)) shape →
  ∃ s, Topology.nm t !! (Node.Datacenter n +:+ "-server1") = Some s
       ∧ Node.Server s = true ∧ Node.Datacenter s = Node.Datacenter n.
Proof.
  intros Hn.
  assert (∃ d, d ∈ ds ∧ Node.Datacenter n = Datacenter.Name d) as (d & Hd & ->).
  { apply built_node_inv in Hn as (d & k & Hd & _ & [[_ ->]|[_ ->]]); eauto. }
  pose proof (built_descriptors _ _ _ _ Hbuilt) as Hdok.
  rewrite Forall_forall in Hdok. destruct (Hdok d Hd) as (HS & _).
  eexists. split; [|split].
  - rewrite <-serverName_1. apply (built_server_name_lookup _ _ _ _ d 1 Hbuilt Hd). lia.
  - done.
  - done.
Qed.

Lemma built_service_name n svc :
  n ∈ ds ≫= nodesOf (userConfigTopology.NodeConfig (userConfig.Topology uc)) shape →
  Node.Service n = Some svc →
  Node.Server n = false
  ∧ (Service.Name svc = "ping" ∨ Service.Name svc = "pong").
Proof.
  intros (d & k & _ & _ & [[_ ->]|[_ ->]])%built_node_inv; [done|].
  unfold clientOf. simpl.
  destruct (userConfigTopologyNodeConfig.MeshGateway _); [done|].
  intros [= <-]. simpl. split; [done|]. destruct (_ =? 1); eauto.
Qed.

Lemma built_rank_decreases n a b :
  n ∈ ds ≫= nodesOf (userConfigTopology.NodeConfig (userConfig.Topology uc)) shape →
  codeEdge n a b → (rank t b < rank t a)%nat.
Proof.
  intros Hn [(-> & ->)|[(Hc & -> & ->)|[(Hg & -> & ->)|(svc & Hs & He)]]].
  - rewrite (built_rank_agent n Hn).
    rewrite (built_rank_suffix (Node.Name n) "-pod" "d" 0) by done.
    destruct (Node.Server n); lia.
  - rewrite (built_rank_agent n Hn), Hc.
    destruct (built_first_server_of n Hn) as (s & Hl & Hsrv & _).
    unfold rank. rewrite Hl, Hsrv. lia.
  - rewrite (built_rank_agent n Hn).
    rewrite (built_rank_suffix (Node.Name n) "-mesh-gateway" "y" 3) by done.
    destruct (Node.Server n); lia.
  - destruct (built_service_name n svc Hn Hs) as [Hc Hname].
    assert (Happ : rank t (Node.Name n +:+ "-" +:+ Service.Name svc) = 3%nat).
    { destruct Hname as [-> | ->].
      - by apply (built_rank_suffix (Node.Name n) "-ping" "g" 3).
      - by apply (built_rank_suffix (Node.Name n) "-pong" "g" 3). }
    destruct He as [(-> & ->)|(-> & ->)].
    + rewrite Happ, (built_rank_agent n Hn), Hc. lia.
    + rewrite Happ.
      rewrite (built_rank_suffix _ "-sidecar" "r" 4) by done. lia.
Qed.

(** A node name is the source of its agent's edges only. *)
Lemma built_edge_from_agent n n' b :
  n ∈ ds ≫= nodesOf (userConfigTopology.NodeConfig (userConfig.Topology uc)) shape →
  n' ∈ ds ≫= nodesOf (userConfigTopology.NodeConfig (userConfig.Topology uc)) shape →
  codeEdge n' (Node.Name n) b →
  n' = n ∧ (b = Node.Name n +:+ "-pod"
            ∨ Node.Server n = false ∧ b = Node.Datacenter n +:+ "-server1").
Proof.
  intros Hn Hn' He.
  destruct (built_name_last_digit n Hn) as (c & Hc & Hd).
  assert (Hsame : Node.Name n = Node.Name n' → n' = n).
  { intros E.
    pose proof (proj2 (built_nm _ _ _ _ Hbuilt (Node.Name n) n) (conj Hn eq_refl)) as H1.
    pose proof (proj2 (built_nm _ _ _ _ Hbuilt (Node.Name n) n') (conj Hn' (eq_sym E))) as H2.
    rewrite H1 in H2. by injection H2. }
  assert (Hsuffix : ∀ x suffix c', last_char suffix = Some c' →
            is_digit c' = false → Node.Name n ≠ x +:+ suffix).
  { intros x suffix c' Hs Hc' E. rewrite E in Hc.
    rewrite last_char_app in Hc by (by destruct suffix).
    rewrite Hs in Hc. injection Hc as <-. by rewrite Hd in Hc'. }
  destruct He as [(E & ->)|[(Hcl & E & ->)|[(_ & E & _)|(svc & Hs & He)]]].
  - destruct (Hsame E). eauto.
  - destruct (Hsame E). eauto.
  - by destruct (Hsuffix (Node.Name n') "-mesh-gateway" "y"%char).
  - destruct (built_service_name n' svc Hn' Hs) as [_ Hname].
    destruct He as [(E & _)|(E & _)].
    + destruct Hname as [Hp | Hp]; rewrite Hp in E.
      * by destruct (Hsuffix (Node.Name n') "-ping" "g"%char).
      * by destruct (Hsuffix (Node.Name n') "-pong" "g"%char).
    + by destruct (Hsuffix (Node.Name n' +:+ "-" +:+ Service.Name svc)
                     "-sidecar" "r"%char).
Qed.
End built_manifest.

(** C8, as the code has it: for every built topology the manifest is
    generated and its start-after edges are exactly these: the agent of
    every node depends on the pause container of its pod; the agent of
    every client also depends on the agent <dc>-server1, a server of its
    own datacenter; every mesh-gateway container depends on its node's
    agent; every application depends on its node's agent and every sidecar
    on its application.  Server agents depend on no agent, and the graph
    has no cycle. *)
Theorem C8_dependency_graph (uc : userConfig.t) (t : Topology.t)
    (config : FlatConfig.t)
    (GatewayAddrs : Topology.t → string → res (list string)) :
  wf_userConfig uc →
  InferTopology uc = Ok t →
  ∃ services,
    generateComposeFile config t GatewayAddrs = Ok services
    ∧ (∀ a b, (a, b) ∈ dependencyEdges services
              ↔ ∃ name n, Topology.nm t !! name = Some n ∧ codeEdge n a b)
    ∧ (∀ name n, Topology.nm t !! name = Some n → Node.Server n = false →
         ∃ s, Topology.nm t !! (Node.Datacenter n +:+ "-server1") = Some s
              ∧ Node.Server s = true
              ∧ Node.Datacenter s = Node.Datacenter n)
    ∧ (∀ name n b, Topology.nm t !! name = Some n → Node.Server n = true →
         (name, b) ∈ dependencyEdges services → b = name +:+ "-pod")
    ∧ acyclic (dependencyEdges services).
Proof.
  intros Hwf Hok.
  destruct (InferTopology_built _ _ Hwf Hok) as (shape & ds & Hb).
  set (cfgs := userConfigTopology.NodeConfig (userConfig.Topology uc)).
  exists (walkOrder cfgs shape ds ≫= expectedServices).
  split; [apply (built_generateComposeFile _ _ _ _ _ _ Hb)|].
  assert (Hedges : ∀ a b,
    (a, b) ∈ dependencyEdges (walkOrder cfgs shape ds ≫= expectedServices)
    ↔ ∃ n, n ∈ ds ≫= nodesOf cfgs shape ∧ codeEdge n a b).
  { intros a b. rewrite edges_bind. split.
    - intros (n & Hn%(walkOrder_nodes uc shape ds) & He%edges_expectedServices).
      eauto.
    - intros (n & Hn%(walkOrder_nodes uc shape ds) & He%edges_expectedServices).
      eauto. }
  split; [|split; [|split]].
  - intros a b. rewrite Hedges. split.
    + intros (n & Hn & He). exists (Node.Name n), n. split; [|done].
      by apply (built_nm _ _ _ _ Hb).
    + intros (name & n & Hn & He). exists n. split; [|done].
      by apply (built_nm _ _ _ _ Hb) in Hn as [Hn _].
  - intros name n Hn _.
    pose proof (proj1 (built_nm _ _ _ _ Hb name n) Hn) as [Hin _].
    by apply (built_first_server_of _ _ _ _ Hb).
  - intros name n b Hn Hsrv (n' & Hn' & He)%Hedges.
    pose proof (proj1 (built_nm _ _ _ _ Hb name n) Hn) as [Hin <-].
    destruct (built_edge_from_agent _ _ _ _ Hb n n' b Hin Hn' He)
      as [_ [->|[Hc _]]]; [done|].
    by rewrite Hsrv in Hc.
  - apply (rank_acyclic _ (rank t)). intros a b (n & Hn & He)%Hedges.
    by apply (built_rank_decreases _ _ _ _ Hb n).
Qed.

Lemma C8_witness :
  ∃ t services,
    InferTopology example_spec = Ok t
    ∧ generateComposeFile example_config t (λ _ _, Ok []) = Ok services
    ∧ acyclic (dependencyEdges services).
Proof.
  destruct (C8_dependency_graph example_spec _ example_config (λ _ _, Ok [])
              example_spec_wf eq_refl) as (services & H1 & _ & _ & _ & H5).
  eexists _, services. split; [reflexivity|]. split; [exact H1|exact H5].
Defined.

(** C8, as stated, fails: the agent of dc1-server1 depends on the pause
    container of its pod, an edge that is none of those the claim lists. *)
Lemma C8_counterexample :
  (t ← InferTopology example_spec;
   ns ← walked t;
   services ← generateComposeFile example_config t (λ _ _, Ok []);
   Ok (bool_decide (("dc1-server1", "dc1-server1-pod") ∈ dependencyEdges services),
       specEdgeb ns "dc1-server1" "dc1-server1-pod",
       specEdgeb ns "dc1-client1" "dc1-server1"))
  = Ok (true, false, true).
Proof. vm_compute. reflexivity. Qed.

(** * Further properties of the code *)

(** ** Lookups by datacenter *)

Lemma forEach_append {A S} (body : S → A → res S) l1 l2 s :
  forEach body (l1 ++ l2) s = (s' ← forEach body l1 s; forEach body l2 s').
Proof.
  revert s. induction l1 as [|x l1 IH]; intros s; simpl; [done|].
  destruct (body s x); simpl; auto.
Qed.

(** A built topology together with the fact that each descriptor is the
    one the validation loop computes from its entry. *)
Lemma InferTopology_built_full uc t :
  wf_userConfig uc → InferTopology uc = Ok t →
  ∃ shape ds, built_from uc t shape ds
    ∧ Forall (λ d, descriptor (entryOf d) = Ok d) ds.
Proof.
  intros Hwf H.
  destruct (InferTopology_built _ _ Hwf H) as (shape & ds & Hb).
  exists shape, ds. split; [done|].
  apply InferTopology_Ok_inv in H as (shape' & ds0 & ns & _ & _ & Hd & _ & Ht).
  assert (Hds : ds = sort_Slice dcLess ds0).
  { rewrite <-(built_dcs _ _ _ _ Hb), Ht. by rewrite foldl_addNode_dcs. }
  rewrite Hds, (sort_Slice_perm (A:=Datacenter.t)).
  apply mapM_Ok_inv in Hd. clear -Hd.
  induction Hd as [|e d es ds He _ IH]; constructor; [|done].
  by destruct (descriptor_Ok_entry _ _ He) as [<- _].
Qed.

Lemma descriptor_entryOf_inv (d : Datacenter.t) :
  descriptor (entryOf d) = Ok d →
  ∃ m, Datacenter.Name d = "dc" +:+ m
    ∧ Atoi m = Some (Datacenter.Index d)
    ∧ Datacenter.Primary d = String.eqb (Datacenter.Name d) PrimaryDC
    ∧ Datacenter.BaseIP d = "10.0." +:+ Itoa (Datacenter.Index d)
    ∧ Datacenter.WANBaseIP d = "10.1." +:+ Itoa (Datacenter.Index d).
Proof.
  intros H. unfold entryOf in H.
  apply descriptor_Ok_inv in H as (_ & _ & m & i & Hm & Hi & E).
  apply dcPatt_inv in Hm as (Hm & _ & _).
  exists m. destruct d as [n p i0 s c b w]. simpl in *.
  injection E as Hp Hi0 Hb Hw. by subst.
Qed.

Lemma built_entry_descriptor uc t shape ds dc v m N :
  built_from uc t shape ds →
  Forall (λ d, descriptor (entryOf d) = Ok d) ds →
  (dc, v) ∈ userConfigTopology.Datacenters (userConfig.Topology uc) →
  dc = "dc" +:+ m → Atoi m = Some N →
  Datacenter.mk dc (String.eqb dc PrimaryDC) N
    (userConfigTopologyDatacenter.Servers v)
    (userConfigTopologyDatacenter.Clients v)
    ("10.0." +:+ Itoa N) ("10.1." +:+ Itoa N) ∈ ds.
Proof.
  intros Hb Hfull Hin Hdc HN.
  destruct (built_entry _ _ _ _ Hb dc v Hin) as (d & Hd & Hname & HS & HC).
  rewrite Forall_forall in Hfull.
  destruct (descriptor_entryOf_inv d (Hfull d Hd))
    as (m' & Hm' & Hi & Hp & Hbase & Hwan).
  rewrite Hname, Hdc in Hm'. assert (m = m') as <- by (by injection Hm').
  rewrite HN in Hi. injection Hi as Hi.
  replace (Datacenter.mk dc (String.eqb dc PrimaryDC) N
             (userConfigTopologyDatacenter.Servers v)
             (userConfigTopologyDatacenter.Clients v)
             ("10.0." +:+ Itoa N) ("10.1." +:+ Itoa N)) with d; [done|].
  destruct d as [n p i s c b w]. simpl in *. by subst.
Qed.

Lemma DC_loop_found (ds : list Datacenter.t) d :
  NoDup (Datacenter.Name <$> ds) → d ∈ ds →
  DC_loop ds (Datacenter.Name d) = Ok d.
Proof.
  induction ds as [|x ds IH]; intros Hnd Hd; [by inv Hd|].
  rewrite fmap_cons in Hnd. inv Hnd. simpl. inv Hd.
  - by rewrite String.eqb_refl.
  - destruct (String.eqb_spec (Datacenter.Name x) (Datacenter.Name d)) as [E|_].
    + exfalso. match goal with H : _ ∉ _ |- _ => apply H end.
      rewrite E. by apply list_elem_of_fmap_2.
    + by apply IH.
Qed.

Lemma DC_loop_missing (ds : list Datacenter.t) name :
  name ∉ Datacenter.Name <$> ds → DC_loop ds name = Panic "no such dc".
Proof.
  induction ds as [|x ds IH]; intros Hn; [done|]. simpl.
  rewrite fmap_cons, not_elem_of_cons in Hn. destruct Hn as [Hne Hn].
  destruct (String.eqb_spec (Datacenter.Name x) name); [by subst|].
  by apply IH.
Qed.

Lemma built_dc_names uc t shape (ds : list Datacenter.t) :
  built_from uc t shape ds →
  Datacenter.Name <$> ds
  ≡ₚ fst <$> userConfigTopology.Datacenters (userConfig.Topology uc).
Proof.
  intros (_ & _ & Hp & _). by rewrite <-Hp, entryOf_Name.
Qed.

(** X3: in a built topology, [DC] returns for every datacenter of the
    input its descriptor: the name, whether the name is that of the primary
    datacenter, the number in the name, the two counts and the two address
    prefixes 10.0.N and 10.1.N; for any other name it aborts with "no such
    dc". *)
Theorem X3_DC_lookup (uc : userConfig.t) (t : Topology.t) :
  wf_userConfig uc →
  InferTopology uc = Ok t →
  (∀ dc v m N,
     (dc, v) ∈ userConfigTopology.Datacenters (userConfig.Topology uc) →
     dc = "dc" +:+ m → Atoi m = Some N →
     DC t dc = Ok (Datacenter.mk dc (String.eqb dc "dc1") N
                     (userConfigTopologyDatacenter.Servers v)
                     (userConfigTopologyDatacenter.Clients v)
                     ("10.0." +:+ Itoa N) ("10.1." +:+ Itoa N)))
  ∧ (∀ name,
       name ∉ fst <$> userConfigTopology.Datacenters (userConfig.Topology uc) →
       DC t name = Panic "no such dc").
Proof.
  intros Hwf Hok.
  destruct (InferTopology_built_full _ _ Hwf Hok) as (shape & ds & Hb & Hfull).
  unfold DC. rewrite (built_dcs _ _ _ _ Hb). split.
  - intros dc v m N Hin Hdc HN.
    pose proof (built_entry_descriptor _ _ _ _ dc v m N Hb Hfull Hin Hdc HN) as Hd.
    apply (DC_loop_found ds _ (built_dc_names_NoDup _ _ _ _ Hb)) in Hd.
    exact Hd.
  - intros name Hn. apply DC_loop_missing.
    by rewrite (built_dc_names _ _ _ _ Hb).
Qed.

Lemma X3_witness :
  ∃ t, InferTopology example_spec = Ok t
    ∧ DC t "dc2" = Ok (Datacenter.mk "dc2" false 2 1 2 "10.0.2" "10.1.2")
    ∧ DC t "dc3" = Panic "no such dc".
Proof.
  eexists. split; [reflexivity|].
  destruct (X3_DC_lookup example_spec _ example_spec_wf eq_refl) as [H1 H2].
  split.
  - exact (H1 "dc2" (dcv 1 2) "2" 2 (list_elem_of_here _ _) eq_refl eq_refl).
  - apply H2. apply (bool_decide_unpack _). vm_compute. exact I.
Defined.

Lemma bind_select_none {B} (ds : list Datacenter.t) (f : Datacenter.t → list B) name :
  name ∉ Datacenter.Name <$> ds →
  (ds ≫= λ d, if String.eqb (Datacenter.Name d) name then f d else []) = [].
Proof.
  induction ds as [|x ds IH]; intros Hn; [done|]. rewrite bind_cons.
  rewrite fmap_cons, not_elem_of_cons in Hn. destruct Hn as [Hne Hn].
  destruct (String.eqb_spec (Datacenter.Name x) name); [by subst|].
  simpl. by apply IH.
Qed.

Lemma bind_select {B} (ds : list Datacenter.t) (f : Datacenter.t → list B) d0 :
  NoDup (Datacenter.Name <$> ds) → d0 ∈ ds →
  (ds ≫= λ d, if String.eqb (Datacenter.Name d) (Datacenter.Name d0)
              then f d else [])
  = f d0.
Proof.
  induction ds as [|x ds IH]; intros Hnd Hd; [by apply elem_of_nil in Hd|].
  rewrite fmap_cons in Hnd. apply NoDup_cons in Hnd as [Hx Hnd].
  rewrite bind_cons. apply elem_of_cons in Hd as [->|Hd].
  - rewrite String.eqb_refl, bind_select_none by done. by rewrite app_nil_r.
  - destruct (String.eqb_spec (Datacenter.Name x) (Datacenter.Name d0)) as [E|_].
    + exfalso. apply Hx. rewrite E. by apply list_elem_of_fmap_2.
    + simpl. by apply IH.
Qed.

Section built_lookups.
Context (uc : userConfig.t) (t : Topology.t) (shape : string)
        (ds : list Datacenter.t).
Hypothesis Hbuilt : built_from uc t shape ds.

Lemma built_Node_server d k :
  d ∈ ds → 1 ≤ k ≤ Datacenter.Servers d →
  Node t (serverName (Datacenter.Name d) k)
  = Ok (serverOf shape (Datacenter.Name d) (Datacenter.BaseIP d)
          (Datacenter.WANBaseIP d) k).
Proof.
  intros Hd Hk. unfold Node.
  by rewrite (built_server_name_lookup _ _ _ _ d k Hbuilt Hd Hk).
Qed.

Lemma ServerIPs_dc dc d ks out :
  d ∈ ds → (∀ k, k ∈ ks → 1 ≤ k ≤ Datacenter.Servers d) →
  forEach (λ out name,
             n ← Node t name;
             if String.eqb (Node.Datacenter n) dc
             then a ← LocalAddress n; Ok (out ++ [a])
             else Ok out)
          (serverName (Datacenter.Name d) <$> ks) out
  = Ok (out ++ if String.eqb (Datacenter.Name d) dc
               then (λ k, Datacenter.BaseIP d +:+ "." +:+ Itoa (10 + k)) <$> ks
               else []).
Proof.
  intros Hd. revert out. induction ks as [|k ks IH]; intros out Hks.
  - simpl. destruct (String.eqb _ _); by rewrite app_nil_r.
  - rewrite fmap_cons. cbn [forEach].
    rewrite (built_Node_server d k Hd) by (apply Hks; left).
    cbn [mbind res_bind].
    change (Node.Datacenter (serverOf _ _ _ _ _)) with (Datacenter.Name d).
    destruct (String.eqb (Datacenter.Name d) dc) eqn:E.
    + rewrite LocalAddress_localEntry, localEntry_serverOf
        by apply (built_valid_shape _ _ _ _ Hbuilt).
      cbn [mbind res_bind Address.IPAddress].
      rewrite IH by (intros; apply Hks; by right).
      by rewrite <-app_assoc.
    + cbn [mbind res_bind]. by rewrite IH by (intros; apply Hks; by right).
Qed.

Lemma built_ServerIPs_eq dc :
  ServerIPs t dc
  = Ok (ds ≫= λ d, if String.eqb (Datacenter.Name d) dc
                   then serverLocalIPs (Datacenter.BaseIP d) (Datacenter.Servers d)
                   else []).
Proof.
  unfold ServerIPs. rewrite (built_servers _ _ _ _ Hbuilt).
  assert (H : ∀ (l : list Datacenter.t) out, (∀ d, d ∈ l → d ∈ ds) →
    forEach (λ out name,
               n ← Node t name;
               if String.eqb (Node.Datacenter n) dc
               then a ← LocalAddress n; Ok (out ++ [a])
               else Ok out)
            (l ≫= λ d, serverNames (Datacenter.Name d) (Datacenter.Servers d)) out
    = Ok (out ++ (l ≫= λ d, if String.eqb (Datacenter.Name d) dc
                            then serverLocalIPs (Datacenter.BaseIP d)
                                   (Datacenter.Servers d)
                            else []))).
  { unfold serverNames. induction l as [|d l IH]; intros out Hsub.
    - simpl. by rewrite app_nil_r.
    - rewrite !bind_cons, forEach_append.
      rewrite (ServerIPs_dc dc d (seqZ 1 (Datacenter.Servers d)) out).
      + cbn [mbind res_bind]. rewrite IH by (intros; apply Hsub; by right).
        by rewrite <-app_assoc.
      + apply Hsub. left.
      + intros k Hk%elem_of_seqZ. lia. }
  by apply (H ds []).
Qed.

Lemma built_node_datacenter n :
  n ∈ ds ≫= nodesOf (userConfigTopology.NodeConfig (userConfig.Topology uc)) shape →
  Node.Datacenter n ∈ Datacenter.Name <$> ds.
Proof.
  intros (d & k & Hd & _ & [[_ ->]|[_ ->]])%built_node_inv; simpl;
    by apply list_elem_of_fmap_2.
Qed.

Lemma built_leader_missing (address : Node.t → res string) dc :
  dc ∉ Datacenter.Name <$> ds →
  leader_loop t address dc (Topology.servers t) = Panic "no such dc".
Proof.
  intros Hdc.
  assert (H : ∀ names, (∀ x, x ∈ names → x ∈ Topology.servers t) →
            leader_loop t address dc names = Panic "no such dc").
  { induction names as [|x names IH]; intros Hsub; [done|]. simpl.
    destruct (built_servers_nodes _ _ _ _ x Hbuilt) as (n & -> & Hn);
      [apply Hsub; left|]. simpl.
    destruct (String.eqb_spec (Node.Datacenter n) dc) as [E|_].
    - exfalso. apply Hdc. rewrite <-E. by apply built_node_datacenter.
    - apply IH. intros; apply Hsub; by right. }
  by apply H.
Qed.
End built_lookups.

(** X1: in a built topology, [ServerIPs] of a datacenter of the input is
    the list of the local addresses 10.0.N.11, 10.0.N.12, ... of its
    servers, one per configured server and in index order; for a name that
    is no datacenter of the input it is the empty list (it does not
    abort). *)
Theorem X1_ServerIPs (uc : userConfig.t) (t : Topology.t) :
  wf_userConfig uc →
  InferTopology uc = Ok t →
  (∀ dc v m N,
     (dc, v) ∈ userConfigTopology.Datacenters (userConfig.Topology uc) →
     dc = "dc" +:+ m → Atoi m = Some N →
     ServerIPs t dc
     = Ok ((λ k, "10.0." +:+ Itoa N +:+ "." +:+ Itoa (10 + k))
             <$> seqZ 1 (userConfigTopologyDatacenter.Servers v))
     ∧ ∃ ips, ServerIPs t dc = Ok ips
         ∧ Z.of_nat (length ips) = userConfigTopologyDatacenter.Servers v)
  ∧ (∀ name,
       name ∉ fst <$> userConfigTopology.Datacenters (userConfig.Topology uc) →
       ServerIPs t name = Ok []).
Proof.
  intros Hwf Hok.
  destruct (InferTopology_built_full _ _ Hwf Hok) as (shape & ds & Hb & Hfull).
  split.
  - intros dc v m N Hin Hdc HN.
    pose proof (built_entry_descriptor _ _ _ _ dc v m N Hb Hfull Hin Hdc HN) as Hd.
    assert (E : ServerIPs t dc
                = Ok ((λ k, "10.0." +:+ Itoa N +:+ "." +:+ Itoa (10 + k))
                        <$> seqZ 1 (userConfigTopologyDatacenter.Servers v))).
    { rewrite (built_ServerIPs_eq _ _ _ _ Hb).
      pose proof (bind_select ds (λ d, serverLocalIPs (Datacenter.BaseIP d)
                                          (Datacenter.Servers d)) _
                    (built_dc_names_NoDup _ _ _ _ Hb) Hd) as Hsel.
      simpl in Hsel. rewrite Hsel. reflexivity. }
    split; [done|]. eexists. split; [exact E|].
    rewrite length_fmap, length_seqZ.
    destruct (built_entry _ _ _ _ Hb dc v Hin) as (d & Hd' & _ & <- & _).
    pose proof (built_descriptors _ _ _ _ Hb) as Hdok.
    rewrite Forall_forall in Hdok. destruct (Hdok d Hd') as (? & _). lia.
  - intros name Hn. rewrite (built_ServerIPs_eq _ _ _ _ Hb).
    rewrite bind_select_none; [done|]. by rewrite (built_dc_names _ _ _ _ Hb).
Qed.

Lemma X1_witness :
  ∃ t, InferTopology example_two_servers = Ok t
    ∧ ServerIPs t "dc1" = Ok ["10.0.1.11"; "10.0.1.12"]
    ∧ ServerIPs t "dc7" = Ok [].
Proof.
  eexists. split; [reflexivity|].
  destruct (X1_ServerIPs example_two_servers _ example_two_servers_wf eq_refl)
    as [H1 H2].
  split.
  - exact (proj1 (H1 "dc1" (dcv 2 1) "1" 1 (list_elem_of_here _ _) eq_refl eq_refl)).
  - apply H2. apply (bool_decide_unpack _). vm_compute. exact I.
Defined.

(** X2: in a built topology, [LeaderIP] and [WANLeaderIP] abort with "no
    such dc" for every name that is no datacenter of the input. *)
Theorem X2_leader_unknown_dc (uc : userConfig.t) (t : Topology.t) (name : string) :
  wf_userConfig uc →
  InferTopology uc = Ok t →
  name ∉ fst <$> userConfigTopology.Datacenters (userConfig.Topology uc) →
  LeaderIP t name = Panic "no such dc"
  ∧ WANLeaderIP t name = Panic "no such dc".
Proof.
  intros Hwf Hok Hn.
  destruct (InferTopology_built _ _ Hwf Hok) as (shape & ds & Hb).
  rewrite <-(built_dc_names _ _ _ _ Hb) in Hn.
  split; by apply (built_leader_missing _ _ _ _ Hb).
Qed.

Lemma X2_witness :
  ∃ t, InferTopology example_spec = Ok t
    ∧ LeaderIP t "dc3" = Panic "no such dc"
    ∧ WANLeaderIP t "dc3" = Panic "no such dc".
Proof.
  eexists. split; [reflexivity|].
  apply (X2_leader_unknown_dc example_spec _ "dc3" example_spec_wf eq_refl).
  apply (bool_decide_unpack _). vm_compute. exact I.
Defined.

(** X4: a built topology has exactly one primary datacenter, the one
    named dc1. *)
Theorem X4_one_primary (uc : userConfig.t) (t : Topology.t) :
  wf_userConfig uc →
  InferTopology uc = Ok t →
  ∃ d1, DC t "dc1" = Ok d1
    ∧ d1 ∈ Datacenters t
    ∧ Datacenter.Name d1 = "dc1"
    ∧ ∀ d, d ∈ Datacenters t → (Datacenter.Primary d = true ↔ d = d1).
Proof.
  intros Hwf Hok.
  destruct (InferTopology_built_full _ _ Hwf Hok) as (shape & ds & Hb & Hfull).
  pose proof (built_dc_names_NoDup _ _ _ _ Hb) as Hnd.
  rewrite Forall_forall in Hfull.
  unfold DC, Datacenters. rewrite (built_dcs _ _ _ _ Hb).
  assert (∃ d1, d1 ∈ ds ∧ Datacenter.Name d1 = "dc1") as (d1 & Hd1 & Hname).
  { pose proof Hb as (_ & Hp & _).
    apply assoc_lookup_is_Some in Hp.
    rewrite <-(built_dc_names _ _ _ _ Hb) in Hp.
    apply list_elem_of_fmap in Hp as (d1 & E & Hd1). eauto. }
  exists d1. split; [|split; [done|split; [done|]]].
  - rewrite <-Hname. by apply DC_loop_found.
  - intros d Hd.
    destruct (descriptor_entryOf_inv d (Hfull d Hd)) as (_ & _ & _ & -> & _).
    split.
    + intros E%String.eqb_eq. apply (NoDup_names_eq ds); try done.
      by rewrite Hname.
    + intros ->. rewrite Hname. done.
Qed.

Lemma X4_witness :
  ∃ t d1, InferTopology example_spec = Ok t
    ∧ DC t "dc1" = Ok d1 ∧ Datacenter.Primary d1 = true.
Proof.
  destruct (X4_one_primary example_spec _ example_spec_wf eq_refl)
    as (d1 & H1 & H2 & _ & H4).
  eexists _, d1. split; [reflexivity|]. split; [exact H1|].
  by apply (H4 d1 H2).
Defined.

(** X5: in a built topology, the lookup [Node] returns for every name of
    the iteration order a node of that name, and aborts with "node not
    found" for every other name. *)
Theorem X5_Node_lookup (uc : userConfig.t) (t : Topology.t) :
  wf_userConfig uc →
  InferTopology uc = Ok t →
  (∀ name, name ∈ all t → ∃ n, Node t name = Ok n ∧ Node.Name n = name)
  ∧ (∀ name n, Node t name = Ok n → Node.Name n = name ∧ name ∈ all t)
  ∧ (∀ name, name ∉ all t → Node t name = Panic ("node not found: " +:+ name)).
Proof.
  intros Hwf Hok.
  destruct (InferTopology_built _ _ Hwf Hok) as (shape & ds & Hb).
  pose proof (built_all _ _ _ _ Hb) as Hall.
  assert (Hiff : ∀ name n, Topology.nm t !! name = Some n
                           → Node.Name n = name ∧ name ∈ all t).
  { intros name n Hn. apply (built_nm _ _ _ _ Hb) in Hn as [Hn <-].
    split; [done|]. rewrite Hall. apply list_elem_of_fmap_2.
    by apply (walkOrder_nodes uc shape ds). }
  split; [|split].
  - intros name Hn. rewrite Hall in Hn.
    apply list_elem_of_fmap in Hn as (n & -> & Hn%(walkOrder_nodes uc shape ds)).
    exists n. split; [|done]. by apply (built_Node _ _ _ _ Hb).
  - intros name n. unfold Node.
    destruct (Topology.nm t !! name) as [n'|] eqn:E; [|done].
    intros [= <-]. by apply Hiff.
  - intros name Hn. unfold Node.
    destruct (Topology.nm t !! name) as [n'|] eqn:E; [|done].
    by destruct (Hiff _ _ E) as [_ ?].
Qed.

Lemma X5_witness :
  ∃ t, InferTopology example_spec = Ok t
    ∧ (∃ n, Node t "dc1-client2" = Ok n ∧ Node.Name n = "dc1-client2")
    ∧ Node t "dc1-client3" = Panic "node not found: dc1-client3".
Proof.
  eexists. split; [reflexivity|].
  destruct (X5_Node_lookup example_spec _ example_spec_wf eq_refl)
    as (H1 & _ & H3).
  split.
  - apply H1. apply (bool_decide_unpack _). vm_compute. exact I.
  - apply (H3 "dc1-client3"). apply (bool_decide_unpack _). vm_compute. exact I.
Defined.

(** ** Public addresses and node roles *)

Lemma publicEntry_clientOf cfgs shape m b w k :
  valid_shape shape →
  publicEntry (clientOf cfgs shape ("dc" +:+ m) b w k)
  = if userConfigTopologyNodeConfig.MeshGateway
         (nodeConfigFor cfgs (clientName ("dc" +:+ m) k))
       && String.eqb shape NetworkShapeDual
    then Some (Address.mk "wan" (w +:+ "." +:+ Itoa (20 + k)))
    else None.
Proof.
  intros [-> | ->]; unfold publicEntry, clientOf; simpl;
    by destruct (userConfigTopologyNodeConfig.MeshGateway _).
Qed.

Lemma built_node_dc_name uc t shape ds n :
  built_from uc t shape ds →
  n ∈ ds ≫= nodesOf (userConfigTopology.NodeConfig (userConfig.Topology uc)) shape →
  ∃ m, Node.Datacenter n = "dc" +:+ m.
Proof.
  intros Hb Hn.
  pose proof (built_descriptors _ _ _ _ Hb) as Hdok.
  rewrite Forall_forall in Hdok.
  apply built_node_inv in Hn as (d & k & Hd & _ & [[_ ->]|[_ ->]]);
    destruct (Hdok d Hd) as (_ & _ & m & Hm & _); eauto.
Qed.

(** X6: under the flat shape no node of a built topology has a public
    address, [PublicAddress] aborts on every node; under the dual shape the
    server with index k of the datacenter dcN has the public address
    10.1.N.(10+k), a mesh-gateway client with index k has 10.1.N.(20+k),
    and [PublicAddress] aborts on every other client. *)
Theorem X6_public_address (uc : userConfig.t) (t : Topology.t) :
  wf_userConfig uc →
  InferTopology uc = Ok t →
  (Topology.NetworkShape t = NetworkShapeFlat →
   ∀ name n, Topology.nm t !! name = Some n →
     PublicAddress n = Panic "node has no public address")
  ∧ (Topology.NetworkShape t = NetworkShapeDual →
     ∀ dc v m N k,
       (dc, v) ∈ userConfigTopology.Datacenters (userConfig.Topology uc) →
       dc = "dc" +:+ m → Atoi m = Some N → 1 ≤ k →
       (k ≤ userConfigTopologyDatacenter.Servers v →
        ∃ n, Node t (dc +:+ "-server" +:+ Itoa k) = Ok n
             ∧ PublicAddress n
               = Ok ("10.1." +:+ Itoa N +:+ "." +:+ Itoa (10 + k)))
       ∧ (k ≤ userConfigTopologyDatacenter.Clients v →
          ∃ n, Node t (dc +:+ "-client" +:+ Itoa k) = Ok n
               ∧ PublicAddress n
                 = if Node.MeshGateway n
                   then Ok ("10.1." +:+ Itoa N +:+ "." +:+ Itoa (20 + k))
                   else Panic "node has no public address")).
Proof.
  intros Hwf Hok.
  destruct (InferTopology_built _ _ Hwf Hok) as (shape & ds & Hb).
  rewrite (built_shape _ _ _ _ Hb). split; intros ->.
  - intros name n Hn.
    pose proof (proj1 (built_nm _ _ _ _ Hb name n) Hn) as [Hin _].
    destruct (built_node_dc_name _ _ _ _ n Hb Hin) as [m Hm].
    apply built_node_inv in Hin as (d & k & Hd & _ & [[_ Hn']|[_ Hn']]);
      rewrite PublicAddress_publicEntry; subst n; simpl in Hm.
    + by rewrite publicEntry_serverOf_flat.
    + rewrite Hm, publicEntry_clientOf by (by right).
      by rewrite andb_false_r.
  - intros dc v m N k Hin Hdc HN Hk1.
    destruct (built_entry _ _ _ _ Hb dc v Hin) as (d & Hd & Hname & HS & HC).
    rewrite Hdc in Hname.
    destruct (built_descriptor_of_name _ _ _ _ d m N Hb Hd Hname HN) as [_ Hwan].
    rewrite <-!string_app_assoc with (a := "10.1."). rewrite <-Hwan.
    rewrite Hdc, <-Hname. split; intros Hk.
    + exists (serverOf NetworkShapeDual (Datacenter.Name d) (Datacenter.BaseIP d)
                (Datacenter.WANBaseIP d) k).
      split.
      * apply (built_Node _ _ _ _ Hb (serverOf _ _ _ _ _)),
          (built_server_in uc _ ds d k Hd). lia.
      * rewrite PublicAddress_publicEntry, Hname.
        by rewrite publicEntry_serverOf_dual.
    + exists (clientOf (userConfigTopology.NodeConfig (userConfig.Topology uc))
                NetworkShapeDual (Datacenter.Name d) (Datacenter.BaseIP d)
                (Datacenter.WANBaseIP d) k).
      split.
      * apply (built_Node _ _ _ _ Hb (clientOf _ _ _ _ _ _)),
          (built_client_in uc _ ds d k Hd). lia.
      * rewrite PublicAddress_publicEntry, Hname.
        rewrite publicEntry_clientOf by (by left). simpl.
        rewrite andb_true_r.
        by destruct (userConfigTopologyNodeConfig.MeshGateway _).
Qed.

Lemma example_dual_wf : wf_userConfig example_dual.
Proof. unfold wf_userConfig. apply (bool_decide_unpack _). by vm_compute. Qed.

Lemma X6_witness :
  (∃ t n, InferTopology example_spec = Ok t
      ∧ Topology.nm t !! "dc1-server1" = Some n
      ∧ PublicAddress n = Panic "node has no public address")
  ∧ (∃ t n, InferTopology example_dual = Ok t
        ∧ Node t "dc1-client2" = Ok n
        ∧ PublicAddress n = Ok "10.1.1.22").
Proof.
  split.
  - eexists _, _. split; [reflexivity|]. split; [vm_compute; reflexivity|].
    destruct (X6_public_address example_spec _ example_spec_wf eq_refl) as [H _].
    apply (H eq_refl "dc1-server1"). vm_compute. reflexivity.
  - eexists _, _. split; [reflexivity|]. split; [vm_compute; reflexivity|].
    destruct (X6_public_address example_dual _ example_dual_wf eq_refl) as [_ H].
    destruct (H eq_refl "dc1" (dcv 1 2) "1" 1 2 (list_elem_of_here _ _)
                eq_refl eq_refl ltac:(lia)) as [_ H2].
    destruct H2 as (n & Hn & Hp); [simpl; lia|].
    vm_compute in Hn. injection Hn as <-. exact Hp.
Defined.

(** X7: every node of a built topology has exactly one of three roles: a
    server (no service, no gateway flag), a mesh-gateway client (no
    service) or a plain client carrying a service; the proxy override is
    only ever applied to plain clients. *)
Theorem X7_node_roles (uc : userConfig.t) (t : Topology.t)
    (name : string) (n : Node.t) :
  wf_userConfig uc →
  InferTopology uc = Ok t →
  Topology.nm t !! name = Some n →
  (Node.Server n = true ∧ Node.MeshGateway n = false
   ∧ Node.Service n = None ∧ Node.UseBuiltinProxy n = false)
  ∨ (Node.Server n = false ∧ Node.MeshGateway n = true
     ∧ Node.Service n = None ∧ Node.UseBuiltinProxy n = false)
  ∨ (Node.Server n = false ∧ Node.MeshGateway n = false
     ∧ is_Some (Node.Service n)
     ∧ Node.UseBuiltinProxy n
       = userConfigTopologyNodeConfig.UseBuiltinProxy
           (nodeConfigFor (userConfigTopology.NodeConfig (userConfig.Topology uc))
              name)).
Proof.
  intros Hwf Hok Hn.
  destruct (InferTopology_built _ _ Hwf Hok) as (shape & ds & Hb).
  pose proof (proj1 (built_nm _ _ _ _ Hb name n) Hn) as [Hin <-].
  apply built_node_inv in Hin as (d & k & _ & _ & [[_ ->]|[_ ->]]).
  - left. done.
  - right. unfold clientOf. simpl.
    destruct (userConfigTopologyNodeConfig.MeshGateway _); [left|right]; eauto.
Qed.

Lemma X7_witness :
  ∃ t n, InferTopology example_dual = Ok t
    ∧ Topology.nm t !! "dc1-client2" = Some n
    ∧ Node.Server n = false ∧ Node.MeshGateway n = true
    ∧ Node.Service n = None.
Proof.
  eexists _, _. split; [reflexivity|]. split; [vm_compute; reflexivity|].
  destruct (X7_node_roles example_dual _ "dc1-client2" _ example_dual_wf
              eq_refl ltac:(vm_compute; reflexivity))
    as [(H & _)|[(H1 & H2 & H3 & _)|(_ & H & _)]].
  - discriminate H.
  - split; [exact H1|]. split; [exact H2|exact H3].
  - discriminate H.
Defined.

(** ** Uniqueness of the local addresses *)

Lemma dot_split (a b x y : string) :
  all_digits a = true → all_digits b = true →
  a +:+ String "." x = b +:+ String "." y → a = b ∧ x = y.
Proof.
  revert b. induction a as [|c a IH]; intros [|c' b] Ha Hb E.
  - by injection E.
  - change ("" +:+ String "." x) with (String "." x) in E.
    change (String c' b +:+ String "." y) with (String c' (b +:+ String "." y)) in E.
    injection E as <- _. done.
  - change ("" +:+ String "." y) with (String "." y) in E.
    change (String c a +:+ String "." x) with (String c (a +:+ String "." x)) in E.
    injection E as -> _. done.
  - change (String c a +:+ String "." x) with (String c (a +:+ String "." x)) in E.
    change (String c' b +:+ String "." y) with (String c' (b +:+ String "." y)) in E.
    injection E as -> E. simpl in Ha, Hb.
    apply andb_prop in Ha as [_ Ha]. apply andb_prop in Hb as [_ Hb].
    destruct (IH b Ha Hb E) as [-> ->]. done.
Qed.

Lemma Atoi_digits_nonneg (m : string) (i : Z) :
  all_digits m = true → Atoi m = Some i → 0 ≤ i.
Proof.
  intros Hd H. unfold Atoi in H.
  assert (E : match m with
              | String "+" rest => digits_value rest
              | String "-" rest => Z.opp <$> digits_value rest
              | _ => digits_value m
              end = digits_value m).
  { destruct m as [|c r]; [done|].
    simpl in Hd. apply andb_prop in Hd as [Hc _].
    destruct c as [[] [] [] [] [] [] [] []]; try done. }
  rewrite E in H. unfold digits_value in H.
  destruct (NilZero.uint_of_string m) as [u|]; [|done]. simpl in H.
  destruct (_ && _); [|done]. injection H as <-.
  unfold Z.of_uint. apply N2Z.is_nonneg.
Qed.

Lemma descriptor_ok_index d : descriptor_ok d → 0 ≤ Datacenter.Index d.
Proof.
  intros (_ & _ & m & _ & Hm & _ & Hi & _). by eapply Atoi_digits_nonneg.
Qed.

(** Equal addresses come from equal datacenter numbers and equal last
    components. *)
Lemma address_inj (i i' s s' : Z) :
  0 ≤ i → 0 ≤ i' →
  @Ok string (("10.0." +:+ Itoa i) +:+ "." +:+ Itoa s)
  = Ok (("10.0." +:+ Itoa i') +:+ "." +:+ Itoa s') →
  i = i' ∧ s = s'.
Proof.
  intros Hi Hi' E.
  change (("10.0." +:+ Itoa i) +:+ "." +:+ Itoa s)
    with ("10.0." +:+ (Itoa i +:+ String "." (Itoa s))) in E.
  change (("10.0." +:+ Itoa i') +:+ "." +:+ Itoa s')
    with ("10.0." +:+ (Itoa i' +:+ String "." (Itoa s'))) in E.
  injection E as E.
  apply dot_split in E as [E1 E2]; [|by apply Itoa_digits..].
  split; by apply Itoa_inj.
Qed.

(** The local address of a built node, with the datacenter and the
    number it was made from. *)
Lemma built_node_address uc t shape ds n :
  built_from uc t shape ds →
  n ∈ ds ≫= nodesOf (userConfigTopology.NodeConfig (userConfig.Topology uc)) shape →
  ∃ d k, d ∈ ds ∧ 1 ≤ k
    ∧ (k ≤ Datacenter.Servers d ∧ Node.Name n = serverName (Datacenter.Name d) k
       ∧ LocalAddress n
         = Ok (("10.0." +:+ Itoa (Datacenter.Index d)) +:+ "." +:+ Itoa (10 + k))
       ∨ k ≤ Datacenter.Clients d ∧ Node.Name n = clientName (Datacenter.Name d) k
         ∧ LocalAddress n
           = Ok (("10.0." +:+ Itoa (Datacenter.Index d)) +:+ "." +:+ Itoa (20 + k))).
Proof.
  intros Hb Hn.
  pose proof (built_valid_shape _ _ _ _ Hb) as Hs.
  pose proof (built_descriptors _ _ _ _ Hb) as Hdok.
  rewrite Forall_forall in Hdok.
  apply built_node_inv in Hn as (d & k & Hd & Hk1 & [[Hk ->]|[Hk ->]]);
    exists d, k; (split; [done|]); (split; [done|]);
    destruct (Hdok d Hd) as (_ & _ & m & _ & _ & _ & _ & HB & _);
    [left|right]; (split; [done|]); (split; [done|]);
    rewrite LocalAddress_localEntry.
  - rewrite localEntry_serverOf by done. simpl. by rewrite HB.
  - rewrite localEntry_clientOf by done. simpl. by rewrite HB.
Qed.

(** X8: in a topology built from datacenters with pairwise different
    numbers, no two nodes have the same local address exactly when no
    datacenter has more than ten servers (the eleventh server of a
    datacenter gets the address of its first client). *)
Theorem X8_local_addresses_unique (uc : userConfig.t) (t : Topology.t) :
  wf_userConfig uc →
  InferTopology uc = Ok t →
  (∀ d d', d ∈ Datacenters t → d' ∈ Datacenters t →
     Datacenter.Index d = Datacenter.Index d' →
     Datacenter.Name d = Datacenter.Name d') →
  (∀ d, d ∈ Datacenters t → Datacenter.Servers d ≤ 10)
  ↔ (∀ name name' n n' ip,
       Topology.nm t !! name = Some n → Topology.nm t !! name' = Some n' →
       LocalAddress n = Ok ip → LocalAddress n' = Ok ip → name = name').
Proof.
  intros Hwf Hok.
  destruct (InferTopology_built _ _ Hwf Hok) as (shape & ds & Hb).
  unfold Datacenters. rewrite (built_dcs _ _ _ _ Hb).
  pose proof (built_descriptors _ _ _ _ Hb) as Hdok.
  rewrite Forall_forall in Hdok.
  intros Hidx. split.
  - intros Hmax name name' n n' ip Hn Hn' Ha Ha'.
    pose proof (proj1 (built_nm _ _ _ _ Hb name n) Hn) as [Hin <-].
    pose proof (proj1 (built_nm _ _ _ _ Hb name' n') Hn') as [Hin' <-].
    destruct (built_node_address _ _ _ _ _ Hb Hin)
      as (d & k & Hd & Hk1 & [(Hk & -> & E)|(Hk & -> & E)]);
      destruct (built_node_address _ _ _ _ _ Hb Hin')
        as (d' & k' & Hd' & Hk1' & [(Hk' & -> & E')|(Hk' & -> & E')]);
      rewrite E in Ha; rewrite E' in Ha'; rewrite <-Ha' in Ha;
      (apply address_inj in Ha as [Hi Hs];
         [|by apply descriptor_ok_index, Hdok..]);
      pose proof (Hidx d d' Hd Hd' Hi) as Hname;
      pose proof (Hmax d Hd); pose proof (Hmax d' Hd').
    + rewrite Hname. f_equal. lia.
    + lia.
    + lia.
    + rewrite Hname. f_equal. lia.
  - intros Hinj d Hd.
    destruct (Z.le_gt_cases (Datacenter.Servers d) 10) as [|Hbig]; [done|].
    exfalso.
    destruct (Hdok d Hd) as (_ & HC & _).
    pose proof (built_server_in uc shape ds d 11 Hd ltac:(lia)) as Hs.
    pose proof (built_client_in uc shape ds d 1 Hd ltac:(lia)) as Hc.
    destruct (built_node_address _ _ _ _ _ Hb Hs)
      as (d1 & k1 & Hd1 & _ & H1).
    pose proof (built_valid_shape _ _ _ _ Hb) as Hshape.
    destruct (Hdok d Hd) as (_ & _ & m & _ & _ & _ & _ & HB & _).
    eapply (serverName_clientName (Datacenter.Name d) (Datacenter.Name d) 11 1);
      [by apply descriptor_ok_no_dash, Hdok..|].
    eapply (Hinj _ _ _ _ (Datacenter.BaseIP d +:+ "." +:+ Itoa 21)).
    + apply (built_nm _ _ _ _ Hb). split; [exact Hs|done].
    + apply (built_nm _ _ _ _ Hb). split; [exact Hc|done].
    + by rewrite LocalAddress_localEntry, localEntry_serverOf.
    + by rewrite LocalAddress_localEntry, localEntry_clientOf.
Qed.

Lemma X8_witness :
  ∃ t, InferTopology example_spec = Ok t
    ∧ ∀ name name' n n' ip,
        Topology.nm t !! name = Some n → Topology.nm t !! name' = Some n' →
        LocalAddress n = Ok ip → LocalAddress n' = Ok ip → name = name'.
Proof.
  eexists. split; [reflexivity|].
  apply (X8_local_addresses_unique example_spec _ example_spec_wf eq_refl).
  - intros d d' Hd Hd'. apply list_elem_of_In in Hd, Hd'.
    vm_compute in Hd, Hd'.
    destruct Hd as [<-|[<-|[]]], Hd' as [<-|[<-|[]]];
      vm_compute; intros; congruence.
  - intros d Hd. apply list_elem_of_In in Hd. vm_compute in Hd.
    destruct Hd as [<-|[<-|[]]]; vm_compute; discriminate.
Defined.

(** ** The agent configuration *)

Lemma built_ServerIPs_of uc t shape ds d :
  built_from uc t shape ds → d ∈ ds →
  ServerIPs t (Datacenter.Name d)
  = Ok (serverLocalIPs (Datacenter.BaseIP d) (Datacenter.Servers d)).
Proof.
  intros Hb Hd. rewrite (built_ServerIPs_eq _ _ _ _ Hb).
  by rewrite (bind_select ds (λ d, serverLocalIPs (Datacenter.BaseIP d)
                                     (Datacenter.Servers d)) _
                (built_dc_names_NoDup _ _ _ _ Hb) Hd).
Qed.

Lemma built_leader_eq uc t shape ds d :
  built_from uc t shape ds → d ∈ ds →
  LeaderIP t (Datacenter.Name d) = Ok (Datacenter.BaseIP d +:+ ".11")
  ∧ (shape = NetworkShapeDual →
     WANLeaderIP t (Datacenter.Name d) = Ok (Datacenter.WANBaseIP d +:+ ".11")).
Proof.
  intros Hb Hd.
  pose proof (built_valid_shape _ _ _ _ Hb) as Hv.
  pose proof (built_descriptors _ _ _ _ Hb) as Hdok.
  rewrite Forall_forall in Hdok.
  destruct (Hdok d Hd) as (HS & _ & m & Hm & _).
  destruct (built_first_server _ _ _ _ d Hb Hd) as (pre & post & Hsrv & Hpre).
  set (n := serverOf shape (Datacenter.Name d) (Datacenter.BaseIP d)
              (Datacenter.WANBaseIP d) 1).
  assert (Hn : Node t (serverName (Datacenter.Name d) 1) = Ok n).
  { apply (built_Node _ _ _ _ Hb n), (built_server_in uc shape ds d 1 Hd). lia. }
  split.
  - unfold LeaderIP. rewrite Hsrv.
    rewrite (leader_loop_first t LocalAddress _ pre _ post n Hpre Hn eq_refl).
    unfold n. by rewrite LocalAddress_localEntry, localEntry_serverOf.
  - intros ->. unfold WANLeaderIP. rewrite Hsrv.
    rewrite (leader_loop_first t PublicAddress _ pre _ post n Hpre Hn eq_refl).
    unfold n. by rewrite PublicAddress_publicEntry, Hm, publicEntry_serverOf_dual.
Qed.

Lemma forEach_collect {A B} (f : A → res B) (g : A → B) (l : list A) acc :
  (∀ x, x ∈ l → f x = Ok (g x)) →
  forEach (λ ips x, ip ← f x; Ok (ips ++ [ip])) l acc = Ok (acc ++ (g <$> l)).
Proof.
  revert acc. induction l as [|x l IH]; intros acc H.
  - simpl. by rewrite app_nil_r.
  - cbn [forEach]. rewrite (H x) by left. cbn [mbind res_bind].
    rewrite IH by (intros; apply H; by right).
    by rewrite <-app_assoc.
Qed.

(** X9: the agent configuration generated for the server with index k of
    the datacenter dcN of a built topology: it advertises 10.0.N.(10+k),
    on the WAN 10.1.N.(10+k) under the dual shape and nothing under the
    flat shape; it joins the servers of its own datacenter and expects as
    many servers as the datacenter has; over the WAN it joins the first
    server of every datacenter in name order, by the public address under
    the dual shape and the local one under the flat shape; it is a
    secondary server exactly when its datacenter is not dc1; federation
    through gateways is off and the gateway addresses are never asked
    for. *)
Theorem X9_server_agent_config (uc : userConfig.t) (t : Topology.t)
    (config : FlatConfig.t)
    (GatewayAddrs : Topology.t → string → res (list string))
    (dc : string) (v : userConfigTopologyDatacenter.t) (m : string) (N k : Z) :
  wf_userConfig uc →
  InferTopology uc = Ok t →
  (dc, v) ∈ userConfigTopology.Datacenters (userConfig.Topology uc) →
  dc = "dc" +:+ m → Atoi m = Some N →
  1 ≤ k ≤ userConfigTopologyDatacenter.Servers v →
  let dual := String.eqb (Topology.NetworkShape t) NetworkShapeDual in
  ∃ n info,
    Node t (dc +:+ "-server" +:+ Itoa k) = Ok n
    ∧ generateAgentHCL config t GatewayAddrs n = Ok info
    ∧ consulAgentConfigInfo.Server info = true
    ∧ consulAgentConfigInfo.Datacenter info = dc
    ∧ consulAgentConfigInfo.AdvertiseAddr info
      = "10.0." +:+ Itoa N +:+ "." +:+ Itoa (10 + k)
    ∧ consulAgentConfigInfo.AdvertiseAddrWAN info
      = (if dual then "10.1." +:+ Itoa N +:+ "." +:+ Itoa (10 + k) else "")
    ∧ consulAgentConfigInfo.RetryJoin info
      = quoted_join ((λ j, "10.0." +:+ Itoa N +:+ "." +:+ Itoa (10 + j))
                       <$> seqZ 1 (userConfigTopologyDatacenter.Servers v))
    ∧ consulAgentConfigInfo.BootstrapExpect info
      = userConfigTopologyDatacenter.Servers v
    ∧ consulAgentConfigInfo.RetryJoinWAN info
      = quoted_join ((λ d, (if dual then "10.1." else "10.0.")
                           +:+ Itoa (Datacenter.Index d) +:+ ".11")
                       <$> Datacenters t)
    ∧ consulAgentConfigInfo.SecondaryServer info = negb (String.eqb dc "dc1")
    ∧ consulAgentConfigInfo.FederateViaGateway info = false
    ∧ consulAgentConfigInfo.PrimaryGateways info = ""
    ∧ consulAgentConfigInfo.MasterToken info = FlatConfig.InitialMasterToken config
    ∧ consulAgentConfigInfo.TLSFilePrefix info
      = dc +:+ "-server-consul-" +:+ Itoa (k - 1).
Proof.
  intros Hwf Hok Hin Hdc HN Hk dual. subst dual.
  destruct (InferTopology_built _ _ Hwf Hok) as (shape & ds & Hb).
  pose proof (built_valid_shape _ _ _ _ Hb) as Hv.
  pose proof (built_descriptors _ _ _ _ Hb) as Hdok.
  rewrite Forall_forall in Hdok.
  destruct (built_entry _ _ _ _ Hb dc v Hin) as (d & Hd & Hname & HS & HC).
  rewrite <-HS in *.
  destruct (built_descriptor_of_name _ _ _ _ d m N Hb Hd
              ltac:(by rewrite Hname) HN) as [HB HW].
  assert (HB' : ∀ j, "10.0." +:+ Itoa N +:+ "." +:+ Itoa j
                     = Datacenter.BaseIP d +:+ "." +:+ Itoa j).
  { intros j. by rewrite HB, string_app_assoc. }
  assert (HW' : ∀ j, "10.1." +:+ Itoa N +:+ "." +:+ Itoa j
                     = Datacenter.WANBaseIP d +:+ "." +:+ Itoa j).
  { intros j. by rewrite HW, string_app_assoc. }
  rewrite HB', HW'. setoid_rewrite HB'.
  rewrite (built_shape _ _ _ _ Hb), <-Hname.
  set (n := serverOf shape (Datacenter.Name d) (Datacenter.BaseIP d)
              (Datacenter.WANBaseIP d) k).
  assert (Hleaders :
    ∀ wan : bool, (wan = true → shape = NetworkShapeDual) →
      forEach (λ ips dc0, ip ← LeaderIP_new t (Datacenter.Name dc0) wan;
                          Ok (ips ++ [ip])) (Datacenters t) []
      = Ok ((λ d0, (if wan then "10.1." else "10.0.")
                   +:+ Itoa (Datacenter.Index d0) +:+ ".11") <$> Datacenters t)).
  { intros wan Hwan.
    rewrite (forEach_collect (λ dc0, LeaderIP_new t (Datacenter.Name dc0) wan)
               (λ d0, (if wan then "10.1." else "10.0.")
                      +:+ Itoa (Datacenter.Index d0) +:+ ".11")); [done|].
    intros d0 Hd0. unfold Datacenters in Hd0.
    rewrite (built_dcs _ _ _ _ Hb) in Hd0.
    destruct (built_leader_eq _ _ _ _ d0 Hb Hd0) as [HL HWL].
    destruct (Hdok d0 Hd0) as (_ & _ & m0 & _ & _ & _ & _ & HB0 & HW0).
    unfold LeaderIP_new. destruct wan.
    - rewrite (HWL (Hwan eq_refl)), HW0. by rewrite string_app_assoc.
    - rewrite HL, HB0. by rewrite string_app_assoc. }
  exists n.
  assert (Hn : Node t (Datacenter.Name d +:+ "-server" +:+ Itoa k) = Ok n).
  { apply (built_Node _ _ _ _ Hb n), (built_server_in uc shape ds d k Hd). lia. }
  assert (HLA : LocalAddress n = Ok (Datacenter.BaseIP d +:+ "." +:+ Itoa (10 + k))).
  { unfold n. by rewrite LocalAddress_localEntry, localEntry_serverOf. }
  assert (HSI : ServerIPs t (Node.Datacenter n)
                = Ok (serverLocalIPs (Datacenter.BaseIP d) (Datacenter.Servers d))).
  { apply (built_ServerIPs_of _ _ _ _ _ Hb Hd). }
  destruct (Hdok d Hd) as (_ & _ & m' & Hm' & _).
  assert (HPA : shape = NetworkShapeDual →
                PublicAddress n
                = Ok (Datacenter.WANBaseIP d +:+ "." +:+ Itoa (10 + k))).
  { intros ->. unfold n.
    by rewrite PublicAddress_publicEntry, Hm', publicEntry_serverOf_dual. }
  unfold generateAgentHCL. rewrite HLA, HSI. cbn [mbind res_bind].
  change (Node.Server n) with true. change (Node.Datacenter n) with (Datacenter.Name d).
  change (Node.Index n) with (k - 1).
  rewrite (built_shape _ _ _ _ Hb).
  destruct Hv as [-> | ->].
  - change (String.eqb NetworkShapeDual NetworkShapeIslands) with false.
    change (String.eqb NetworkShapeDual NetworkShapeDual) with true.
    cbv iota. rewrite (HPA eq_refl). cbn [mbind res_bind].
    rewrite (Hleaders true) by done. cbn [mbind res_bind].
    eexists. split; [done|]. split; [reflexivity|].
    cbn [consulAgentConfigInfo.Server consulAgentConfigInfo.Datacenter
         consulAgentConfigInfo.AdvertiseAddr consulAgentConfigInfo.AdvertiseAddrWAN
         consulAgentConfigInfo.RetryJoin consulAgentConfigInfo.BootstrapExpect
         consulAgentConfigInfo.RetryJoinWAN consulAgentConfigInfo.SecondaryServer
         consulAgentConfigInfo.FederateViaGateway
         consulAgentConfigInfo.PrimaryGateways consulAgentConfigInfo.MasterToken
         consulAgentConfigInfo.TLSFilePrefix].
    repeat (split; [done|]).
    split; [|done]. unfold serverLocalIPs. rewrite length_fmap, length_seqZ. lia.
  - change (String.eqb NetworkShapeFlat NetworkShapeIslands) with false.
    change (String.eqb NetworkShapeFlat NetworkShapeDual) with false.
    change (String.eqb NetworkShapeFlat NetworkShapeFlat) with true.
    cbv iota. cbn [mbind res_bind].
    rewrite (Hleaders false) by done. cbn [mbind res_bind].
    eexists. split; [done|]. split; [reflexivity|].
    cbn [consulAgentConfigInfo.Server consulAgentConfigInfo.Datacenter
         consulAgentConfigInfo.AdvertiseAddr consulAgentConfigInfo.AdvertiseAddrWAN
         consulAgentConfigInfo.RetryJoin consulAgentConfigInfo.BootstrapExpect
         consulAgentConfigInfo.RetryJoinWAN consulAgentConfigInfo.SecondaryServer
         consulAgentConfigInfo.FederateViaGateway
         consulAgentConfigInfo.PrimaryGateways consulAgentConfigInfo.MasterToken
         consulAgentConfigInfo.TLSFilePrefix].
    repeat (split; [done|]).
    split; [|done]. unfold serverLocalIPs. rewrite length_fmap, length_seqZ. lia.
Qed.


Lemma X9_witness :
  ∃ t n info, InferTopology example_dual = Ok t
    ∧ Node t "dc1-server1" = Ok n
    ∧ generateAgentHCL example_config t (λ _ _, Ok []) n = Ok info
    ∧ consulAgentConfigInfo.BootstrapExpect info = 1
    ∧ consulAgentConfigInfo.AdvertiseAddrWAN info = "10.1.1.11".
Proof.
  eexists _, _, _. split; [reflexivity|].
  split; [vm_compute; reflexivity|]. split; [vm_compute; reflexivity|].
  destruct (X9_server_agent_config example_dual _ example_config (λ _ _, Ok [])
              "dc1" (dcv 1 2) "1" 1 1 example_dual_wf eq_refl
              (list_elem_of_here _ _) eq_refl eq_refl ltac:(simpl; lia))
    as (n & info & Hn & Hg & _ & _ & _ & Hw & _ & He & _).
  vm_compute in Hn. injection Hn as <-.
  vm_compute in Hg. injection Hg as <-.
  split; [exact He|exact Hw].
Defined.

(** X10: the agent configuration generated for the client with index k of
    the datacenter dcN of a built topology: it advertises 10.0.N.(20+k)
    and joins the servers of its own datacenter; it has no WAN address
    (also when the node is a mesh gateway with a public address), no WAN
    join list, no master token, expects no servers and is never marked as
    a secondary server. *)
Theorem X10_client_agent_config (uc : userConfig.t) (t : Topology.t)
    (config : FlatConfig.t)
    (GatewayAddrs : Topology.t → string → res (list string))
    (dc : string) (v : userConfigTopologyDatacenter.t) (m : string) (N k : Z) :
  wf_userConfig uc →
  InferTopology uc = Ok t →
  (dc, v) ∈ userConfigTopology.Datacenters (userConfig.Topology uc) →
  dc = "dc" +:+ m → Atoi m = Some N →
  1 ≤ k ≤ userConfigTopologyDatacenter.Clients v →
  ∃ n info,
    Node t (dc +:+ "-client" +:+ Itoa k) = Ok n
    ∧ generateAgentHCL config t GatewayAddrs n = Ok info
    ∧ consulAgentConfigInfo.Server info = false
    ∧ consulAgentConfigInfo.Datacenter info = dc
    ∧ consulAgentConfigInfo.AdvertiseAddr info
      = "10.0." +:+ Itoa N +:+ "." +:+ Itoa (20 + k)
    ∧ consulAgentConfigInfo.AdvertiseAddrWAN info = ""
    ∧ consulAgentConfigInfo.RetryJoin info
      = quoted_join ((λ j, "10.0." +:+ Itoa N +:+ "." +:+ Itoa (10 + j))
                       <$> seqZ 1 (userConfigTopologyDatacenter.Servers v))
    ∧ consulAgentConfigInfo.BootstrapExpect info = 0
    ∧ consulAgentConfigInfo.RetryJoinWAN info = ""
    ∧ consulAgentConfigInfo.SecondaryServer info = false
    ∧ consulAgentConfigInfo.FederateViaGateway info = false
    ∧ consulAgentConfigInfo.PrimaryGateways info = ""
    ∧ consulAgentConfigInfo.MasterToken info = ""
    ∧ consulAgentConfigInfo.TLSFilePrefix info
      = dc +:+ "-client-consul-" +:+ Itoa (k - 1).
Proof.
  intros Hwf Hok Hin Hdc HN Hk.
  destruct (InferTopology_built _ _ Hwf Hok) as (shape & ds & Hb).
  pose proof (built_valid_shape _ _ _ _ Hb) as Hv.
  destruct (built_entry _ _ _ _ Hb dc v Hin) as (d & Hd & Hname & HS & HC).
  rewrite <-HS in *.
  destruct (built_descriptor_of_name _ _ _ _ d m N Hb Hd
              ltac:(by rewrite Hname) HN) as [HB HW].
  assert (HB' : ∀ j, "10.0." +:+ Itoa N +:+ "." +:+ Itoa j
                     = Datacenter.BaseIP d +:+ "." +:+ Itoa j).
  { intros j. by rewrite HB, string_app_assoc. }
  rewrite HB'. setoid_rewrite HB'. rewrite <-Hname.
  set (n := clientOf (userConfigTopology.NodeConfig (userConfig.Topology uc))
              shape (Datacenter.Name d) (Datacenter.BaseIP d)
              (Datacenter.WANBaseIP d) k).
  exists n.
  assert (Hn : Node t (Datacenter.Name d +:+ "-client" +:+ Itoa k) = Ok n).
  { apply (built_Node _ _ _ _ Hb n), (built_client_in uc shape ds d k Hd). lia. }
  assert (HLA : LocalAddress n = Ok (Datacenter.BaseIP d +:+ "." +:+ Itoa (20 + k))).
  { unfold n. by rewrite LocalAddress_localEntry, localEntry_clientOf. }
  assert (HSI : ServerIPs t (Node.Datacenter n)
                = Ok (serverLocalIPs (Datacenter.BaseIP d) (Datacenter.Servers d))).
  { apply (built_ServerIPs_of _ _ _ _ _ Hb Hd). }
  unfold generateAgentHCL. rewrite HLA, HSI. cbn [mbind res_bind].
  change (Node.Server n) with false. change (Node.Datacenter n) with (Datacenter.Name d).
  change (Node.Index n) with (k - 1). cbv iota.
  eexists. split; [done|]. split; [reflexivity|]. done.
Qed.

Lemma X10_witness :
  ∃ t n info, InferTopology example_dual = Ok t
    ∧ Node t "dc1-client2" = Ok n
    ∧ Node.MeshGateway n = true
    ∧ generateAgentHCL example_config t (λ _ _, Ok []) n = Ok info
    ∧ consulAgentConfigInfo.AdvertiseAddr info = "10.0.1.22"
    ∧ consulAgentConfigInfo.AdvertiseAddrWAN info = "".
Proof.
  eexists _, _, _. split; [reflexivity|].
  split; [vm_compute; reflexivity|]. split; [reflexivity|].
  split; [vm_compute; reflexivity|].
  destruct (X10_client_agent_config example_dual _ example_config (λ _ _, Ok [])
              "dc1" (dcv 1 2) "1" 1 2 example_dual_wf eq_refl
              (list_elem_of_here _ _) eq_refl eq_refl ltac:(simpl; lia))
    as (n & info & Hn & Hg & _ & _ & Ha & Hw & _).
  vm_compute in Hn. injection Hn as <-.
  vm_compute in Hg. injection Hg as <-.
  split; [exact Ha|exact Hw].
Defined.

(** ** The metrics scrape configuration *)

Lemma prometheusNode_nodeJobs config jobs node a :
  LocalAddress node = Ok a →
  prometheusNode config jobs node = Ok (foldl add jobs (nodeJobs config node)).
Proof.
  intros Ha. unfold prometheusNode, nodeJobs, localIP. rewrite Ha.
  cbn [mbind res_bind].
  destruct (Node.Server node); [done|].
  destruct (Node.MeshGateway node); [done|].
  by destruct (Node.Service node).
Qed.

Lemma forEach_prometheusNode config ns jobs :
  (∀ n, n ∈ ns → ∃ a, LocalAddress n = Ok a) →
  forEach (prometheusNode config) ns jobs
  = Ok (foldl add jobs (ns ≫= nodeJobs config)).
Proof.
  revert jobs. induction ns as [|n ns IH]; intros jobs H; [done|].
  cbn [forEach]. destruct (H n) as [a Ha]; [left|].
  rewrite (prometheusNode_nodeJobs _ _ _ _ Ha). cbn [mbind res_bind].
  rewrite IH by (intros; apply H; by right).
  by rewrite bind_cons, foldl_app.
Qed.

Lemma add_lookup_ne jobs j name :
  name ≠ job.Name j → add jobs j !! name = jobs !! name.
Proof.
  intros Hne. unfold add.
  destruct (jobs !! job.Name j); by rewrite lookup_insert_ne.
Qed.

Lemma targetsFor_nil name h :
  (∀ j, j ∈ h → job.Name j ≠ name) → targetsFor name h = [].
Proof.
  intros H. unfold targetsFor. induction h as [|x h IH]; [done|].
  rewrite bind_cons.
  destruct (String.eqb_spec (job.Name x) name) as [Ex|_].
  - exfalso. apply (H x); [left|done].
  - apply IH. intros j0 Hj0. apply H. by right.
Qed.

Lemma targetsFor_app name l1 l2 :
  targetsFor name (l1 ++ l2) = targetsFor name l1 ++ targetsFor name l2.
Proof. unfold targetsFor. apply bind_app. Qed.

Lemma added_add h jobs j : added h jobs → added (h ++ [j]) (add jobs j).
Proof.
  intros H name. specialize (H name).
  destruct (decide (name = job.Name j)) as [->|Hne].
  - unfold add. destruct (jobs !! job.Name j) as [prev|] eqn:E.
    + rewrite lookup_insert_eq. simpl. destruct H as (H1 & H2 & j0 & Hj0 & Hn).
      split; [done|]. split.
      * rewrite sort_Strings_perm, targetsFor_app, H2.
        unfold targetsFor at 2. simpl. by rewrite String.eqb_refl, app_nil_r.
      * exists j0. split; [|done]. apply elem_of_app. by left.
    + rewrite lookup_insert_eq. simpl. split; [done|]. split.
      * rewrite sort_Strings_perm, targetsFor_app.
        rewrite (targetsFor_nil _ h H).
        unfold targetsFor. simpl. by rewrite String.eqb_refl, app_nil_r.
      * exists j. split; [|done]. apply elem_of_app. right. left.
  - rewrite add_lookup_ne by done.
    assert (Ht : targetsFor name (h ++ [j]) = targetsFor name h).
    { rewrite targetsFor_app. unfold targetsFor at 2. simpl.
      destruct (String.eqb_spec (job.Name j) name); [congruence|].
      by rewrite app_nil_r. }
    destruct (jobs !! name) as [j'|].
    + destruct H as (H1 & H2 & j0 & Hj0 & Hn).
      split; [done|]. split; [by rewrite Ht|].
      exists j0. split; [|done]. apply elem_of_app. by left.
    + intros j0 [Hj0|Hj0%list_elem_of_singleton]%elem_of_app; [by apply H|].
      subst j0. congruence.
Qed.

Lemma added_foldl js : ∀ h jobs, added h jobs → added (h ++ js) (foldl add jobs js).
Proof.
  induction js as [|j js IH]; intros h jobs H.
  - by rewrite app_nil_r.
  - simpl. replace (h ++ j :: js) with ((h ++ [j]) ++ js) by (by rewrite <-app_assoc).
    by apply IH, added_add.
Qed.

Lemma added_empty : added [] ∅.
Proof. intros name. rewrite lookup_empty. by intros j Hj%elem_of_nil. Qed.

Lemma targetsFor_bind {A} name (f : A → list job.t) (l : list A) :
  targetsFor name (l ≫= f) = l ≫= λ x, targetsFor name (f x).
Proof.
  induction l as [|x l IH]; [done|].
  by rewrite !bind_cons, targetsFor_app, IH.
Qed.

Lemma bind_nil_all {A B} (f : A → list B) (l : list A) :
  (∀ x, x ∈ l → f x = []) → l ≫= f = [].
Proof.
  induction l as [|x l IH]; intros H; [done|].
  rewrite bind_cons, (H x) by left. apply IH. intros; apply H; by right.
Qed.

Lemma bind_singleton_fmap {A B} (f : A → list B) (g : A → B) (l : list A) :
  (∀ x, x ∈ l → f x = [g x]) → l ≫= f = g <$> l.
Proof.
  induction l as [|x l IH]; intros H; [done|].
  rewrite bind_cons, (H x) by left. csimpl. f_equal.
  apply IH. intros; apply H; by right.
Qed.

Lemma fmap_bind_comp {A B C} (f : A → B) (g : B → list C) (l : list A) :
  (f <$> l) ≫= g = l ≫= λ x, g (f x).
Proof. induction l as [|x l IH]; [done|]. csimpl. by rewrite IH. Qed.

Lemma has_colon_app a b : has_colon (a +:+ b) = has_colon a || has_colon b.
Proof.
  induction a as [|c a IH]; [done|].
  change (String c a +:+ b) with (String c (a +:+ b)). simpl.
  by rewrite IH, orb_assoc.
Qed.

Lemma digits_no_colon s : all_digits s = true → has_colon s = false.
Proof.
  induction s as [|c s IH]; [done|]. simpl.
  intros [Hc Hs]%andb_prop. rewrite (IH Hs), orb_false_r.
  destruct (Ascii.eqb_spec c ":") as [->|]; [done|done].
Qed.

Lemma JoinHostPort_address (i j : Z) (port : string) :
  0 ≤ i → 0 ≤ j →
  JoinHostPort (("10.0." +:+ Itoa i) +:+ "." +:+ Itoa j) port
  = "10.0." +:+ Itoa i +:+ "." +:+ Itoa j +:+ ":" +:+ port.
Proof.
  intros Hi Hj. unfold JoinHostPort.
  rewrite !has_colon_app.
  rewrite !(digits_no_colon (Itoa _)) by (by apply Itoa_digits).
  simpl. by rewrite <-!string_app_assoc.
Qed.

Lemma bind_bind {A B C} (f : A → list B) (g : B → list C) (l : list A) :
  (l ≫= f) ≫= g = l ≫= λ x, f x ≫= g.
Proof.
  induction l as [|x l IH]; [done|]. by rewrite !bind_cons, bind_app, IH.
Qed.

Lemma bind_ext_in {A B} (f g : A → list B) (l : list A) :
  (∀ x, x ∈ l → f x = g x) → l ≫= f = l ≫= g.
Proof.
  induction l as [|x l IH]; intros H; [done|].
  rewrite !bind_cons, (H x) by left. f_equal. apply IH. intros; apply H; by right.
Qed.

Lemma localIP_serverOf shape dc b w k :
  valid_shape shape →
  localIP (serverOf shape dc b w k) = b +:+ "." +:+ Itoa (10 + k).
Proof.
  intros Hv. unfold localIP.
  by rewrite LocalAddress_localEntry, localEntry_serverOf.
Qed.

Lemma localIP_clientOf cfgs shape dc b w k :
  valid_shape shape →
  localIP (clientOf cfgs shape dc b w k) = b +:+ "." +:+ Itoa (20 + k).
Proof.
  intros Hv. unfold localIP.
  by rewrite LocalAddress_localEntry, localEntry_clientOf.
Qed.

Lemma targets_servers_serverOf config shape dc dc0 b w k :
  valid_shape shape →
  targetsFor ("consul-servers-" +:+ dc0) (nodeJobs config (serverOf shape dc b w k))
  = if String.eqb dc dc0
    then [JoinHostPort (b +:+ "." +:+ Itoa (10 + k)) "8500"] else [].
Proof.
  intros Hv. unfold nodeJobs. rewrite localIP_serverOf by done.
  change (Node.Server (serverOf shape dc b w k)) with true. cbv iota.
  unfold targetsFor. rewrite bind_cons. csimpl. rewrite app_nil_r.
  change (Node.Datacenter (serverOf shape dc b w k)) with dc.
  cbn [job.Name job.Targets].
  change (String.eqb ("consul-servers-" +:+ dc) ("consul-servers-" +:+ dc0))
    with (String.eqb dc dc0).
  done.
Qed.

Lemma targets_clients_serverOf config shape dc dc0 b w k :
  targetsFor ("consul-clients-" +:+ dc0) (nodeJobs config (serverOf shape dc b w k))
  = [].
Proof. done. Qed.

Lemma targets_clients_clientOf config cfgs shape dc dc0 b w k :
  valid_shape shape →
  targetsFor ("consul-clients-" +:+ dc0)
    (nodeJobs config (clientOf cfgs shape dc b w k))
  = if String.eqb dc dc0
    then [JoinHostPort (b +:+ "." +:+ Itoa (20 + k)) "8500"] else [].
Proof.
  intros Hv. unfold nodeJobs. rewrite localIP_clientOf by done.
  change (Node.Server (clientOf cfgs shape dc b w k)) with false. cbv iota.
  change (Node.Datacenter (clientOf cfgs shape dc b w k)) with dc.
  unfold targetsFor. rewrite bind_cons.
  cbn [job.Name job.Targets].
  change (String.eqb ("consul-clients-" +:+ dc) ("consul-clients-" +:+ dc0))
    with (String.eqb dc dc0).
  rewrite bind_nil_all; [by rewrite app_nil_r|].
  intros j Hj. unfold clientOf in Hj. cbn [Node.MeshGateway Node.Service] in Hj.
  destruct (userConfigTopologyNodeConfig.MeshGateway _).
  - apply list_elem_of_singleton in Hj as ->. done.
  - apply list_elem_of_singleton in Hj as ->. cbn [job.Name Service.Name].
    by destruct (k `rem` 2 =? 1).
Qed.

Lemma targets_servers_clientOf config cfgs shape dc dc0 b w k :
  targetsFor ("consul-servers-" +:+ dc0)
    (nodeJobs config (clientOf cfgs shape dc b w k))
  = [].
Proof.
  unfold nodeJobs.
  change (Node.Server (clientOf cfgs shape dc b w k)) with false. cbv iota.
  unfold targetsFor. apply bind_nil_all. intros j Hj.
  apply elem_of_cons in Hj as [->|Hj]; [done|].
  unfold clientOf in Hj. cbn [Node.MeshGateway Node.Service] in Hj.
  destruct (userConfigTopologyNodeConfig.MeshGateway _).
  - apply list_elem_of_singleton in Hj as ->. done.
  - apply list_elem_of_singleton in Hj as ->. cbn [job.Name Service.Name].
    by destruct (k `rem` 2 =? 1).
Qed.

Lemma fmap_ext_in {A B} (f g : A → B) (l : list A) :
  (∀ x, x ∈ l → f x = g x) → f <$> l = g <$> l.
Proof.
  induction l as [|x l IH]; intros H; [done|].
  csimpl. rewrite (H x) by left. f_equal. apply IH. intros; apply H; by right.
Qed.

Lemma elem_of_sorted_jobs (jobs : gmap string job.t) name j :
  jobs !! name = Some j → j ∈ sort_Slice jobLess (snd <$> map_to_list jobs).
Proof.
  intros H. unfold sort_Slice. rewrite merge_sort_Permutation.
  apply list_elem_of_fmap. exists (name, j). split; [done|].
  by apply elem_of_map_to_list.
Qed.

Lemma sorted_jobs_elem_of (jobs : gmap string job.t) j :
  j ∈ sort_Slice jobLess (snd <$> map_to_list jobs) →
  ∃ name, jobs !! name = Some j.
Proof.
  unfold sort_Slice. rewrite merge_sort_Permutation.
  intros ([name j'] & -> & H)%list_elem_of_fmap.
  exists name. by apply elem_of_map_to_list.
Qed.

Section built_jobs.
Context (uc : userConfig.t) (t : Topology.t) (shape : string)
        (ds : list Datacenter.t) (config : FlatConfig.t).
Hypothesis Hbuilt : built_from uc t shape ds.

Lemma built_prometheus_jobs :
  ∃ jobs,
    generatePrometheusConfigFile config t
    = Ok (sort_Slice jobLess (snd <$> map_to_list jobs))
    ∧ added (walkOrder (userConfigTopology.NodeConfig (userConfig.Topology uc))
               shape ds ≫= nodeJobs config) jobs.
Proof.
  unfold generatePrometheusConfigFile.
  rewrite (built_Walk _ _ _ _ Hbuilt).
  rewrite forEach_prometheusNode.
  - cbn [mbind res_bind]. eexists. split; [done|].
    apply (added_foldl _ [] ∅ added_empty).
  - intros n Hn%(walkOrder_nodes uc shape ds).
    by apply (built_LocalAddress _ _ _ _ _ Hbuilt).
Qed.

Lemma built_targets_servers d :
  d ∈ ds →
  targetsFor ("consul-servers-" +:+ Datacenter.Name d)
    (walkOrder (userConfigTopology.NodeConfig (userConfig.Topology uc)) shape ds
       ≫= nodeJobs config)
  = (λ k, JoinHostPort (Datacenter.BaseIP d +:+ "." +:+ Itoa (10 + k)) "8500")
      <$> seqZ 1 (Datacenter.Servers d).
Proof.
  intros Hd. pose proof (built_valid_shape _ _ _ _ Hbuilt) as Hv.
  unfold walkOrder. rewrite bind_app, targetsFor_app, !targetsFor_bind, !bind_bind.
  match goal with |- _ ++ ?b = _ => assert (b = []) as -> end; [|rewrite app_nil_r].
  - apply bind_nil_all. intros d' _. unfold clientsOf. rewrite fmap_bind_comp.
    apply bind_nil_all. intros k _. apply targets_servers_clientOf.
  - rewrite <-(bind_select ds
                 (λ d, (λ k, JoinHostPort (Datacenter.BaseIP d +:+ "." +:+ Itoa (10 + k))
                               "8500") <$> seqZ 1 (Datacenter.Servers d)) d
                 (built_dc_names_NoDup _ _ _ _ Hbuilt) Hd).
    apply bind_ext_in. intros d' _. unfold serversOf. rewrite fmap_bind_comp.
    destruct (String.eqb (Datacenter.Name d') (Datacenter.Name d)) eqn:E.
    + apply bind_singleton_fmap. intros k _.
      by rewrite targets_servers_serverOf, E.
    + apply bind_nil_all. intros k _.
      by rewrite targets_servers_serverOf, E.
Qed.

Lemma built_targets_clients d :
  d ∈ ds →
  targetsFor ("consul-clients-" +:+ Datacenter.Name d)
    (walkOrder (userConfigTopology.NodeConfig (userConfig.Topology uc)) shape ds
       ≫= nodeJobs config)
  = (λ k, JoinHostPort (Datacenter.BaseIP d +:+ "." +:+ Itoa (20 + k)) "8500")
      <$> seqZ 1 (Datacenter.Clients d).
Proof.
  intros Hd. pose proof (built_valid_shape _ _ _ _ Hbuilt) as Hv.
  unfold walkOrder. rewrite bind_app, targetsFor_app, !targetsFor_bind, !bind_bind.
  match goal with |- ?a ++ _ = _ => assert (a = []) as -> end; [|rewrite app_nil_l].
  - apply bind_nil_all. intros d' _. unfold serversOf. rewrite fmap_bind_comp.
    apply bind_nil_all. intros k _. apply targets_clients_serverOf.
  - rewrite <-(bind_select ds
                 (λ d, (λ k, JoinHostPort (Datacenter.BaseIP d +:+ "." +:+ Itoa (20 + k))
                               "8500") <$> seqZ 1 (Datacenter.Clients d)) d
                 (built_dc_names_NoDup _ _ _ _ Hbuilt) Hd).
    apply bind_ext_in. intros d' _. unfold clientsOf. rewrite fmap_bind_comp.
    destruct (String.eqb (Datacenter.Name d') (Datacenter.Name d)) eqn:E.
    + apply bind_singleton_fmap. intros k _.
      by rewrite targets_clients_clientOf, E.
    + apply bind_nil_all. intros k _.
      by rewrite targets_clients_clientOf, E.
Qed.

Lemma built_job_for name targets :
  targetsFor name
    (walkOrder (userConfigTopology.NodeConfig (userConfig.Topology uc)) shape ds
       ≫= nodeJobs config) = targets →
  targets ≠ [] →
  ∀ jobs,
    added (walkOrder (userConfigTopology.NodeConfig (userConfig.Topology uc))
             shape ds ≫= nodeJobs config) jobs →
    ∃ j, j ∈ sort_Slice jobLess (snd <$> map_to_list jobs)
      ∧ job.Name j = name ∧ job.Targets j ≡ₚ targets.
Proof.
  intros Ht Hne jobs Hadd. specialize (Hadd name).
  destruct (jobs !! name) as [j|] eqn:E.
  - destruct Hadd as (H1 & H2 & _). exists j.
    split; [by eapply elem_of_sorted_jobs|]. split; [done|]. by rewrite H2, Ht.
  - exfalso. apply Hne. rewrite <-Ht. by apply targetsFor_nil.
Qed.
End built_jobs.

Lemma perm_of_eq {A} (l k : list A) : l = k → l ≡ₚ k.
Proof. by intros ->. Qed.

(** X11: the metrics scrape configuration generated for a built topology
    has, for every datacenter dcN of the input, one job
    consul-servers-dcN whose targets are the addresses
    10.0.N.(10+k):8500 of the datacenter's servers and one job
    consul-clients-dcN whose targets are the addresses
    10.0.N.(20+k):8500 of its clients. *)
Theorem X11_prometheus_targets (uc : userConfig.t) (t : Topology.t)
    (config : FlatConfig.t)
    (dc : string) (v : userConfigTopologyDatacenter.t) (m : string) (N : Z) :
  wf_userConfig uc →
  InferTopology uc = Ok t →
  (dc, v) ∈ userConfigTopology.Datacenters (userConfig.Topology uc) →
  dc = "dc" +:+ m → Atoi m = Some N →
  ∃ out js jc,
    generatePrometheusConfigFile config t = Ok out
    ∧ js ∈ out ∧ job.Name js = "consul-servers-" +:+ dc
    ∧ job.Targets js
      ≡ₚ (λ k, "10.0." +:+ Itoa N +:+ "." +:+ Itoa (10 + k) +:+ ":8500")
           <$> seqZ 1 (userConfigTopologyDatacenter.Servers v)
    ∧ jc ∈ out ∧ job.Name jc = "consul-clients-" +:+ dc
    ∧ job.Targets jc
      ≡ₚ (λ k, "10.0." +:+ Itoa N +:+ "." +:+ Itoa (20 + k) +:+ ":8500")
           <$> seqZ 1 (userConfigTopologyDatacenter.Clients v).
Proof.
  intros Hwf Hok Hin Hdc HN.
  destruct (InferTopology_built _ _ Hwf Hok) as (shape & ds & Hb).
  destruct (built_entry _ _ _ _ Hb dc v Hin) as (d & Hd & Hname & HS & HC).
  destruct (built_descriptor_of_name _ _ _ _ d m N Hb Hd
              ltac:(by rewrite Hname) HN) as [HB _].
  pose proof (built_descriptors _ _ _ _ Hb) as Hdok.
  rewrite Forall_forall in Hdok.
  destruct (Hdok d Hd) as (HS0 & HC0 & m' & Hm' & Hdig & _).
  assert (HN0 : 0 ≤ N).
  { rewrite Hname, Hdc in Hm'. assert (m = m') as <- by (by injection Hm').
    by eapply Atoi_digits_nonneg. }
  rewrite <-HS, <-HC, <-Hname.
  destruct (built_prometheus_jobs _ _ _ _ config Hb) as (jobs & -> & Hadd).
  assert (Hne : ∀ (f : Z → string) n, 0 < n → f <$> seqZ 1 n ≠ []).
  { intros f n Hn E. apply (f_equal length) in E.
    rewrite length_fmap, length_seqZ in E. simpl in E. lia. }
  destruct (built_job_for _ _ _ config _ _
              (built_targets_servers _ _ _ _ config Hb d Hd) (Hne _ _ HS0) jobs Hadd)
    as (js & Hjs & Hns & Hts).
  destruct (built_job_for _ _ _ config _ _
              (built_targets_clients _ _ _ _ config Hb d Hd) (Hne _ _ HC0) jobs Hadd)
    as (jc & Hjc & Hnc & Htc).
  eexists. exists js, jc. split; [reflexivity|].
  split; [done|]. split; [done|]. split.
  { rewrite Hts. apply perm_of_eq, fmap_ext_in.
    intros k Hk%elem_of_seqZ. rewrite HB. apply JoinHostPort_address; lia. }
  split; [done|]. split; [done|].
  rewrite Htc. apply perm_of_eq, fmap_ext_in.
  intros k Hk%elem_of_seqZ. rewrite HB. apply JoinHostPort_address; lia.
Qed.

Lemma X11_witness :
  ∃ t, InferTopology example_two_servers = Ok t
    ∧ ∃ out js jc,
        generatePrometheusConfigFile example_config t = Ok out
        ∧ js ∈ out ∧ job.Name js = "consul-servers-dc1"
        ∧ job.Targets js ≡ₚ ["10.0.1.11:8500"; "10.0.1.12:8500"]
        ∧ jc ∈ out ∧ job.Name jc = "consul-clients-dc1"
        ∧ job.Targets jc ≡ₚ ["10.0.1.21:8500"].
Proof.
  eexists. split; [reflexivity|].
  exact (X11_prometheus_targets example_two_servers _ example_config
           "dc1" (dcv 2 1) "1" 1 example_two_servers_wf eq_refl
           (list_elem_of_here _ _) eq_refl eq_refl).
Defined.

(** X12: every job of the metrics scrape configuration generated for a
    built topology is named consul-servers-<dc>, consul-clients-<dc> or
    mesh-gateways-<dc> for a datacenter of the input, or ping-proxy or
    pong-proxy: the two proxy jobs are shared by all datacenters. *)
Theorem X12_prometheus_job_names (uc : userConfig.t) (t : Topology.t)
    (config : FlatConfig.t) :
  wf_userConfig uc →
  InferTopology uc = Ok t →
  ∃ out,
    generatePrometheusConfigFile config t = Ok out
    ∧ ∀ j, j ∈ out →
        (∃ dc, dc ∈ fst <$> userConfigTopology.Datacenters (userConfig.Topology uc)
           ∧ (job.Name j = "consul-servers-" +:+ dc
              ∨ job.Name j = "consul-clients-" +:+ dc
              ∨ job.Name j = "mesh-gateways-" +:+ dc))
        ∨ job.Name j = "ping-proxy" ∨ job.Name j = "pong-proxy".
Proof.
  intros Hwf Hok.
  destruct (InferTopology_built _ _ Hwf Hok) as (shape & ds & Hb).
  destruct (built_prometheus_jobs _ _ _ _ config Hb) as (jobs & -> & Hadd).
  eexists. split; [reflexivity|].
  intros j (name & Hj)%sorted_jobs_elem_of.
  specialize (Hadd name). rewrite Hj in Hadd.
  destruct Hadd as (Hnj & _ & j0 & Hj0 & Hn0).
  rewrite Hnj, <-Hn0. clear Hnj Hn0 Hj.
  apply list_elem_of_bind in Hj0 as (n & Hj0 & Hn).
  apply (walkOrder_nodes uc shape ds) in Hn.
  pose proof (built_node_datacenter uc shape ds n Hn) as Hdc.
  rewrite (built_dc_names _ _ _ _ Hb) in Hdc.
  unfold nodeJobs in Hj0.
  apply built_node_inv in Hn as (d & k & Hd & _ & [[_ ->]|[_ ->]]).
  - apply list_elem_of_singleton in Hj0 as ->. left. eexists. split; [exact Hdc|].
    by left.
  - change (Node.Server (clientOf _ _ _ _ _ _)) with false in Hj0. cbv iota in Hj0.
    apply elem_of_cons in Hj0 as [->|Hj0].
    { left. eexists. split; [exact Hdc|]. right. by left. }
    unfold clientOf in Hj0. cbn [Node.MeshGateway Node.Service] in Hj0.
    destruct (userConfigTopologyNodeConfig.MeshGateway _).
    + apply list_elem_of_singleton in Hj0 as ->.
      left. eexists. split; [exact Hdc|]. right. by right.
    + apply list_elem_of_singleton in Hj0 as ->. right.
      cbn [job.Name Service.Name]. destruct (k `rem` 2 =? 1); [by left|by right].
Qed.

Lemma X12_witness :
  ∃ t out, InferTopology example_spec = Ok t
    ∧ generatePrometheusConfigFile example_config t = Ok out
    ∧ ∀ j, j ∈ out →
        (∃ dc, dc ∈ ["dc2"; "dc1"]
           ∧ (job.Name j = "consul-servers-" +:+ dc
              ∨ job.Name j = "consul-clients-" +:+ dc
              ∨ job.Name j = "mesh-gateways-" +:+ dc))
        ∨ job.Name j = "ping-proxy" ∨ job.Name j = "pong-proxy".
Proof.
  eexists _, _. split; [reflexivity|].
  destruct (X12_prometheus_job_names example_spec _ example_config
              example_spec_wf eq_refl) as (out & Hout & H).
  split; [vm_compute; reflexivity|].
  vm_compute in Hout. injection Hout as <-. exact H.
Defined.

(** ** The service names and the volumes of the manifest *)

Lemma string_app_nil_r (a : string) : a +:+ "" = a.
Proof.
  induction a as [|c a IH]; [done|].
  change (String c a +:+ "") with (String c (a +:+ "")). by rewrite IH.
Qed.

Lemma string_app_inv_head (a x y : string) : a +:+ x = a +:+ y → x = y.
Proof.
  induction a as [|c a IH]; [done|].
  change (String c a +:+ x) with (String c (a +:+ x)).
  change (String c a +:+ y) with (String c (a +:+ y)).
  intros [= E]. by apply IH.
Qed.

Lemma no_dash_app_dash (b y : string) : no_dash (b +:+ String "-" y) = false.
Proof.
  induction b as [|c b IH]; [done|].
  change (String c b +:+ String "-" y) with (String c (b +:+ String "-" y)).
  simpl. by rewrite IH, andb_false_r.
Qed.

Lemma no_dash_suffix_split (a b s s' : string) :
  no_dash a = true → no_dash b = true → suffix_ok s → suffix_ok s' →
  a +:+ s = b +:+ s' → a = b ∧ s = s'.
Proof.
  intros Ha Hb [->|[x ->]] [->|[y ->]] E.
  - rewrite !string_app_nil_r in E. by split.
  - rewrite string_app_nil_r in E. rewrite E, no_dash_app_dash in Ha. done.
  - rewrite string_app_nil_r in E. rewrite <-E, no_dash_app_dash in Hb. done.
  - by destruct (dash_split _ _ _ _ Ha Hb E) as [-> ->].
Qed.

Lemma names_expectedServices (n : Node.t) :
  composeService.Name <$> expectedServices n
  = (λ s, Node.Name n +:+ s) <$> serviceSuffixes n.
Proof.
  unfold expectedServices, serviceSuffixes.
  rewrite !fmap_app. csimpl. rewrite string_app_nil_r. do 2 f_equal.
  f_equal.
  - by destruct (Node.MeshGateway n).
  - destruct (Node.Service n) as [svc|]; [|done]. csimpl.
    by rewrite string_app_assoc.
Qed.

Section built_names.
Context (uc : userConfig.t) (t : Topology.t) (shape : string)
        (ds : list Datacenter.t).
Hypothesis Hbuilt : built_from uc t shape ds.

Lemma built_name_suffix_inj n n' s s' :
  n ∈ ds ≫= nodesOf (userConfigTopology.NodeConfig (userConfig.Topology uc)) shape →
  n' ∈ ds ≫= nodesOf (userConfigTopology.NodeConfig (userConfig.Topology uc)) shape →
  suffix_ok s → suffix_ok s' →
  Node.Name n +:+ s = Node.Name n' +:+ s' →
  Node.Name n = Node.Name n' ∧ s = s'.
Proof.
  intros Hn Hn' Hs Hs' E.
  pose proof (built_descriptors _ _ _ _ Hbuilt) as Hdok.
  rewrite Forall_forall in Hdok.
  apply built_node_inv in Hn as (d & k & Hd & Hk & Hn).
  apply built_node_inv in Hn' as (d' & k' & Hd' & Hk' & Hn').
  pose proof (descriptor_ok_no_dash d (Hdok d Hd)) as Hnd.
  pose proof (descriptor_ok_no_dash d' (Hdok d' Hd')) as Hnd'.
  assert (Hi : no_dash (Itoa k) = true) by (apply digits_no_dash, Itoa_digits; lia).
  assert (Hi' : no_dash (Itoa k') = true) by (apply digits_no_dash, Itoa_digits; lia).
  destruct Hn as [[_ ->]|[_ ->]], Hn' as [[_ ->]|[_ ->]];
    cbn [Node.Name serverOf clientOf] in *;
    unfold serverName, clientName in *;
    rewrite !string_app_assoc in E;
    apply dash_split in E as [Edc E]; try done;
    simpl in E; try discriminate E;
    injection E as E;
    apply no_dash_suffix_split in E as [Ek ->]; try done;
    by rewrite Edc, Ek.
Qed.
End built_names.

Lemma walkOrder_perm cfgs shape (ds : list Datacenter.t) :
  walkOrder cfgs shape ds ≡ₚ ds ≫= nodesOf cfgs shape.
Proof.
  unfold walkOrder. induction ds as [|d ds IH]; [done|].
  rewrite !bind_cons. unfold nodesOf at 1. rewrite <-IH.
  rewrite <-!app_assoc. apply Permutation_app_head.
  rewrite !app_assoc. apply Permutation_app_tail, Permutation_app_comm.
Qed.

Section built_services.
Context (uc : userConfig.t) (t : Topology.t) (shape : string)
        (ds : list Datacenter.t).
Hypothesis Hbuilt : built_from uc t shape ds.

Lemma built_suffixes n :
  n ∈ ds ≫= nodesOf (userConfigTopology.NodeConfig (userConfig.Topology uc)) shape →
  Forall suffix_ok (serviceSuffixes n) ∧ NoDup (serviceSuffixes n).
Proof.
  intros Hn. unfold serviceSuffixes.
  destruct (Node.Service n) as [svc|] eqn:Hsvc.
  - destruct (built_service_name _ _ _ n svc Hn Hsvc) as [_ Hname].
    assert (Hgw : Node.MeshGateway n = false).
    { apply built_node_inv in Hn as (d & k & _ & _ & [[_ ->]|[_ ->]]); [done|].
      unfold clientOf in *. simpl in *.
      by destruct (userConfigTopologyNodeConfig.MeshGateway _). }
    rewrite Hgw. split.
    + repeat apply Forall_cons_2; try apply Forall_nil_2;
        solve [by left | right; eexists; reflexivity].
    + destruct Hname as [-> | ->]; apply (bool_decide_unpack _); by vm_compute.
  - split.
    + destruct (Node.MeshGateway n);
        repeat apply Forall_cons_2; try apply Forall_nil_2;
        solve [by left | right; eexists; reflexivity].
    + destruct (Node.MeshGateway n); apply (bool_decide_unpack _); by vm_compute.
Qed.

Lemma built_service_names_NoDup :
  NoDup (composeService.Name <$>
           (walkOrder (userConfigTopology.NodeConfig (userConfig.Topology uc)) shape ds
              ≫= expectedServices)).
Proof.
  set (cfgs := userConfigTopology.NodeConfig (userConfig.Topology uc)).
  assert (E : composeService.Name <$> (walkOrder cfgs shape ds ≫= expectedServices)
              = walkOrder cfgs shape ds
                  ≫= λ n, (λ s, Node.Name n +:+ s) <$> serviceSuffixes n).
  { induction (walkOrder cfgs shape ds) as [|n l IH]; [done|].
    rewrite !bind_cons, fmap_app, IH. by rewrite names_expectedServices. }
  rewrite E. clear E.
  pose proof (built_names_NoDup _ _ _ _ Hbuilt) as Hnd. fold cfgs in Hnd.
  rewrite <-walkOrder_perm in Hnd.
  apply NoDup_bind.
  - intros n n' y Hn%(walkOrder_nodes uc shape ds) Hn'%(walkOrder_nodes uc shape ds)
      (s & -> & Hs)%list_elem_of_fmap (s' & E & Hs')%list_elem_of_fmap.
    destruct (built_suffixes n Hn) as [Hok _].
    destruct (built_suffixes n' Hn') as [Hok' _].
    rewrite Forall_forall in Hok, Hok'.
    destruct (built_name_suffix_inj _ _ _ _ Hbuilt n n' s s' Hn Hn'
                (Hok s Hs) (Hok' s' Hs') E) as [En _].
    pose proof (proj2 (built_nm _ _ _ _ Hbuilt _ n) (conj Hn eq_refl)) as H1.
    pose proof (proj2 (built_nm _ _ _ _ Hbuilt _ n') (conj Hn' eq_refl)) as H2.
    rewrite En in H1. rewrite H1 in H2. by injection H2.
  - intros n Hn%(walkOrder_nodes uc shape ds).
    apply NoDup_fmap_2; [|apply (built_suffixes n Hn)].
    intros x y. apply string_app_inv_head.
  - by apply NoDup_fmap_1 in Hnd.
Qed.
End built_services.

(** X13: the manifest generated for a built topology declares no service
    name twice: the names of the pause containers, agents, mesh gateways,
    applications and sidecars of all nodes are pairwise different. *)
Theorem X13_manifest_names_unique (uc : userConfig.t) (t : Topology.t)
    (config : FlatConfig.t)
    (GatewayAddrs : Topology.t → string → res (list string)) :
  wf_userConfig uc →
  InferTopology uc = Ok t →
  ∃ services,
    generateComposeFile config t GatewayAddrs = Ok services
    ∧ NoDup (composeService.Name <$> services).
Proof.
  intros Hwf Hok.
  destruct (InferTopology_built _ _ Hwf Hok) as (shape & ds & Hb).
  eexists. split; [apply (built_generateComposeFile _ _ _ _ _ _ Hb)|].
  apply (built_service_names_NoDup _ _ _ _ Hb).
Qed.

Lemma X13_witness :
  ∃ t services, InferTopology example_dual = Ok t
    ∧ generateComposeFile example_config t (λ _ _, Ok []) = Ok services
    ∧ NoDup (composeService.Name <$> services).
Proof.
  eexists _, _. split; [reflexivity|].
  destruct (X13_manifest_names_unique example_dual _ example_config (λ _ _, Ok [])
              example_dual_wf eq_refl) as (services & Hs & Hnd).
  split; [vm_compute; reflexivity|].
  vm_compute in Hs. injection Hs as <-. exact Hnd.
Defined.

Lemma forEach_composeNodeInfo config GatewayAddrs uc t shape ds l vols pods :
  built_from uc t shape ds →
  (∀ n, n ∈ l →
     n ∈ ds ≫= nodesOf (userConfigTopology.NodeConfig (userConfig.Topology uc)) shape) →
  ∃ pods',
    forEach (composeNodeInfo config t GatewayAddrs) l (vols, pods)
    = Ok (vols ++ (Node.Name <$> l), pods ++ pods')
    ∧ forEach (composeNode config t GatewayAddrs) l pods = Ok (pods ++ pods')
    ∧ composePod.PodName <$> pods' = (λ n, Node.Name n +:+ "-pod") <$> l.
Proof.
  intros Hb. revert vols pods. induction l as [|n l IH]; intros vols pods Hl.
  - exists []. by rewrite !app_nil_r.
  - cbn [forEach]. unfold composeNodeInfo at 2. cbn [fst snd].
    destruct (built_composeNode config GatewayAddrs _ _ _ _ n pods Hb
                ltac:(apply Hl; left)) as (pod & -> & Hpod).
    cbn [mbind res_bind].
    destruct (IH (vols ++ [Node.Name n]) (pods ++ [pod])
                ltac:(intros; apply Hl; by right)) as (pods' & -> & -> & Hn).
    exists (pod :: pods'). rewrite <-!app_assoc. split; [done|]. split; [done|].
    csimpl. rewrite Hn. f_equal.
    unfold podServices, expectedServices in Hpod. by injection Hpod.
Qed.

(** X14: for a built topology the manifest declares one volume per node,
    named like the node and in walking order, after the two volumes of the
    metrics stack when that is enabled; no volume is declared twice; the
    pods are named <node>-pod in the same order, and they are the pods the
    service entries are generated from. *)
Theorem X14_manifest_volumes (uc : userConfig.t) (t : Topology.t)
    (config : FlatConfig.t)
    (GatewayAddrs : Topology.t → string → res (list string)) :
  wf_userConfig uc →
  InferTopology uc = Ok t →
  ∃ vols pods,
    generateComposeInfo config t GatewayAddrs = Ok (vols, pods)
    ∧ vols = (if FlatConfig.PrometheusEnabled config
              then ["prometheus-data"; "grafana-data"] else []) ++ all t
    ∧ NoDup vols
    ∧ composePod.PodName <$> pods = (λ name, name +:+ "-pod") <$> all t
    ∧ generateComposeFile config t GatewayAddrs
      = Ok (concat (podServices <$> pods)).
Proof.
  intros Hwf Hok.
  destruct (InferTopology_built _ _ Hwf Hok) as (shape & ds & Hb).
  set (cfgs := userConfigTopology.NodeConfig (userConfig.Topology uc)).
  unfold generateComposeInfo, generateComposeFile.
  rewrite !(built_Walk _ _ _ _ Hb). fold cfgs.
  destruct (forEach_composeNodeInfo config GatewayAddrs uc t shape ds
              (walkOrder cfgs shape ds)
              (if FlatConfig.PrometheusEnabled config
               then [] ++ ["prometheus-data"] ++ ["grafana-data"] else [])
              [] Hb) as (pods & -> & -> & Hpods).
  { intros n. apply walkOrder_nodes. }
  exists ((if FlatConfig.PrometheusEnabled config
           then ["prometheus-data"; "grafana-data"] else []) ++ all t), pods.
  rewrite (built_all _ _ _ _ Hb). fold cfgs.
  split; [by destruct (FlatConfig.PrometheusEnabled config)|].
  split; [done|]. split; [|split; [|done]].
  - pose proof (built_names_NoDup _ _ _ _ Hb) as Hnd. fold cfgs in Hnd.
    rewrite <-walkOrder_perm in Hnd.
    apply NoDup_app. split; [|split; [|done]].
    + destruct (FlatConfig.PrometheusEnabled config);
        apply (bool_decide_unpack _); by vm_compute.
    + intros x Hx (n & -> & Hn%(walkOrder_nodes uc shape ds))%list_elem_of_fmap.
      destruct (built_name_last_digit _ _ _ n Hn) as (c & Hc & Hdig).
      destruct (FlatConfig.PrometheusEnabled config); [|by apply elem_of_nil in Hx].
      apply elem_of_cons in Hx as [Hx|Hx%list_elem_of_singleton];
        rewrite Hx in Hc; vm_compute in Hc; injection Hc as <-; done.
  - rewrite Hpods. by rewrite <-list_fmap_compose.
Qed.

Lemma X14_witness :
  ∃ t vols pods, InferTopology example_two_servers = Ok t
    ∧ generateComposeInfo example_config t (λ _ _, Ok []) = Ok (vols, pods)
    ∧ vols = ["prometheus-data"; "grafana-data";
              "dc1-server1"; "dc1-server2"; "dc1-client1"]
    ∧ NoDup vols.
Proof.
  eexists _, _, _. split; [reflexivity|].
  destruct (X14_manifest_volumes example_two_servers _ example_config (λ _ _, Ok [])
              example_two_servers_wf eq_refl) as (vols & pods & Hg & Hv & Hnd & _).
  split; [vm_compute; reflexivity|].
  vm_compute in Hg. injection Hg as <- <-.
  split; [exact Hv|exact Hnd].
Defined.

(** ** Datacenter numbers *)

Lemma Atoi_Itoa_range (i : Z) :
  0 ≤ i → Atoi (Itoa i) = if i <=? MaxInt then Some i else None.
Proof.
  intros Hi.
  assert (Hd : all_digits (Itoa i) = true) by (by apply Itoa_digits).
  assert (Hv := digits_value_Itoa i Hi).
  unfold Atoi.
  assert (E : match Itoa i with
              | String "+" rest => digits_value rest
              | String "-" rest => Z.opp <$> digits_value rest
              | _ => digits_value (Itoa i)
              end = Some i).
  { destruct (Itoa i) as [|c r] eqn:Es; [done|].
    simpl in Hd. apply andb_prop in Hd as [Hc _].
    destruct c as [[] [] [] [] [] [] [] []]; try done. }
  rewrite E. simpl.
  unfold MinInt, MaxInt in *.
  destruct (Z.leb_spec (- 2 ^ 63) i), (Z.leb_spec i (2 ^ 63 - 1)); simpl; try lia;
    done.
Qed.

(** X15: the loop body of the validation accepts the name dcN for every
    number N from 0 to the largest int, with the index N and the address
    prefixes 10.0.N and 10.1.N (there is no check that N fits an address
    component), and rejects it as an invalid name for every larger N. *)
Theorem X15_datacenter_number (dcs : list Datacenter.t)
    (v : userConfigTopologyDatacenter.t) (N : Z) :
  0 < userConfigTopologyDatacenter.Servers v →
  0 < userConfigTopologyDatacenter.Clients v →
  0 ≤ N →
  rangeDatacenter dcs ("dc" +:+ Itoa N, v)
  = if N <=? MaxInt
    then Ok (dcs ++ [Datacenter.mk ("dc" +:+ Itoa N) (N =? 1) N
                       (userConfigTopologyDatacenter.Servers v)
                       (userConfigTopologyDatacenter.Clients v)
                       ("10.0." +:+ Itoa N) ("10.1." +:+ Itoa N)])
    else Err (ErrInvalidDatacenterName ("dc" +:+ Itoa N)).
Proof.
  intros HS HC HN. unfold rangeDatacenter.
  destruct (Z.leb_spec (userConfigTopologyDatacenter.Servers v) 0); [lia|].
  destruct (Z.leb_spec (userConfigTopologyDatacenter.Clients v) 0); [lia|].
  rewrite dcPatt_Itoa, Atoi_Itoa_range by done.
  destruct (N <=? MaxInt); [|done].
  do 3 f_equal. f_equal.
  change PrimaryDC with ("dc" +:+ Itoa 1).
  change (String.eqb ("dc" +:+ Itoa N) ("dc" +:+ Itoa 1))
    with (String.eqb (Itoa N) (Itoa 1)).
  destruct (String.eqb_spec (Itoa N) (Itoa 1)) as [E%Itoa_inj| E].
  - subst. done.
  - destruct (Z.eqb_spec N 1); [by subst|done].
Qed.

Lemma X15_witness :
  rangeDatacenter [] ("dc256", dcv 1 1)
  = Ok [Datacenter.mk "dc256" false 256 1 1 "10.0.256" "10.1.256"]
  ∧ rangeDatacenter [] ("dc9223372036854775808", dcv 1 1)
    = Err (ErrInvalidDatacenterName "dc9223372036854775808").
Proof.
  split.
  - exact (X15_datacenter_number [] (dcv 1 1) 256
             ltac:(simpl; lia) ltac:(simpl; lia) ltac:(lia)).
  - exact (X15_datacenter_number [] (dcv 1 1) 9223372036854775808
             ltac:(simpl; lia) ltac:(simpl; lia) ltac:(lia)).
Defined.

(** X16: two datacenters of the input whose names carry the same number
    (dc1 and dc01, say) are both built, and their first servers are
    different nodes with the same local address; under the flat shape
    their whole address lists are equal. *)
Theorem X16_same_number_collision (uc : userConfig.t) (t : Topology.t)
    (dc dc' : string) (v v' : userConfigTopologyDatacenter.t)
    (m m' : string) (N : Z) :
  wf_userConfig uc →
  InferTopology uc = Ok t →
  (dc, v) ∈ userConfigTopology.Datacenters (userConfig.Topology uc) →
  (dc', v') ∈ userConfigTopology.Datacenters (userConfig.Topology uc) →
  dc ≠ dc' →
  dc = "dc" +:+ m → dc' = "dc" +:+ m' →
  Atoi m = Some N → Atoi m' = Some N →
  ∃ n n',
    Node t (dc +:+ "-server1") = Ok n
    ∧ Node t (dc' +:+ "-server1") = Ok n'
    ∧ Node.Name n ≠ Node.Name n'
    ∧ LocalAddress n = Ok ("10.0." +:+ Itoa N +:+ ".11")
    ∧ LocalAddress n' = Ok ("10.0." +:+ Itoa N +:+ ".11")
    ∧ (Topology.NetworkShape t = NetworkShapeFlat →
       Node.Addresses n = Node.Addresses n').
Proof.
  intros Hwf Hok Hin Hin' Hne Hdc Hdc' HN HN'.
  destruct (InferTopology_built _ _ Hwf Hok) as (shape & ds & Hb).
  pose proof (built_valid_shape _ _ _ _ Hb) as Hv.
  pose proof (built_descriptors _ _ _ _ Hb) as Hdok.
  rewrite Forall_forall in Hdok.
  destruct (built_entry _ _ _ _ Hb dc v Hin) as (d & Hd & Hname & _).
  destruct (built_entry _ _ _ _ Hb dc' v' Hin') as (d' & Hd' & Hname' & _).
  destruct (built_descriptor_of_name _ _ _ _ d m N Hb Hd
              ltac:(by rewrite Hname) HN) as [HB HW].
  destruct (built_descriptor_of_name _ _ _ _ d' m' N Hb Hd'
              ltac:(by rewrite Hname') HN') as [HB' HW'].
  destruct (Hdok d Hd) as (HS & _). destruct (Hdok d' Hd') as (HS' & _).
  exists (serverOf shape (Datacenter.Name d) (Datacenter.BaseIP d)
            (Datacenter.WANBaseIP d) 1),
         (serverOf shape (Datacenter.Name d') (Datacenter.BaseIP d')
            (Datacenter.WANBaseIP d') 1).
  rewrite <-Hname, <-Hname'.
  change (Datacenter.Name d +:+ "-server1") with (serverName (Datacenter.Name d) 1).
  change (Datacenter.Name d' +:+ "-server1") with (serverName (Datacenter.Name d') 1).
  split.
  { apply (built_Node _ _ _ _ Hb (serverOf _ _ _ _ _)),
      (built_server_in uc _ ds d 1 Hd). lia. }
  split.
  { apply (built_Node _ _ _ _ Hb (serverOf _ _ _ _ _)),
      (built_server_in uc _ ds d' 1 Hd'). lia. }
  split.
  { cbn [Node.Name serverOf]. intros E.
    apply serverName_inj in E as [E _];
      [|by apply descriptor_ok_no_dash, Hdok..].
    apply Hne. by rewrite <-Hname, <-Hname'. }
  rewrite !LocalAddress_localEntry, !localEntry_serverOf by done.
  cbn [Address.IPAddress]. rewrite HB, HB', !string_app_assoc.
  split; [done|]. split; [done|].
  rewrite (built_shape _ _ _ _ Hb). intros ->.
  unfold serverOf. cbn [Node.Addresses]. reflexivity.
Qed.

Lemma example_same_number_wf : wf_userConfig example_same_number.
Proof. unfold wf_userConfig. apply (bool_decide_unpack _). by vm_compute. Qed.

Lemma X16_witness :
  ∃ t n n', InferTopology example_same_number = Ok t
    ∧ Node t "dc1-server1" = Ok n
    ∧ Node t "dc01-server1" = Ok n'
    ∧ Node.Name n ≠ Node.Name n'
    ∧ LocalAddress n = Ok "10.0.1.11"
    ∧ LocalAddress n' = Ok "10.0.1.11".
Proof.
  eexists _, _, _. split; [reflexivity|].
  split; [vm_compute; reflexivity|]. split; [vm_compute; reflexivity|].
  destruct (X16_same_number_collision example_same_number _
              "dc1" "dc01" (dcv 1 1) (dcv 1 1) "1" "01" 1
              example_same_number_wf eq_refl
              (list_elem_of_here _ _)
              (list_elem_of_further _ _ _ (list_elem_of_here _ _))
              ltac:(discriminate) eq_refl eq_refl eq_refl eq_refl)
    as (n & n' & Hn & Hn' & Hne & Ha & Ha' & _).
  vm_compute in Hn. injection Hn as <-.
  vm_compute in Hn'. injection Hn' as <-.
  split; [exact Hne|]. split; [exact Ha|exact Ha'].
Defined.

(** ** The table of overrides *)

Lemma clientOf_ext cfgs cfgs' shape dc b w k :
  nodeConfigFor cfgs (clientName dc k) = nodeConfigFor cfgs' (clientName dc k) →
  clientOf cfgs shape dc b w k = clientOf cfgs' shape dc b w k.
Proof. intros H. unfold clientOf. by rewrite H. Qed.

(** X17: the table of overrides is read at the names of the clients
    only: two tables (or a missing table and a table) that give the same
    override for every client name <dc>-client<k> of the input give the
    same outcome of [InferTopology], whatever else they hold. *)
Theorem X17_overrides_by_client_name (shape : string)
    (es : list (string * userConfigTopologyDatacenter.t))
    (cfgs cfgs' : option (gmap string userConfigTopologyNodeConfig.t)) :
  (∀ dc v k, (dc, v) ∈ es → 1 ≤ k ≤ userConfigTopologyDatacenter.Clients v →
     nodeConfigFor cfgs (dc +:+ "-client" +:+ Itoa k)
     = nodeConfigFor cfgs' (dc +:+ "-client" +:+ Itoa k)) →
  InferTopology (uc_of shape es cfgs) = InferTopology (uc_of shape es cfgs').
Proof.
  intros H. rewrite !InferTopology_unfold. cbn [uc_of userConfig.Topology
    userConfigTopology.NetworkShape userConfigTopology.Datacenters
    userConfigTopology.NodeConfig].
  destruct (negb (shapeSupported shape)); [done|].
  destruct (assoc_lookup PrimaryDC es); [|done].
  destruct (mapM descriptor es) as [ds0| |] eqn:E; [|done..].
  cbn [mbind res_bind]. do 2 f_equal.
  apply bind_ext_in. intros d Hd.
  unfold sort_Slice in Hd. rewrite merge_sort_Permutation in Hd.
  destruct (descriptors_entries _ _ E) as [Hes _].
  unfold nodesOf, clientsOf. f_equal. apply fmap_ext_in.
  intros k Hk%elem_of_seqZ. apply clientOf_ext, (H _ (entryOf d).2).
  - rewrite Hes. by apply (list_elem_of_fmap_2 entryOf).
  - simpl. lia.
Qed.

Lemma X17_witness :
  InferTopology (uc_of "flat" [("dc1", dcv 1 1)] None)
  = InferTopology
      (uc_of "flat" [("dc1", dcv 1 1)]
         (Some (<["dc1-server1" :=
                    userConfigTopologyNodeConfig.mk "" "" "" false true ∅]> ∅))).
Proof.
  apply X17_overrides_by_client_name.
  intros dc v k [E|[]]%list_elem_of_In Hk. injection E as <- <-.
  simpl in Hk. assert (k = 1) as -> by lia.
  vm_compute. reflexivity.
Defined.
